(** * Tamil text checker: the multi-checker analyzer and its three checkers

    A shallow embedding of [src/main.py] (the [TamilTextAnalyzer] and the
    tally behind [create_error_visualization]) and of the three checkers it
    registers: [src/models/rule_based_model.py],
    [src/models/deep_learning_model.py], [src/models/statistical_model.py].

    Python values are modelled as follows.
    - [str] is a list of Unicode code points ([pystr]); literals are written
      as in the source and decoded from UTF-8 by [py].
    - a tuple [(error_type, msg, context)] is a Rocq triple.
    - a [dict] is an association list in insertion order ([pydict]).
    - code that can raise lives in the error monad [Exc]; [try]/[except
      Exception] is [try_except].  The loop of [analyze_text] mutates two
      dicts inside a [try] block, so it lives in [M], a state monad whose
      state survives a raise.
    - the libraries the checkers call (indicnlp, transformers/torch,
      scikit-learn, the Unicode database, the file system) are the fields of
      the class [External]. *)

From Stdlib Require Import List String Ascii NArith Bool Arith Lia.
Import ListNotations.

Set Implicit Arguments.

(** ** Python strings *)

Definition codepoint := N.
Definition pystr := list codepoint.

(** UTF-8 decoding of a source literal into code points. *)
Fixpoint utf8_decode (bs : list N) : pystr :=
  match bs with
  | [] => []
  | b0 :: r0 =>
    if (b0 <? 128)%N then b0 :: utf8_decode r0
    else match r0 with
    | [] => [b0]
    | b1 :: r1 =>
      if (b0 <? 224)%N
      then ((b0 - 192) * 64 + (b1 - 128))%N :: utf8_decode r1
      else match r1 with
      | [] => [b0; b1]
      | b2 :: r2 =>
        if (b0 <? 240)%N
        then ((b0 - 224) * 4096 + (b1 - 128) * 64 + (b2 - 128))%N
               :: utf8_decode r2
        else match r2 with
        | [] => [b0; b1; b2]
        | b3 :: r3 =>
          ((b0 - 240) * 262144 + (b1 - 128) * 4096
           + (b2 - 128) * 64 + (b3 - 128))%N :: utf8_decode r3
        end
      end
    end
  end.

Definition py (s : string) : pystr :=
  utf8_decode (map N_of_ascii (list_ascii_of_string s)).

Fixpoint str_eqb (a b : pystr) : bool :=
  match a, b with
  | [], [] => true
  | x :: a', y :: b' => (x =? y)%N && str_eqb a' b'
  | _, _ => false
  end.

(** [x in [a, b, ...]] on strings. *)
Definition str_in (x : pystr) (l : list pystr) : bool := existsb (str_eqb x) l.

(** [str.isspace] of one character (also the class [\s] of [re] on [str]
    patterns): the Unicode white-space characters. *)
Definition isspace (c : codepoint) : bool :=
  ((9 <=? c) && (c <=? 13) || (28 <=? c) && (c <=? 32)
   || (c =? 133) || (c =? 160) || (c =? 5760)
   || (8192 <=? c) && (c <=? 8202)
   || (c =? 8232) || (c =? 8233) || (c =? 8239) || (c =? 8287)
   || (c =? 12288))%N.

Fixpoint lstrip (s : pystr) : pystr :=
  match s with
  | c :: s' => if isspace c then lstrip s' else s
  | [] => []
  end.

Definition rstrip (s : pystr) : pystr := rev (lstrip (rev s)).

(** [s.strip()] *)
Definition strip (s : pystr) : pystr := rstrip (lstrip s).

(** Truth value of a string: non-empty. *)
Definition truthy (s : pystr) : bool :=
  match s with [] => false | _ => true end.

(** [s.split(sep)] for a one-character separator: empty pieces are kept. *)
Fixpoint split_on (sep : codepoint) (s : pystr) (piece : pystr) : list pystr :=
  match s with
  | [] => [rev piece]
  | c :: s' =>
    if (c =? sep)%N then rev piece :: split_on sep s' []
    else split_on sep s' (c :: piece)
  end.

(** [s.split()]: pieces between runs of white space, none of them empty. *)
Fixpoint split_ws (s : pystr) (piece : pystr) : list pystr :=
  match s with
  | [] => match piece with [] => [] | _ => [rev piece] end
  | c :: s' =>
    if isspace c
    then match piece with
         | [] => split_ws s' []
         | _ => rev piece :: split_ws s' []
         end
    else split_ws s' (c :: piece)
  end.

(** [sep.join(l)] *)
Fixpoint join (sep : pystr) (l : list pystr) : pystr :=
  match l with
  | [] => []
  | [x] => x
  | x :: l' => x ++ sep ++ join sep l'
  end.

(** ** Exceptions

    [exn] stands for the instances of [Exception], which is what every
    handler of the repository catches; [exn_str] is [str(e)]. *)

Inductive exn_class :=
  | FileNotFoundError
  | IndexError
  | AttributeError
  | OtherException.

Record exn := mk_exn { exn_cls : exn_class; exn_str : pystr }.

Inductive Exc (A : Type) : Type :=
  | Returns (a : A)
  | Raises (e : exn).
Arguments Returns {A} a.
Arguments Raises {A} e.

Definition exc_bind {A B} (c : Exc A) (k : A -> Exc B) : Exc B :=
  match c with
  | Returns a => k a
  | Raises e => Raises e
  end.

(** [try: body / except Exception as e: handler e] *)
Definition try_except {A} (body : Exc A) (handler : exn -> Exc A) : Exc A :=
  match body with
  | Returns a => Returns a
  | Raises e => handler e
  end.

Declare Scope exc_scope.
Delimit Scope exc_scope with exc.
Notation "x <- c ;; k" := (exc_bind c (fun x => k))
  (at level 61, c at next level, right associativity) : exc_scope.

(** [l[i]], raising [IndexError] out of range. *)
Definition index {A} (l : list A) (i : nat) : Exc A :=
  match nth_error l i with
  | Some a => Returns a
  | None => Raises (mk_exn IndexError (py "list index out of range"))
  end.

(** ** Dictionaries, in insertion order *)

Definition pydict (V : Type) := list (pystr * V).

Fixpoint dict_get {V} (d : pydict V) (k : pystr) : option V :=
  match d with
  | [] => None
  | (k', v) :: d' => if str_eqb k k' then Some v else dict_get d' k
  end.

(** [d[k] = v]: an existing key keeps its place, a new key goes last. *)
Fixpoint dict_set {V} (d : pydict V) (k : pystr) (v : V) : pydict V :=
  match d with
  | [] => [(k, v)]
  | (k', v') :: d' =>
    if str_eqb k k' then (k', v) :: d' else (k', v') :: dict_set d' k v
  end.

Definition dict_keys {V} (d : pydict V) : list pystr := map fst d.

(** [k in d] *)
Definition dict_mem {V} (d : pydict V) (k : pystr) : bool :=
  existsb (str_eqb k) (dict_keys d).

(** A dict literal [{k1: v1, k2: v2, ...}]. *)
Definition dict_of {V} (l : list (pystr * V)) : pydict V :=
  fold_left (fun d kv => dict_set d (fst kv) (snd kv)) l [].

(** ** The libraries behind the checkers

    What the repository imports and does not define: the Unicode database
    ([str.isalnum], which decides [\w], and [str.isdigit]), float comparison
    and formatting, indicnlp's tokenizer, the dictionary file, the masked
    language model of transformers/torch and the scikit-learn vectorizers
    and classifiers.  Every call that can fail returns in [Exc]. *)

Class External := {
  (* Unicode database *)
  unicode_isalnum : codepoint -> bool;
  unicode_isdigit : codepoint -> bool;
  (* floats: [p < 0.8], [p < 0.1] and [f'{p:.2%}'] *)
  prob : Type;
  prob_lt_0_8 : prob -> bool;
  prob_lt_0_1 : prob -> bool;
  format_percent : prob -> pystr;
  (* indicnlp.tokenize.indic_tokenize.trivial_tokenize *)
  trivial_tokenize : pystr -> Exc (list pystr);
  (* the lines of data/tamil_dictionary.txt, or what [open] raises *)
  read_dictionary_file : Exc (list pystr);
  (* AutoTokenizer / AutoModelForMaskedLM: loading both, and the
     probability of [word] at the masked position [i] of [words]
     ([None] when the mask token is not found in the encoded input) *)
  mlm : Type;
  from_pretrained : Exc mlm;
  masked_word_probability :
    mlm -> list pystr -> nat -> pystr -> Exc (option prob);
  (* TfidfVectorizer / MultinomialNB / RandomForestClassifier: fitting on
     the training texts and labels, feature extraction, [predict_proba] *)
  fitted : Type;
  features : Type;
  fit_models : list pystr -> list nat -> list nat -> Exc fitted;
  extract_features : fitted -> pystr -> Exc features;
  spelling_predict_proba : fitted -> features -> Exc (list (list prob));
  grammar_predict_proba : fitted -> features -> Exc (list (list prob))
}.

(** ** The fragment of [re] the repository uses

    Patterns are sequences of one-character atoms (a literal, [.], [\w],
    [\s], a set [[...]] of characters and ranges), each optionally followed
    by [*] or [+].  Matching is the backtracking search of [re]: a
    quantifier takes as many characters as it can and gives them back one
    at a time. *)

Module Re.

Inductive atom :=
  | Lit (c : codepoint)
  | Dot
  | WordChar
  | SpaceChar
  | OneOf (ranges : list (codepoint * codepoint)).

Inductive quant := One | Star | Plus.

Definition pattern := list (atom * quant).

Definition chr (a : ascii) : codepoint := N_of_ascii a.

(** The items of a set, after the opening bracket, up to the closing one. *)
Fixpoint parse_set (s : pystr) (acc : list (codepoint * codepoint))
  : option (list (codepoint * codepoint) * pystr) :=
  match s with
  | [] => None
  | c :: s' =>
    if (c =? chr "]")%N then
      match acc with [] => None | _ => Some (rev acc, s') end
    else if (c =? chr "\")%N || (c =? chr "^")%N then None
    else match s' with
    | d :: e :: s'' =>
      if (d =? chr "-")%N && negb (e =? chr "]")%N
      then parse_set s'' ((c, e) :: acc)
      else parse_set s' ((c, c) :: acc)
    | _ => parse_set s' ((c, c) :: acc)
    end
  end.

Definition parse_atom (c : codepoint) (s : pystr) : option (atom * pystr) :=
  if (c =? chr "\")%N then
    match s with
    | e :: r =>
      if (e =? chr "w")%N then Some (WordChar, r)
      else if (e =? chr "s")%N then Some (SpaceChar, r)
      else None
    | [] => None
    end
  else if (c =? chr "[")%N then
    match parse_set s [] with
    | Some (ranges, r) => Some (OneOf ranges, r)
    | None => None
    end
  else if (c =? chr ".")%N then Some (Dot, s)
  else if existsb (N.eqb c)
            (map chr ["*"; "+"; "?"; "("; ")"; "|"; "{"; "}"; "^"; "$"]%char)
  then None
  else Some (Lit c, s).

Definition parse_quant (s : pystr) : quant * pystr :=
  match s with
  | q :: r =>
    if (q =? chr "*")%N then (Star, r)
    else if (q =? chr "+")%N then (Plus, r)
    else (One, s)
  | [] => (One, s)
  end.

Fixpoint parse (fuel : nat) (s : pystr) : option pattern :=
  match fuel with
  | O => None
  | S fuel' =>
    match s with
    | [] => Some []
    | c :: s' =>
      match parse_atom c s' with
      | None => None
      | Some (a, r) =>
        let (q, r') := parse_quant r in
        match parse fuel' r' with
        | Some p => Some ((a, q) :: p)
        | None => None
        end
      end
    end
  end.

(** [re.compile]; [None] for a pattern outside the fragment. *)
Definition compile (s : pystr) : option pattern := parse (S (List.length s)) s.

Section Matching.
Context `{External}.

Definition in_range (c : codepoint) (r : codepoint * codepoint) : bool :=
  ((fst r <=? c) && (c <=? snd r))%N.

Definition atom_matches (a : atom) (c : codepoint) : bool :=
  match a with
  | Lit c' => (c =? c')%N
  | Dot => negb (c =? 10)%N
  | WordChar => unicode_isalnum c || (c =? chr "_")%N
  | SpaceChar => isspace c
  | OneOf ranges => existsb (in_range c) ranges
  end.

(** Greedy repetition of [a], then the continuation [k]; the result is the
    number of characters consumed. *)
Fixpoint repeat_greedy (a : atom) (k : pystr -> option nat) (s : pystr)
  : option nat :=
  match s with
  | c :: s' =>
    if atom_matches a c then
      match repeat_greedy a k s' with
      | Some n => Some (S n)
      | None => k s
      end
    else k s
  | [] => k s
  end.

(** A match of [p] that starts at the head of [s]: its length. *)
Fixpoint match_here (p : pattern) (s : pystr) : option nat :=
  match p with
  | [] => Some O
  | (a, One) :: p' =>
    match s with
    | c :: s' =>
      if atom_matches a c then option_map S (match_here p' s') else None
    | [] => None
    end
  | (a, Star) :: p' => repeat_greedy a (match_here p') s
  | (a, Plus) :: p' =>
    match s with
    | c :: s' =>
      if atom_matches a c
      then option_map S (repeat_greedy a (match_here p') s')
      else None
    | [] => None
    end
  end.

(** The leftmost match: where it starts and how long it is. *)
Fixpoint search_from (p : pattern) (s : pystr) : option (nat * nat) :=
  match match_here p s with
  | Some n => Some (O, n)
  | None =>
    match s with
    | [] => None
    | _ :: s' =>
      match search_from p s' with
      | Some (i, n) => Some (S i, n)
      | None => None
      end
    end
  end.

(** The non-overlapping matches from left to right, as [match.group()].
    [skip] counts the characters still inside the previous match.  No
    pattern of the repository matches the empty string; an empty match is
    passed over. *)
Fixpoint scan (p : pattern) (s : pystr) (skip : nat) : list pystr :=
  match s with
  | [] => []
  | _ :: s' =>
    match skip with
    | S k => scan p s' k
    | O =>
      match match_here p s with
      | Some (S n) => firstn (S n) s :: scan p s' n
      | _ => scan p s' O
      end
    end
  end.

(** The pieces between the matches. *)
Fixpoint pieces (p : pattern) (s : pystr) (skip : nat) (piece : pystr)
  : list pystr :=
  match s with
  | [] => [rev piece]
  | c :: s' =>
    match skip with
    | S k => pieces p s' k piece
    | O =>
      match match_here p s with
      | Some (S n) => rev piece :: pieces p s' n []
      | _ => pieces p s' O (c :: piece)
      end
    end
  end.

Definition is_some {A} (o : option A) : bool :=
  match o with Some _ => true | None => false end.

(** [bool(re.match(pattern, s))] *)
Definition match_ (pat s : pystr) : bool :=
  match compile pat with
  | Some p => is_some (match_here p s)
  | None => false
  end.

(** [bool(re.search(pattern, s))] *)
Definition search (pat s : pystr) : bool :=
  match compile pat with
  | Some p => is_some (search_from p s)
  | None => false
  end.

(** [[m.group() for m in re.finditer(pattern, s)]] *)
Definition finditer (pat s : pystr) : list pystr :=
  match compile pat with
  | Some p => scan p s O
  | None => []
  end.

(** [re.split(pattern, s)] *)
Definition split (pat s : pystr) : list pystr :=
  match compile pat with
  | Some p => pieces p s O []
  | None => [s]
  end.

End Matching.
End Re.

(** ** Error records and the checker interface *)

(** The tuple [(error_type, msg, context)]. *)
Definition ErrorRecord := (pystr * pystr * pystr)%type.

Definition category (r : ErrorRecord) : pystr := fst (fst r).
Definition message (r : ErrorRecord) : pystr := snd (fst r).
Definition context (r : ErrorRecord) : pystr := snd r.

(** What [analyze_text] uses of a registered object: the names [hasattr]
    finds on it, its [check_text], and its [correct_spelling] (which raises
    [AttributeError] on an object without one). *)
Record Checker := mk_checker {
  attrs : list string;
  check_text : pystr -> Exc (list ErrorRecord);
  correct_spelling : pystr -> Exc pystr
}.

Definition hasattr (model : Checker) (name : string) : bool :=
  existsb (String.eqb name) (attrs model).

Definition no_attribute (name : string) : exn :=
  mk_exn AttributeError (py "object has no attribute '" ++ py name ++ py "'").

Definition dquote : pystr := [34%N].

(** ** [models/rule_based_model.py] *)

Module RuleBasedChecker.
Section Defs.
Context {E : External}.

Record t := { tamil_words : pydict pystr }.

(** [self.grammar_rules], one definition per key of the literal. *)
Definition subject_verb_agreement : list (pystr * pystr) := [
  (py "நான்.*கிறார்கள்", py "First person singular with plural verb");
  (py "நான்.*கிறார்", py "First person singular with formal verb");
  (py "நான்.*கிறது", py "First person with neuter verb");
  (py "நாங்கள்.*கிறான்", py "First person plural with singular verb");
  (py "நாங்கள்.*கிறாள்", py "First person plural with feminine singular");
  (py "நீ.*கிறார்கள்", py "Second person singular with plural verb");
  (py "நீங்கள்.*கிறான்", py "Second person plural with singular verb");
  (py "ஆசிரியர்.*கிறான்", py "Honorific subject with informal verb")
].

Definition spelling_patterns : list (pystr * pystr) := [
  (py "சல்", py "Possible misspelling of செல்");
  (py "பதில்", py "Possible misspelling of பதிவு");
  (py "எங்க", py "Possible misspelling of எங்கே")
].

Definition word_spacing : list (pystr * pystr) := [
  (py "\w+க்கு\w+", py "Missing space before க்கு");
  (py "\w+யில்\w+", py "Missing space before யில்");
  (py "\w+உடன்\w+", py "Missing space before உடன்")
].

Definition grammar_rules : pydict (list (pystr * pystr)) := dict_of [
  (py "subject_verb_agreement", subject_verb_agreement);
  (py "spelling_patterns", spelling_patterns);
  (py "word_spacing", word_spacing)
].

Definition basic_dictionary : pydict pystr := dict_of [
  (py "நான்", py "pronoun");
  (py "நீ", py "pronoun");
  (py "நாங்கள்", py "pronoun");
  (py "பள்ளி", py "noun");
  (py "பள்ளிக்கு", py "noun");
  (py "செல்கிறேன்", py "verb");
  (py "செல்கிறான்", py "verb");
  (py "செல்கிறாள்", py "verb");
  (py "செல்கிறது", py "verb");
  (py "படிக்கிறோம்", py "verb");
  (py "பாடல்", py "noun");
  (py "பாடுகிறேன்", py "verb");
  (py "ஆசிரியர்", py "noun");
  (py "நல்ல", py "adjective");
  (py "பாடங்களை", py "noun");
  (py "கற்றுக்", py "verb");
  (py "கொடுக்கிறார்", py "verb")
].

(** One line of the dictionary file. *)
Definition add_line (d : pydict pystr) (line : pystr) : pydict pystr :=
  if truthy (strip line) then
    match split_on (Re.chr ",") (strip line) [] with
    | p0 :: p1 :: _ => dict_set d p0 p1
    | _ => d
    end
  else d.

(** Only [FileNotFoundError] is handled; any other exception leaves the
    function. *)
Definition _load_tamil_dictionary : Exc (pydict pystr) :=
  match read_dictionary_file with
  | Returns lines => Returns (fold_left add_line lines basic_dictionary)
  | Raises e =>
    match exn_cls e with
    | FileNotFoundError => Returns basic_dictionary
    | _ => Raises e
    end
  end.

Definition __init__ : Exc t :=
  (words <- _load_tamil_dictionary ;;
   Returns {| tamil_words := words |})%exc.

Definition split_sentences (text : pystr) : list pystr :=
  map strip (filter (fun s => truthy (strip s)) (Re.split (py "[.!?।]") text)).

Definition matching_rules (rules : list (pystr * pystr))
    (test : pystr -> bool) (kind : pystr) (ctx : pystr) : list ErrorRecord :=
  flat_map (fun rule : pystr * pystr =>
    if test (fst rule) then [(kind, snd rule, ctx)] else []) rules.

(** The body of the loop of [check_spelling] for one word. *)
Definition check_word (self : t) (word : pystr) : list ErrorRecord :=
  matching_rules spelling_patterns (fun pattern => Re.match_ pattern word)
    (py "spelling") word
  ++ (if negb (dict_mem (tamil_words self) word)
         && negb (existsb unicode_isdigit word)
      then [(py "spelling", py "Unknown word: " ++ word, word)]
      else [])
  ++ matching_rules word_spacing (fun pattern => Re.match_ pattern word)
       (py "spelling") word.

Definition check_spelling (self : t) (text : pystr) : Exc (list ErrorRecord) :=
  (words <- trivial_tokenize text ;;
   Returns (flat_map (check_word self) words))%exc.

Definition check_grammar (self : t) (text : pystr) : list ErrorRecord :=
  flat_map (fun sentence =>
    matching_rules subject_verb_agreement
      (fun pattern => Re.search pattern sentence) (py "grammar") sentence)
    (split_sentences text).

Definition check_text (self : t) (text : pystr) : Exc (list ErrorRecord) :=
  try_except
    (spelling_errors <- check_spelling self text ;;
     let grammar_errors := check_grammar self text in
     let all_errors := spelling_errors ++ grammar_errors in
     Returns (match all_errors with [] => [] | _ => all_errors end))%exc
    (fun e =>
       Returns [(py "error", py "Error in text analysis: " ++ exn_str e, text)]).

(** The names defined on an instance: the methods of the class and the
    attributes set by the constructor. *)
Definition attributes : list string := [
  "__init__"; "_load_tamil_dictionary"; "split_sentences"; "check_spelling";
  "check_grammar"; "check_text"; "tamil_words"; "grammar_rules"
]%string.

Definition as_checker (self : t) : Checker :=
  mk_checker attributes (check_text self)
    (fun _ => Raises (no_attribute "correct_spelling")).

End Defs.
End RuleBasedChecker.

(** ** [models/deep_learning_model.py] *)

Module DeepLearningChecker.
Section Defs.
Context {E : External}.

(** [self.tokenizer] and [self.model] are set together: both loaded, or
    both [None]. *)
Record t := { model : option mlm }.

(** The handler prints the failure and leaves both attributes [None]. *)
Definition _initialize_model : Exc (option mlm) :=
  try_except
    (m <- from_pretrained ;; Returns (Some m))%exc
    (fun _ => Returns None).

Definition tamil_dict : pydict pystr := dict_of [
  (py "நான்", py "pronoun"); (py "நீ", py "pronoun"); (py "அவன்", py "pronoun");
  (py "அவள்", py "pronoun"); (py "அது", py "pronoun"); (py "நாங்கள்", py "pronoun");
  (py "செல்", py "verb_root"); (py "படி", py "verb_root");
  (py "கிறேன்", py "verb_suffix"); (py "கிறான்", py "verb_suffix");
  (py "கிறாள்", py "verb_suffix"); (py "கிறது", py "verb_suffix");
  (py "கிறோம்", py "verb_suffix"); (py "பள்ளி", py "noun"); (py "வீடு", py "noun")
].

Definition tamil_patterns : pydict (list (pystr * pystr)) := dict_of [
  (py "grammar", [
     (py "நான்.*கிறது", py "First person with neuter verb - use கிறேன் instead");
     (py "நாங்கள்.*கிறான்", py "Plural subject with singular verb - use கிறோம் instead");
     (py "அவர்.*கிறேன்", py "Third person honorific with first person verb - use கிறார் instead");
     (py "நீங்கள்.*கிறான்", py "Honorific subject with informal verb - use கிறீர்கள் instead")
   ]);
  (py "spelling", [
     (py "சல்", py "செல்"); (py "பதில்", py "பதிவு"); (py "எங்க", py "எங்கே")
   ]);
  (py "spacing", [
     (py "\w+க்கு\w+", py "Add space before க்கு");
     (py "\w+யில்\w+", py "Add space before யில்");
     (py "\w+உடன்\w+", py "Add space before உடன்")
   ])
].

Definition __init__ : Exc t :=
  (m <- _initialize_model ;;
   Returns {| model := m |})%exc.

(** The loop over [enumerate(words)]: [i] is the index of the head of
    [rest] in [words]. *)
Fixpoint word_scores (m : mlm) (words : list pystr) (i : nat)
    (rest : list pystr) : Exc (list (pystr * prob)) :=
  match rest with
  | [] => Returns []
  | word :: rest' =>
    (p <- masked_word_probability m words i word ;;
     scores <- word_scores m words (S i) rest' ;;
     Returns match p with
             | Some word_prob => (word, word_prob) :: scores
             | None => scores
             end)%exc
  end.

Definition _assess_word_probability (self : t) (text : pystr)
  : Exc (list (pystr * prob)) :=
  match model self with
  | None => Returns []
  | Some m =>
    try_except
      (let words := split_ws text [] in word_scores m words O words)
      (fun _ => Returns [])
  end.

Definition pattern_error (error_type correction text group : pystr)
  : ErrorRecord :=
  if str_eqb error_type (py "spelling") then
    (py "spelling",
     py "Suggestion: Replace " ++ dquote ++ group ++ dquote
       ++ py " with " ++ dquote ++ correction ++ dquote, text)
  else if str_eqb error_type (py "grammar") then
    (py "grammar", correction, text)
  else (py "format", correction, text).

Definition _check_patterns (self : t) (text : pystr) : list ErrorRecord :=
  flat_map (fun item : pystr * list (pystr * pystr) =>
    let (error_type, patterns) := item in
    flat_map (fun rule : pystr * pystr =>
      let (pattern, correction) := rule in
      map (pattern_error error_type correction text)
          (Re.finditer pattern text)) patterns) tamil_patterns.

Definition _split_sentences (text : pystr) : list pystr :=
  map strip (filter (fun s => truthy (strip s)) (Re.split (py "[.!?।]") text)).

Definition unusual_words (sentence : pystr) (scores : list (pystr * prob))
  : list ErrorRecord :=
  flat_map (fun wp : pystr * prob =>
    let (word, p) := wp in
    if prob_lt_0_1 p then
      [(py "spelling",
        py "Unusual word detected: " ++ dquote ++ word ++ dquote
          ++ py " (confidence: " ++ format_percent p ++ py ")", sentence)]
    else []) scores.

(** The loop over the sentences of [check_text]. *)
Fixpoint check_sentences (self : t) (sentences : list pystr)
  : Exc (list ErrorRecord) :=
  match sentences with
  | [] => Returns []
  | sentence :: rest =>
    (scores <- _assess_word_probability self sentence ;;
     errors <- check_sentences self rest ;;
     Returns (_check_patterns self sentence
              ++ unusual_words sentence scores ++ errors))%exc
  end.

Definition check_text (self : t) (text : pystr) : Exc (list ErrorRecord) :=
  try_except
    (check_sentences self (_split_sentences text))
    (fun e =>
       Returns [(py "error", py "Error in analysis: " ++ exn_str e, text)]).

Definition pattern_suggestion (error_type pattern correction : pystr) : pystr :=
  if str_eqb error_type (py "spelling") then
    py "Spelling suggestion: Replace '" ++ pattern ++ py "' with '"
      ++ correction ++ py "'"
  else if str_eqb error_type (py "grammar") then
    py "Grammar suggestion: " ++ correction
  else py "Format suggestion: " ++ correction.

Fixpoint suggest_sentences (self : t) (sentences : list pystr)
  : Exc (list pystr) :=
  match sentences with
  | [] => Returns []
  | sentence :: rest =>
    (scores <- _assess_word_probability self sentence ;;
     suggestions <- suggest_sentences self rest ;;
     Returns (
       flat_map (fun item : pystr * list (pystr * pystr) =>
         let (error_type, patterns) := item in
         flat_map (fun rule : pystr * pystr =>
           let (pattern, correction) := rule in
           if Re.search pattern sentence
           then [pattern_suggestion error_type pattern correction]
           else []) patterns) tamil_patterns
       ++ flat_map (fun wp : pystr * prob =>
            if prob_lt_0_1 (snd wp) then
              [py "Unusual word detected: '" ++ fst wp
                 ++ py "' might need review"]
            else []) scores
       ++ suggestions))%exc
  end.

Definition get_correction_suggestions (self : t) (text : pystr)
  : Exc (list pystr) :=
  try_except
    (suggestions <- suggest_sentences self (_split_sentences text) ;;
     Returns match suggestions with
             | [] => [py "No specific corrections needed."]
             | _ => suggestions
             end)%exc
    (fun e => Returns [py "Error generating suggestions: " ++ exn_str e]).

Definition attributes : list string := [
  "__init__"; "_initialize_model"; "_load_tamil_dictionary";
  "_load_tamil_patterns"; "_assess_word_probability"; "_check_patterns";
  "_split_sentences"; "check_text"; "get_correction_suggestions";
  "tokenizer"; "model"; "tamil_dict"; "tamil_patterns"
]%string.

Definition as_checker (self : t) : Checker :=
  mk_checker attributes (check_text self)
    (fun _ => Raises (no_attribute "correct_spelling")).

End Defs.
End DeepLearningChecker.

(** ** [models/statistical_model.py] *)

Module StatisticalChecker.
Section Defs.
Context {E : External}.

(** The fitted vectorizers and classifiers. *)
Record t := { fitted_models : fitted }.

Definition train_texts : list pystr := [
  py "நான் பள்ளிக்கு செல்கிறேன்";
  py "நாங்கள் பள்ளிக்கு செல்கிறோம்";
  py "அவன் பள்ளிக்கு செல்கிறான்";
  py "அவள் பள்ளிக்கு செல்கிறாள்";
  py "நான் வீட்டிற்கு செல்கிறேன்";
  py "நாங்கள் கடைக்கு செல்கிறோம்"
].
Definition spelling_labels : list nat := [1; 1; 1; 1; 1; 1].
Definition grammar_labels : list nat := [1; 1; 1; 1; 1; 1].

Definition common_errors : pydict pystr := dict_of [
  (py "\w+கிறான்\s+\w+கிறாள்", py "Inconsistent gender agreement");
  (py "\w+கிறேன்\s+\w+கிறார்", py "Inconsistent honorific usage");
  (py "[அ-ஔ]\s+[ா-ௌ]", py "Invalid vowel mark placement")
].

Definition context_rules : list (pystr * pystr) := [
  (py "நான்.*கிறார்கள்", py "subject_verb_mismatch");
  (py "நாங்கள்.*கிறான்", py "number_mismatch")
].

Definition _train_models : Exc fitted :=
  fit_models train_texts spelling_labels grammar_labels.

Definition __init__ : Exc t :=
  (f <- _train_models ;;
   Returns {| fitted_models := f |})%exc.

Definition _extract_features (self : t) (text : pystr) : Exc features :=
  extract_features (fitted_models self) text.

Definition _analyze_patterns (self : t) (text : pystr) : list ErrorRecord :=
  flat_map (fun rule : pystr * pystr =>
    let (pattern, msg) := rule in
    if Re.search pattern text
    then [(py "statistical", py "Pattern error: " ++ msg, text)]
    else []) common_errors
  ++ flat_map (fun rule : pystr * pystr =>
    let (pattern, error_type) := rule in
    if Re.search pattern text
    then [(py "statistical", py "Context error: " ++ error_type, text)]
    else []) context_rules.

(** [if pred[0] < 0.8: errors.append((..., f'... {pred[1]:.2%})', text))] *)
Definition low_confidence (pred : list prob) (what : pystr) (text : pystr)
  : Exc (list ErrorRecord) :=
  (p0 <- index pred 0 ;;
   if prob_lt_0_8 p0 then
     p1 <- index pred 1 ;;
     Returns [(py "statistical",
               py "Possible " ++ what ++ py " errors (confidence: "
                 ++ format_percent p1 ++ py ")", text)]
   else Returns [])%exc.

(** The [try] block of [check_text]. *)
Definition analysis (self : t) (text : pystr) : Exc (list ErrorRecord) :=
  (feats <- _extract_features self text ;;
   sp <- spelling_predict_proba (fitted_models self) feats ;;
   spelling_pred <- index sp 0 ;;
   gp <- grammar_predict_proba (fitted_models self) feats ;;
   grammar_pred <- index gp 0 ;;
   e1 <- low_confidence spelling_pred (py "spelling") text ;;
   e2 <- low_confidence grammar_pred (py "grammar") text ;;
   Returns (e1 ++ e2 ++ _analyze_patterns self text))%exc.

Definition check_text (self : t) (text : pystr) : Exc (list ErrorRecord) :=
  try_except
    (analysis self text)
    (fun e =>
       Returns [(py "error", py "Error during analysis: " ++ exn_str e, text)]).

Definition attributes : list string := [
  "__init__"; "_train_models"; "_extract_features"; "_analyze_patterns";
  "check_text"; "word_vectorizer"; "char_vectorizer"; "spelling_model";
  "grammar_model"; "train_texts"; "spelling_labels"; "grammar_labels";
  "error_patterns"
]%string.

Definition as_checker (self : t) : Checker :=
  mk_checker attributes (check_text self)
    (fun _ => Raises (no_attribute "correct_spelling")).

End Defs.
End StatisticalChecker.

(** ** [main.py]: the analyzer *)

(** The two dicts [analyze_text] fills. *)
Record store := {
  results : pydict (list ErrorRecord);
  corrections : pydict pystr
}.

(** Computations that mutate the store and may raise; what was written
    before a raise stays written. *)
Definition M (A : Type) := store -> Exc A * store.

Definition m_ret {A} (a : A) : M A := fun s => (Returns a, s).

Definition m_bind {A B} (c : M A) (k : A -> M B) : M B :=
  fun s =>
    match c s with
    | (Returns a, s') => k a s'
    | (Raises e, s') => (Raises e, s')
    end.

(** A call that does not touch the store. *)
Definition call {A} (c : Exc A) : M A := fun s => (c, s).

Definition m_try {A} (body : M A) (handler : exn -> M A) : M A :=
  fun s =>
    match body s with
    | (Returns a, s') => (Returns a, s')
    | (Raises e, s') => handler e s'
    end.

(** [results[k] = v] *)
Definition set_result (k : pystr) (v : list ErrorRecord) : M unit :=
  fun s => (Returns tt,
            {| results := dict_set (results s) k v;
               corrections := corrections s |}).

(** [corrections[k] = v] *)
Definition set_correction (k : pystr) (v : pystr) : M unit :=
  fun s => (Returns tt,
            {| results := results s;
               corrections := dict_set (corrections s) k v |}).

Declare Scope m_scope.
Delimit Scope m_scope with m.
Notation "x <- c ;; k" := (m_bind c (fun x => k))
  (at level 61, c at next level, right associativity) : m_scope.
Notation "c ;; k" := (m_bind c (fun _ => k))
  (at level 61, right associativity) : m_scope.

(** [for x in l: body x] *)
Fixpoint for_each {X} (l : list X) (body : X -> M unit) : M unit :=
  match l with
  | [] => m_ret tt
  | x :: l' => (body x ;; for_each l' body)%m
  end.

Module TamilTextAnalyzer.

Record t := { models : pydict Checker }.

Section Init.
Context {E : External}.

(** The dict literal builds the three checkers in order; nothing catches
    what a constructor raises. *)
Definition __init__ : Exc t :=
  (rule_based <- RuleBasedChecker.__init__ ;;
   deep_learning <- DeepLearningChecker.__init__ ;;
   statistical <- StatisticalChecker.__init__ ;;
   Returns {| models := dict_of [
     (py "Rule-based", RuleBasedChecker.as_checker rule_based);
     (py "Deep Learning", DeepLearningChecker.as_checker deep_learning);
     (py "Statistical", StatisticalChecker.as_checker statistical)
   ] |})%exc.

End Init.

(** The condition under which [analyze_text] keeps a record. *)
Definition keeps (check_spelling check_grammar : bool) (error : ErrorRecord)
  : bool :=
  let error_type := category error in
  (str_eqb error_type (py "spelling") && check_spelling)
  || (str_in error_type [py "grammar"; py "statistical"] && check_grammar).

(** The body of the loop for one registered checker. *)
Definition analyze_with (text : pystr) (check_spelling check_grammar : bool)
    (item : pystr * Checker) : M unit :=
  let (model_name, model) := item in
  m_try
    (errors <- call (check_text model text) ;;
     let filtered_errors := filter (keeps check_spelling check_grammar) errors in
     set_result model_name filtered_errors ;;
     if hasattr model "correct_spelling" then
       corrected <- call (correct_spelling model text) ;;
       set_correction model_name corrected
     else m_ret tt)%m
    (fun e =>
       set_result model_name
         [(py "error", py "Error processing text: " ++ exn_str e, text)]).

Definition analyze_text (self : t) (text : pystr)
    (check_spelling check_grammar : bool)
  : Exc (pydict (list ErrorRecord) * pydict pystr) :=
  match for_each (models self) (analyze_with text check_spelling check_grammar)
          {| results := []; corrections := [] |} with
  | (Returns _, s) => Returns (results s, corrections s)
  | (Raises e, _) => Raises e
  end.

End TamilTextAnalyzer.

(** One row appended to [error_data]. *)
Record row := { Model : pystr; Error_Type : pystr; Count : nat }.

(** The rows [create_error_visualization] collects. *)
Definition error_data (results : pydict (list ErrorRecord)) : list row :=
  flat_map (fun item : pystr * list ErrorRecord =>
    let (model_name, errors) := item in
    let error_types :=
      map category
        (filter (fun error => negb (str_eqb (category error) (py "error")))
           errors) in
    map (fun error_type =>
           {| Model := model_name; Error_Type := error_type; Count := 1 |})
        error_types) results.

(** The data frame handed to the bar chart; [None] when there is nothing
    to draw. *)
Definition create_error_visualization (results : pydict (list ErrorRecord))
  : option (list row) :=
  match error_data results with
  | [] => None
  | rows => Some rows
  end.

(** ** What one pass of the loop leaves behind

    The loop body of [analyze_text] read as two functions of one checker:
    the exception that reaches the handler (if any), and from it the entry
    written to [results] and to [corrections]. *)

Definition raised_in_try (model : Checker) (text : pystr) : option exn :=
  match check_text model text with
  | Raises e => Some e
  | Returns _ =>
    if hasattr model "correct_spelling" then
      match correct_spelling model text with
      | Raises e => Some e
      | Returns _ => None
      end
    else None
  end.

Definition processing_error (e : exn) (text : pystr) : ErrorRecord :=
  (py "error", py "Error processing text: " ++ exn_str e, text).

Definition result_entry (text : pystr) (check_spelling check_grammar : bool)
    (model : Checker) : list ErrorRecord :=
  match raised_in_try model text with
  | Some e => [processing_error e text]
  | None =>
    match check_text model text with
    | Returns errors =>
      filter (TamilTextAnalyzer.keeps check_spelling check_grammar) errors
    | Raises e => [processing_error e text]
    end
  end.

Definition correction_entry (text : pystr) (item : pystr * Checker)
  : pydict pystr :=
  match check_text (snd item) text with
  | Returns _ =>
    if hasattr (snd item) "correct_spelling" then
      match correct_spelling (snd item) text with
      | Returns corrected => [(fst item, corrected)]
      | Raises _ => []
      end
    else []
  | Raises _ => []
  end.

(** Occurrences of a (checker, category) pair: in the rows of the chart and
    in the records of [results]. *)
Definition tally (rows : list row) (name cat : pystr) : nat :=
  List.length
    (filter (fun r => str_eqb (Model r) name && str_eqb (Error_Type r) cat)
       rows).

Definition occurrences (results : pydict (list ErrorRecord))
    (name cat : pystr) : nat :=
  list_sum
    (map (fun item : pystr * list ErrorRecord =>
            if str_eqb (fst item) name
            then List.length
                   (filter (fun r => str_eqb (category r) cat) (snd item))
            else O) results).

(** ** Concrete libraries, to run the model

    A small instance of [External]: the Unicode tables cover ASCII and the
    Tamil block, a float is a whole percentage, the tokenizer splits on
    single spaces; the remaining calls are given as arguments. *)

Definition ascii_alnum (c : codepoint) : bool :=
  ((48 <=? c) && (c <=? 57) || (65 <=? c) && (c <=? 90)
   || (97 <=? c) && (c <=? 122))%N.

Definition make_external
    (tokenize : pystr -> Exc (list pystr))
    (dictionary_file : Exc (list pystr))
    (load : Exc unit)
    (mask : Exc (option N))
    (fit : Exc unit)
    (feats : Exc unit) : External := {|
  unicode_isalnum := fun c =>
    (ascii_alnum c || (2949 <=? c) && (c <=? 3001)
     || (3046 <=? c) && (c <=? 3058))%N;
  unicode_isdigit := fun c =>
    ((48 <=? c) && (c <=? 57) || (3046 <=? c) && (c <=? 3055))%N;
  prob := N;
  prob_lt_0_8 := fun p => (p <? 80)%N;
  prob_lt_0_1 := fun p => (p <? 10)%N;
  format_percent := fun p => py "%";
  trivial_tokenize := tokenize;
  read_dictionary_file := dictionary_file;
  mlm := unit;
  from_pretrained := load;
  masked_word_probability := fun _ _ _ _ => mask;
  fitted := unit;
  features := unit;
  fit_models := fun _ _ _ => fit;
  extract_features := fun _ _ => feats;
  spelling_predict_proba := fun _ _ => Returns [[100%N]];
  grammar_predict_proba := fun _ _ => Returns [[100%N]]
|}.

Definition failure (msg : string) : exn := mk_exn OtherException (py msg).

(** No dictionary file, no language model; everything else works. *)
Definition sample_external : External :=
  make_external
    (fun s => Returns (split_on 32%N s []))
    (Raises (mk_exn FileNotFoundError (py "data/tamil_dictionary.txt")))
    (Raises (failure "model not available"))
    (Returns None) (Returns tt) (Returns tt).

(** The tokenizer, the language model and the feature extraction fail at
    every call. *)
Definition failing_external : External :=
  make_external
    (fun _ => Raises (failure "tokenizer failed"))
    (Returns [])
    (Returns tt)
    (Raises (failure "inference failed"))
    (Returns tt)
    (Raises (failure "vectorizer failed")).

(** Fitting the classifiers fails. *)
Definition untrainable_external : External :=
  make_external
    (fun s => Returns (split_on 32%N s []))
    (Returns [])
    (Returns tt) (Returns None)
    (Raises (failure "fit failed"))
    (Returns tt).

Definition sample_rule_based : RuleBasedChecker.t :=
  {| RuleBasedChecker.tamil_words := RuleBasedChecker.basic_dictionary |}.

Definition sample_deep_learning : @DeepLearningChecker.t sample_external :=
  @DeepLearningChecker.Build_t sample_external None.

Definition loaded_deep_learning : @DeepLearningChecker.t failing_external :=
  @DeepLearningChecker.Build_t failing_external (Some tt).

Definition sample_statistical : @StatisticalChecker.t sample_external :=
  @StatisticalChecker.Build_t sample_external tt.

Definition failing_statistical : @StatisticalChecker.t failing_external :=
  @StatisticalChecker.Build_t failing_external tt.

(** The analyzer [TamilTextAnalyzer()] builds over [sample_external]. *)
Definition sample_analyzer : TamilTextAnalyzer.t :=
  {| TamilTextAnalyzer.models := [
       (py "Rule-based",
        @RuleBasedChecker.as_checker sample_external sample_rule_based);
       (py "Deep Learning",
        DeepLearningChecker.as_checker sample_deep_learning);
       (py "Statistical",
        StatisticalChecker.as_checker sample_statistical)
     ] |}.

(** Objects that satisfy the interface the loop relies on: a checker whose
    [check_text] raises, one that reports a fixed list, and one whose
    [correct_spelling] raises after [check_text] has returned. *)
Definition raising_checker : Checker :=
  mk_checker ["check_text"%string]
    (fun _ => Raises (failure "service unavailable"))
    (fun _ => Raises (no_attribute "correct_spelling")).

Definition reporting_checker (errors : list ErrorRecord) : Checker :=
  mk_checker ["check_text"%string]
    (fun _ => Returns errors)
    (fun _ => Raises (no_attribute "correct_spelling")).

Definition failing_corrector (errors : list ErrorRecord) : Checker :=
  mk_checker ["check_text"; "correct_spelling"]%string
    (fun _ => Returns errors)
    (fun _ => Raises (failure "corrector failed")).

Definition sample_errors : list ErrorRecord := [
  (py "spelling", py "Unknown word: சல்கிறேன்", py "சல்கிறேன்");
  (py "grammar", py "First person with neuter verb", py "நான் செல்கிறது")
].

Definition isolation_registry : TamilTextAnalyzer.t :=
  {| TamilTextAnalyzer.models := [
       (py "Remote", raising_checker);
       (py "Local", reporting_checker sample_errors)
     ] |}.

Definition corrector_registry : TamilTextAnalyzer.t :=
  {| TamilTextAnalyzer.models := [
       (py "Corrector", failing_corrector sample_errors)
     ] |}.

(** ** [models/google_gemma_model.py]

    The Groq service behind [GemmaChecker]: the environment variable, the
    client, and a chat completion, which either yields the [content] of
    each choice (an optional string) or raises an exception that may carry
    a [code] attribute. *)

Inductive completion :=
  | Completed (choices : list (option pystr))
  | ApiRaises (e : exn) (code : option pystr).

Class GroqService := {
  getenv_GROQ_API_KEY : option pystr;
  groq_client : Type;
  Groq : pystr -> Exc groq_client;
  (* client.chat.completions.create(model, messages, temperature=0.3,
     max_tokens): messages are (role, content) pairs *)
  completions_create :
    groq_client -> pystr -> list (pystr * pystr) -> nat -> completion
}.

(** [s.startswith(prefix)] *)
Fixpoint startswith (s prefix : pystr) {struct prefix} : bool :=
  match prefix, s with
  | [], _ => true
  | p :: prefix', c :: s' => (c =? p)%N && startswith s' prefix'
  | _ :: _, [] => false
  end.

Module GemmaChecker.
Section Defs.
Context {G : GroqService}.

Record t := { api_key : pystr; client : groq_client }.

Definition __init__ : Exc t :=
  match getenv_GROQ_API_KEY with
  | None | Some [] =>
    Raises (mk_exn OtherException
              (py "GROQ_API_KEY not found in environment variables"))
  | Some key =>
    (c <- Groq key ;; Returns {| api_key := key; client := c |})%exc
  end.

Definition newline : pystr := [10%N].

Definition prompt (tamil_text : pystr) : pystr :=
  py "As a Tamil language expert, analyze the following text for spelling and grammatical errors. "
  ++ py "Provide detailed corrections and suggestions in Tamil:" ++ newline ++ newline
  ++ py "Text to analyze: " ++ tamil_text ++ newline ++ newline
  ++ py "Please provide:" ++ newline
  ++ py "1. Corrected version of the text" ++ newline
  ++ py "2. Specific errors found" ++ newline
  ++ py "3. Explanation of corrections in Tamil".

Definition messages (tamil_text : pystr) : list (pystr * pystr) := [
  (py "system",
   py "You are a Tamil language expert who provides detailed corrections and suggestions for Tamil text.");
  (py "user", prompt tamil_text)
].

(** The handler of [get_suggestions]. *)
Definition suggestion_failure (e : exn) (code : option pystr) : pystr :=
  match code with
  | Some c =>
    if str_eqb c (py "model_decommissioned") then
      py "Error: The model is no longer supported. Please contact the administrator to update the model."
    else py "Error getting suggestions: " ++ exn_str e
  | None => py "Error getting suggestions: " ++ exn_str e
  end.

(** The result is [completion.choices[0].message.content], which the
    service may leave [None]. *)
Definition get_suggestions (self : t) (tamil_text : pystr)
  : Exc (option pystr) :=
  match completions_create (client self) (py "gemma2-9b-it")
          (messages tamil_text) 2048 with
  | Completed choices =>
    try_except
      (index choices 0)
      (fun e => Returns (Some (suggestion_failure e None)))
  | ApiRaises e code => Returns (Some (suggestion_failure e code))
  end.

Definition check_text (self : t) (text : pystr) : Exc (list ErrorRecord) :=
  try_except
    (suggestions <- get_suggestions self text ;;
     match suggestions with
     | None =>
       Raises (mk_exn AttributeError
                 (py "'NoneType' object has no attribute 'startswith'"))
     | Some s =>
       if startswith s (py "Error")
       then Returns [(py "error", s, text)]
       else Returns [(py "info", s, text)]
     end)%exc
    (fun e =>
       Returns [(py "error", py "Error checking text: " ++ exn_str e, text)]).

Definition attributes : list string := [
  "__init__"; "get_suggestions"; "check_text"; "api_key"; "client"
]%string.

Definition as_checker (self : t) : Checker :=
  mk_checker attributes (check_text self)
    (fun _ => Raises (no_attribute "correct_spelling")).

End Defs.
End GemmaChecker.

(** ** [preprocessing.py] *)

Module Preprocessing.
Section Defs.
Context {E : External}.

(** The pattern [[\u0B80-\u0BFF]+], compiled: one or more characters of
    the Tamil block. *)
Definition tamil_regex : Re.pattern :=
  [(Re.OneOf [(2944%N, 3071%N)], Re.Plus)].

(** The match object of [re.search], as (start, length), or [None]. *)
Definition is_tamil_word (word : pystr) : option (nat * nat) :=
  Re.search_from tamil_regex word.

(** The filter of [preprocess_file], on the words [utf8.get_words]
    returned. *)
Definition tamil_words_of (words : list pystr) : list pystr :=
  filter (fun word => Re.is_some (is_tamil_word word)) words.

End Defs.
End Preprocessing.

(** ** Vocabulary for the statements *)

(** A character of the Tamil block, U+0B80 to U+0BFF. *)
Definition tamil_char (c : codepoint) : bool :=
  ((2944 <=? c) && (c <=? 3071))%N.

(** One of the sentence delimiters [. ! ?] and the danda. *)
Definition sentence_delimiter (c : codepoint) : bool :=
  ((c =? 46) || (c =? 33) || (c =? 63) || (c =? 2404))%N.

(** A pattern made of ordinary characters only. *)
Definition literal (l : pystr) : Re.pattern :=
  map (fun c => (Re.Lit c, Re.One)) l.

(** [x], later [y], on one line of [s]. *)
Definition followed_by (x y s : pystr) : Prop :=
  exists pre mid post,
    s = pre ++ x ++ mid ++ y ++ post /\ Forall (fun c => c <> 10%N) mid.

(** The rules of [subject_verb_agreement] taken apart: what comes before
    [.*], what comes after, and the message. *)
Definition subject_verb_rules : list (pystr * pystr * pystr) := [
  (py "நான்", py "கிறார்கள்", py "First person singular with plural verb");
  (py "நான்", py "கிறார்", py "First person singular with formal verb");
  (py "நான்", py "கிறது", py "First person with neuter verb");
  (py "நாங்கள்", py "கிறான்", py "First person plural with singular verb");
  (py "நாங்கள்", py "கிறாள்", py "First person plural with feminine singular");
  (py "நீ", py "கிறார்கள்", py "Second person singular with plural verb");
  (py "நீங்கள்", py "கிறான்", py "Second person plural with singular verb");
  (py "ஆசிரியர்", py "கிறான்", py "Honorific subject with informal verb")
].

(** A pattern whose first atom consumes a character: it cannot match the
    empty string. *)
Definition consuming (p : Re.pattern) : bool :=
  match p with
  | (_, Re.One) :: _ | (_, Re.Plus) :: _ => true
  | _ => false
  end.

(** A Groq service for running [GemmaChecker]. *)
Definition sample_groq (key : option pystr) (answer : completion)
  : GroqService := {|
  getenv_GROQ_API_KEY := key;
  groq_client := unit;
  Groq := fun _ => Returns tt;
  completions_create := fun _ _ _ _ => answer
|}.

(** The suggestions of one sentence, as [get_correction_suggestions]
    collects them. *)
Definition sentence_suggestions {E : External} (sentence : pystr)
    (scores : list (pystr * prob))
  : list pystr :=
  flat_map (fun item : pystr * list (pystr * pystr) =>
    let (error_type, patterns) := item in
    flat_map (fun rule : pystr * pystr =>
      let (pattern, correction) := rule in
      if Re.search pattern sentence
      then [DeepLearningChecker.pattern_suggestion error_type pattern
              correction]
      else []) patterns) DeepLearningChecker.tamil_patterns
  ++ flat_map (fun wp : pystr * prob =>
       if prob_lt_0_1 (snd wp) then
         [py "Unusual word detected: '" ++ fst wp ++ py "' might need review"]
       else []) scores.

(** A pattern of the fragment that cannot match the empty string. *)
Definition findable (pattern : pystr) : bool :=
  match Re.compile pattern with
  | Some p => consuming p
  | None => false
  end.


(** A service that answers, a checker over it, and a registry holding that
    checker. *)
Definition answering_groq : GroqService :=
  sample_groq (Some (py "key")) (Completed [Some (py "நன்று")]).

Definition sample_gemma : @GemmaChecker.t answering_groq :=
  @GemmaChecker.Build_t answering_groq (py "key") tt.

Definition gemma_registry : TamilTextAnalyzer.t :=
  {| TamilTextAnalyzer.models :=
       [(py "Gemma", GemmaChecker.as_checker sample_gemma)] |}.

(** A checker whose [correct_spelling] returns (here: the text unchanged),
    and a registry holding it after a checker without that operation. *)
Definition working_corrector (errors : list ErrorRecord) : Checker :=
  mk_checker ["check_text"; "correct_spelling"]%string
    (fun _ => Returns errors)
    (fun text => Returns text).

Definition correcting_registry : TamilTextAnalyzer.t :=
  {| TamilTextAnalyzer.models := [
       (py "Local", reporting_checker sample_errors);
       (py "Corrector", working_corrector sample_errors)
     ] |}.

(** A dictionary file with three lines: a new word, a built-in word with
    another tag, and a line without a comma. *)
Definition dictionary_external : External :=
  make_external
    (fun s => Returns (split_on 32%N s []))
    (Returns [py "வீடு,noun" ++ [10%N];
              py "பள்ளிக்கு,place" ++ [10%N];
              py "சொற்கள்" ++ [10%N]])
    (Raises (failure "model not available"))
    (Returns None) (Returns tt) (Returns tt).

(** * Properties *)

(** ** Strings and dictionaries *)

Lemma str_eqb_refl (a : pystr) : str_eqb a a = true.
Proof.
  induction a as [|x a IH]; simpl; [reflexivity|].
  now rewrite N.eqb_refl, IH.
Qed.

Lemma str_eqb_eq (a b : pystr) : str_eqb a b = true <-> a = b.
Proof.
  split.
  - revert b; induction a as [|x a IH]; intros [|y b]; simpl;
      try discriminate; [reflexivity|].
    intros Hab. apply andb_prop in Hab as [Hxy Hrest].
    apply N.eqb_eq in Hxy. apply IH in Hrest. now subst.
  - intros ->. apply str_eqb_refl.
Qed.

Lemma str_eqb_neq (a b : pystr) : a <> b -> str_eqb a b = false.
Proof.
  intros Hne. destruct (str_eqb a b) eqn:Heq; [|reflexivity].
  apply str_eqb_eq in Heq. contradiction.
Qed.

Lemma str_in_In (x : pystr) (l : list pystr) : str_in x l = true <-> In x l.
Proof.
  unfold str_in. rewrite existsb_exists. split.
  - intros [y [Hin Heq]]. apply str_eqb_eq in Heq. now subst.
  - intros Hin. exists x. split; [assumption | apply str_eqb_refl].
Qed.

Lemma dict_set_fresh {V} (d : pydict V) (k : pystr) (v : V) :
  ~ In k (dict_keys d) -> dict_set d k v = d ++ [(k, v)].
Proof.
  induction d as [|[k' v'] d IH]; simpl; intros Hfresh; [reflexivity|].
  rewrite str_eqb_neq by (intros ->; apply Hfresh; now left).
  f_equal. apply IH. intros Hin. apply Hfresh. now right.
Qed.

Lemma dict_set_twice {V} (d : pydict V) (k : pystr) (v w : V) :
  dict_set (dict_set d k v) k w = dict_set d k w.
Proof.
  induction d as [|[k' v'] d IH]; simpl.
  - now rewrite str_eqb_refl.
  - destruct (str_eqb k k') eqn:Hk; simpl; rewrite Hk; [reflexivity|].
    now rewrite IH.
Qed.

Lemma dict_get_In {V} (d : pydict V) (k : pystr) (v : V) :
  NoDup (dict_keys d) -> In (k, v) d -> dict_get d k = Some v.
Proof.
  induction d as [|[k' v'] d IH]; simpl; intros Hnd Hin; [contradiction|].
  inversion Hnd as [|? ? Hnotin Hnd']; subst.
  destruct Hin as [Heq | Hin].
  - inversion Heq; subst. now rewrite str_eqb_refl.
  - rewrite str_eqb_neq; [now apply IH|].
    intros ->. apply Hnotin. change k' with (fst (k', v)).
    now apply in_map.
Qed.

Lemma dict_get_absent {V} (d : pydict V) (k : pystr) :
  ~ In k (dict_keys d) -> dict_get d k = None.
Proof.
  induction d as [|[k' v'] d IH]; simpl; intros Hfresh; [reflexivity|].
  rewrite str_eqb_neq by (intros ->; apply Hfresh; now left).
  apply IH. intros Hin. apply Hfresh. now right.
Qed.

(** ** Regular expressions *)

(** Every pattern of the three checkers lies in the modelled fragment, so
    no rule is lost by [Re.compile]. *)
Lemma patterns_compile {E : External} :
  Forall (fun pattern => Re.compile pattern <> None)
    (py "[.!?।]"
     :: map fst (RuleBasedChecker.subject_verb_agreement
                 ++ RuleBasedChecker.spelling_patterns
                 ++ RuleBasedChecker.word_spacing
                 ++ flat_map snd DeepLearningChecker.tamil_patterns
                 ++ StatisticalChecker.common_errors
                 ++ StatisticalChecker.context_rules)).
Proof. vm_compute. repeat constructor; discriminate. Qed.

(** The quantifiers give characters back: [\w+] first takes the letter of
    the suffix as well, then releases it. *)
Example spacing_pattern_backtracks :
  @Re.finditer sample_external (py "\w+க்கு\w+") (py "aக்குb c")
  = [py "aக்குb"].
Proof. vm_compute. reflexivity. Qed.

Example split_keeps_empty_pieces :
  @Re.split sample_external (py "[.!?।]") (py "a. b!") = [py "a"; py " b"; []].
Proof. vm_compute. reflexivity. Qed.

(** ** The loop of [analyze_text] *)

Section Loop.
Variables (text : pystr) (check_spelling check_grammar : bool).

(** One pass never raises and writes exactly the two entries. *)
Lemma analyze_with_spec (item : pystr * Checker) (s : store) :
  TamilTextAnalyzer.analyze_with text check_spelling check_grammar item s =
  (Returns tt,
   {| results :=
        dict_set (results s) (fst item)
          (result_entry text check_spelling check_grammar (snd item));
      corrections :=
        match correction_entry text item with
        | [] => corrections s
        | (k, v) :: _ => dict_set (corrections s) k v
        end |}).
Proof.
  destruct item as [name model]. destruct s as [res corr].
  unfold TamilTextAnalyzer.analyze_with, result_entry, correction_entry,
    raised_in_try, m_try, m_bind, call, set_result, set_correction, m_ret.
  simpl.
  destruct (check_text model text) as [errors|e]; simpl; [|reflexivity].
  destruct (hasattr model "correct_spelling"); simpl; [|reflexivity].
  destruct (correct_spelling model text) as [corrected|e]; simpl;
    [reflexivity|].
  now rewrite dict_set_twice.
Qed.

Lemma correction_entry_keys (item : pystr * Checker) (k : pystr) :
  In k (dict_keys (correction_entry text item)) -> k = fst item.
Proof.
  unfold correction_entry.
  destruct (check_text (snd item) text); [|contradiction].
  destruct (hasattr (snd item) "correct_spelling"); [|contradiction].
  destruct (correct_spelling (snd item) text); [|contradiction].
  simpl. intros [<- | []]. reflexivity.
Qed.

(** Over a registry without repeated names the loop appends one entry per
    checker, in registry order. *)
Lemma for_each_spec (l : pydict Checker) :
  forall s : store,
    NoDup (dict_keys l) ->
    (forall k, In k (dict_keys l) -> ~ In k (dict_keys (results s))) ->
    (forall k, In k (dict_keys l) -> ~ In k (dict_keys (corrections s))) ->
    for_each l
      (TamilTextAnalyzer.analyze_with text check_spelling check_grammar) s =
    (Returns tt,
     {| results :=
          results s
          ++ map (fun item =>
                    (fst item,
                     result_entry text check_spelling check_grammar (snd item)))
               l;
        corrections :=
          corrections s ++ flat_map (correction_entry text) l |}).
Proof.
  induction l as [|item l IH]; intros s Hnd Hres Hcorr.
  - simpl. unfold m_ret. destruct s. simpl. now rewrite !app_nil_r.
  - simpl for_each. unfold m_bind. rewrite analyze_with_spec.
    inversion Hnd as [|? ? Hnotin Hnd']; subst.
    assert (Hfresh1 : ~ In (fst item) (dict_keys (results s)))
      by (apply Hres; now left).
    assert (Hfresh2 : ~ In (fst item) (dict_keys (corrections s)))
      by (apply Hcorr; now left).
    rewrite dict_set_fresh by exact Hfresh1.
    assert (Hc : match correction_entry text item with
                 | [] => corrections s
                 | (k, v) :: _ => dict_set (corrections s) k v
                 end = corrections s ++ correction_entry text item).
    { pose proof (correction_entry_keys item) as Hkeys.
      unfold correction_entry in *.
      destruct (check_text (snd item) text); [|now rewrite app_nil_r].
      destruct (hasattr (snd item) "correct_spelling");
        [|now rewrite app_nil_r].
      destruct (correct_spelling (snd item) text); [|now rewrite app_nil_r].
      now apply dict_set_fresh. }
    rewrite Hc. rewrite IH; simpl.
    + now rewrite <- !app_assoc.
    + assumption.
    + intros k Hk Hin. unfold dict_keys in Hin. rewrite map_app in Hin.
      apply in_app_or in Hin as [Hin | [<- | []]].
      * apply (Hres k); [now right | assumption].
      * now apply Hnotin.
    + intros k Hk Hin. unfold dict_keys in Hin. rewrite map_app in Hin.
      apply in_app_or in Hin as [Hin | Hin].
      * apply (Hcorr k); [now right | assumption].
      * apply correction_entry_keys in Hin. subst k. now apply Hnotin.
Qed.

(** [analyze_text] in closed form. *)
Lemma analyze_text_spec (self : TamilTextAnalyzer.t) :
  NoDup (dict_keys (TamilTextAnalyzer.models self)) ->
  TamilTextAnalyzer.analyze_text self text check_spelling check_grammar =
  Returns
    (map (fun item =>
            (fst item,
             result_entry text check_spelling check_grammar (snd item)))
       (TamilTextAnalyzer.models self),
     flat_map (correction_entry text) (TamilTextAnalyzer.models self)).
Proof.
  intros Hnd. unfold TamilTextAnalyzer.analyze_text.
  rewrite for_each_spec; simpl; auto.
Qed.

Lemma analyze_text_entry (self : TamilTextAnalyzer.t)
    (name : pystr) (model : Checker) :
  NoDup (dict_keys (TamilTextAnalyzer.models self)) ->
  In (name, model) (TamilTextAnalyzer.models self) ->
  exists res corr,
    TamilTextAnalyzer.analyze_text self text check_spelling check_grammar
    = Returns (res, corr)
    /\ dict_keys res = dict_keys (TamilTextAnalyzer.models self)
    /\ dict_get res name
       = Some (result_entry text check_spelling check_grammar model).
Proof.
  intros Hnd Hin. eexists; eexists. split; [now apply analyze_text_spec|].
  assert (Hkeys :
    dict_keys
      (map (fun item : pystr * Checker =>
              (fst item,
               result_entry text check_spelling check_grammar (snd item)))
         (TamilTextAnalyzer.models self))
    = dict_keys (TamilTextAnalyzer.models self)).
  { unfold dict_keys. rewrite map_map. reflexivity. }
  split; [exact Hkeys|].
  apply dict_get_In; [now rewrite Hkeys|].
  apply (in_map (fun item : pystr * Checker =>
                   (fst item,
                    result_entry text check_spelling check_grammar (snd item)))
           _ _ Hin).
Qed.

End Loop.

(** ** The three checkers *)

Section Checkers.
Context {E : External}.

Lemma rule_based_returns (self : RuleBasedChecker.t) (text : pystr) :
  exists l, RuleBasedChecker.check_text self text = Returns l.
Proof.
  unfold RuleBasedChecker.check_text, RuleBasedChecker.check_spelling.
  destruct (trivial_tokenize text) as [words|e]; simpl; eauto.
Qed.

Lemma statistical_returns (self : StatisticalChecker.t) (text : pystr) :
  exists l, StatisticalChecker.check_text self text = Returns l.
Proof.
  unfold StatisticalChecker.check_text.
  destruct (StatisticalChecker.analysis self text); simpl; eauto.
Qed.

(** The word-probability assessment has its own handler: it returns, and
    returns no score when the model is missing or inference raises. *)
Lemma assess_returns (self : DeepLearningChecker.t) (sentence : pystr) :
  exists scores,
    DeepLearningChecker._assess_word_probability self sentence = Returns scores.
Proof.
  unfold DeepLearningChecker._assess_word_probability.
  destruct (DeepLearningChecker.model self) as [m|]; [|eauto].
  destruct (DeepLearningChecker.word_scores m (split_ws sentence []) 0
              (split_ws sentence [])); simpl; eauto.
Qed.

Lemma assess_absorbs (self : DeepLearningChecker.t) (sentence : pystr)
    (m : mlm) (e : exn) :
  DeepLearningChecker.model self = Some m ->
  DeepLearningChecker.word_scores m (split_ws sentence []) 0
    (split_ws sentence []) = Raises e ->
  DeepLearningChecker._assess_word_probability self sentence = Returns [].
Proof.
  intros Hm Hraise. unfold DeepLearningChecker._assess_word_probability.
  now rewrite Hm, Hraise.
Qed.

Lemma check_sentences_returns (self : DeepLearningChecker.t)
    (sentences : list pystr) :
  exists l, DeepLearningChecker.check_sentences self sentences = Returns l.
Proof.
  induction sentences as [|sentence rest [l IH]]; simpl; [eauto|].
  destruct (assess_returns self sentence) as [scores ->]. simpl.
  rewrite IH. simpl. eauto.
Qed.

Lemma deep_learning_returns (self : DeepLearningChecker.t) (text : pystr) :
  exists l, DeepLearningChecker.check_text self text = Returns l
            /\ DeepLearningChecker.check_sentences self
                 (DeepLearningChecker._split_sentences text) = Returns l.
Proof.
  unfold DeepLearningChecker.check_text.
  destruct (check_sentences_returns self
              (DeepLearningChecker._split_sentences text)) as [l ->].
  simpl. eauto.
Qed.

Lemma pattern_error_not_error (error_type correction text group : pystr) :
  category (DeepLearningChecker.pattern_error error_type correction text group)
  <> py "error".
Proof.
  unfold DeepLearningChecker.pattern_error.
  destruct (str_eqb error_type (py "spelling"));
    [|destruct (str_eqb error_type (py "grammar"))];
    vm_compute; discriminate.
Qed.

Lemma check_patterns_not_error (self : DeepLearningChecker.t) (text : pystr) :
  Forall (fun r => category r <> py "error")
    (DeepLearningChecker._check_patterns self text).
Proof.
  unfold DeepLearningChecker._check_patterns.
  apply Forall_flat_map, Forall_forall. intros [error_type patterns] _.
  apply Forall_flat_map, Forall_forall. intros [pattern correction] _.
  apply Forall_map, Forall_forall. intros group _.
  apply pattern_error_not_error.
Qed.

Lemma unusual_words_not_error (sentence : pystr)
    (scores : list (pystr * prob)) :
  Forall (fun r => category r <> py "error")
    (DeepLearningChecker.unusual_words sentence scores).
Proof.
  unfold DeepLearningChecker.unusual_words.
  apply Forall_flat_map, Forall_forall. intros [word p] _.
  destruct (prob_lt_0_1 p); constructor; [|constructor].
  vm_compute. discriminate.
Qed.

Lemma check_sentences_not_error (self : DeepLearningChecker.t)
    (sentences : list pystr) :
  forall l,
    DeepLearningChecker.check_sentences self sentences = Returns l ->
    Forall (fun r => category r <> py "error") l.
Proof.
  induction sentences as [|sentence rest IH]; simpl; intros l Hl.
  - inversion Hl. constructor.
  - destruct (assess_returns self sentence) as [scores Hs].
    rewrite Hs in Hl. simpl in Hl.
    destruct (DeepLearningChecker.check_sentences self rest) as [errors|e];
      simpl in Hl; [|discriminate].
    inversion Hl; subst.
    apply Forall_app; split; [apply check_patterns_not_error|].
    apply Forall_app; split; [apply unusual_words_not_error|].
    now apply IH.
Qed.

(** None of the three objects has a [correct_spelling], and none raises
    inside the analyzer's [try] block. *)
Lemma rule_based_quiet (self : RuleBasedChecker.t) (text : pystr) :
  raised_in_try (RuleBasedChecker.as_checker self) text = None.
Proof.
  unfold raised_in_try. simpl.
  destruct (rule_based_returns self text) as [l ->]. reflexivity.
Qed.

Lemma deep_learning_quiet (self : DeepLearningChecker.t) (text : pystr) :
  raised_in_try (DeepLearningChecker.as_checker self) text = None.
Proof.
  unfold raised_in_try. simpl.
  destruct (deep_learning_returns self text) as [l [-> _]]. reflexivity.
Qed.

Lemma statistical_quiet (self : StatisticalChecker.t) (text : pystr) :
  raised_in_try (StatisticalChecker.as_checker self) text = None.
Proof.
  unfold raised_in_try. simpl.
  destruct (statistical_returns self text) as [l ->]. reflexivity.
Qed.

End Checkers.

(** ** Claims about the checkers *)

(** The sentences' findings, given the scores the assessment returns. *)
Lemma check_sentences_spec {E : External} (self : DeepLearningChecker.t)
    (scores_of : pystr -> list (pystr * prob)) (sentences : list pystr) :
  (forall sentence,
     In sentence sentences ->
     DeepLearningChecker._assess_word_probability self sentence
     = Returns (scores_of sentence)) ->
  DeepLearningChecker.check_sentences self sentences
  = Returns
      (flat_map (fun sentence =>
                   DeepLearningChecker._check_patterns self sentence
                   ++ DeepLearningChecker.unusual_words sentence
                        (scores_of sentence)) sentences).
Proof.
  induction sentences as [|sentence rest IH]; intros Hscores;
    cbn [DeepLearningChecker.check_sentences flat_map]; [reflexivity|].
  rewrite (Hscores sentence (or_introl eq_refl)).
  rewrite IH by (intros s Hs; apply Hscores; now right).
  cbn [exc_bind]. now rewrite app_assoc.
Qed.

Lemma check_text_without_scores {E : External} (self : DeepLearningChecker.t)
    (text : pystr) :
  (forall sentence,
     In sentence (DeepLearningChecker._split_sentences text) ->
     DeepLearningChecker._assess_word_probability self sentence = Returns []) ->
  DeepLearningChecker.check_text self text
  = Returns (flat_map (DeepLearningChecker._check_patterns self)
               (DeepLearningChecker._split_sentences text)).
Proof.
  intros Hnone. unfold DeepLearningChecker.check_text.
  rewrite (@check_sentences_spec E self (fun _ => [])) by exact Hnone.
  cbn [try_except]. f_equal. apply flat_map_ext. intros sentence.
  apply app_nil_r.
Qed.

(** C4, as the code has it.  No [check_text] of the three checkers lets an
    exception out.  In the rule-based and the statistical checker an
    exception raised inside the [try] block becomes the single record
    [('error', <prefix> + str(e), text)].  In the deep-learning checker a
    failure of the language model never reaches that handler: it is caught
    inside [_assess_word_probability], which then reports no score, and
    [check_text] returns, sentence by sentence, the findings of
    [_check_patterns] followed by the unusual-word records of the scores it
    got; with the model missing, or inference raising on every sentence,
    that is exactly the pattern findings, and never an [error] record. *)
Theorem check_text_failure_boundary {E : External}
    (rb : RuleBasedChecker.t) (dl : DeepLearningChecker.t)
    (st : StatisticalChecker.t) (text : pystr) :
  (exists l, RuleBasedChecker.check_text rb text = Returns l)
  /\ (exists l, StatisticalChecker.check_text st text = Returns l)
  /\ (exists l, DeepLearningChecker.check_text dl text = Returns l
                /\ Forall (fun r => category r <> py "error") l)
  /\ (forall e,
        RuleBasedChecker.check_spelling rb text = Raises e ->
        RuleBasedChecker.check_text rb text
        = Returns [(py "error", py "Error in text analysis: " ++ exn_str e,
                    text)])
  /\ (forall e,
        StatisticalChecker.analysis st text = Raises e ->
        StatisticalChecker.check_text st text
        = Returns [(py "error", py "Error during analysis: " ++ exn_str e,
                    text)])
  /\ (forall sentence m e,
        DeepLearningChecker.model dl = Some m ->
        DeepLearningChecker.word_scores m (split_ws sentence []) 0
          (split_ws sentence []) = Raises e ->
        DeepLearningChecker._assess_word_probability dl sentence = Returns [])
  /\ (forall sentence,
        DeepLearningChecker.model dl = None ->
        DeepLearningChecker._assess_word_probability dl sentence = Returns [])
  /\ (exists scores_of,
        (forall sentence,
           DeepLearningChecker._assess_word_probability dl sentence
           = Returns (scores_of sentence))
        /\ DeepLearningChecker.check_text dl text
           = Returns
               (flat_map (fun sentence =>
                            DeepLearningChecker._check_patterns dl sentence
                            ++ DeepLearningChecker.unusual_words sentence
                                 (scores_of sentence))
                  (DeepLearningChecker._split_sentences text)))
  /\ (DeepLearningChecker.model dl = None ->
      DeepLearningChecker.check_text dl text
      = Returns (flat_map (DeepLearningChecker._check_patterns dl)
                   (DeepLearningChecker._split_sentences text)))
  /\ (forall m,
        DeepLearningChecker.model dl = Some m ->
        (forall sentence,
           In sentence (DeepLearningChecker._split_sentences text) ->
           exists e,
             DeepLearningChecker.word_scores m (split_ws sentence []) 0
               (split_ws sentence []) = Raises e) ->
        DeepLearningChecker.check_text dl text
        = Returns (flat_map (DeepLearningChecker._check_patterns dl)
                     (DeepLearningChecker._split_sentences text))).
Proof.
  split; [apply rule_based_returns|].
  split; [apply statistical_returns|].
  split.
  { destruct (deep_learning_returns dl text) as [l [Hl Hbody]].
    exists l. split; [exact Hl|].
    exact (check_sentences_not_error dl _ Hbody). }
  split.
  { intros e He. unfold RuleBasedChecker.check_text. now rewrite He. }
  split.
  { intros e He. unfold StatisticalChecker.check_text. now rewrite He. }
  split; [intros sentence m e; apply assess_absorbs|].
  assert (Hnone : DeepLearningChecker.model dl = None ->
                  forall sentence,
                    DeepLearningChecker._assess_word_probability dl sentence
                    = Returns []).
  { intros Hm sentence.
    unfold DeepLearningChecker._assess_word_probability. now rewrite Hm. }
  split; [intros sentence Hm; now apply Hnone|].
  split.
  { exists (fun sentence =>
              match DeepLearningChecker._assess_word_probability dl sentence
              with
              | Returns scores => scores
              | Raises _ => []
              end).
    assert (Hscores : forall sentence,
              DeepLearningChecker._assess_word_probability dl sentence
              = Returns
                  match DeepLearningChecker._assess_word_probability dl
                          sentence with
                  | Returns scores => scores
                  | Raises _ => []
                  end).
    { intros sentence. now destruct (assess_returns dl sentence) as [s ->]. }
    split; [exact Hscores|].
    unfold DeepLearningChecker.check_text.
    rewrite (@check_sentences_spec E dl _ _ (fun s _ => Hscores s)).
    reflexivity. }
  split.
  { intros Hm. apply check_text_without_scores.
    intros sentence _. now apply Hnone. }
  intros m Hm Hraise. apply check_text_without_scores.
  intros sentence Hs. destruct (Hraise sentence Hs) as [e He].
  exact (@assess_absorbs E dl sentence m e Hm He).
Qed.

Lemma check_text_failure_boundary_witness :
  @RuleBasedChecker.check_text failing_external sample_rule_based
    (py "aக்குb")
  = Returns [(py "error", py "Error in text analysis: tokenizer failed",
              py "aக்குb")]
  /\ StatisticalChecker.check_text failing_statistical (py "aக்குb")
     = Returns [(py "error", py "Error during analysis: vectorizer failed",
                 py "aக்குb")]
  /\ DeepLearningChecker.check_text loaded_deep_learning (py "aக்குb")
     = Returns [(py "format", py "Add space before க்கு", py "aக்குb")].
Proof.
  destruct (@check_text_failure_boundary failing_external sample_rule_based
              loaded_deep_learning failing_statistical (py "aக்குb"))
    as (_ & _ & _ & Hrb & Hst & _ & _ & _ & _ & Hdl).
  split; [exact (Hrb (failure "tokenizer failed") eq_refl)|].
  split; [exact (Hst (failure "vectorizer failed") eq_refl)|].
  rewrite (Hdl tt eq_refl).
  - vm_compute. reflexivity.
  - intros sentence Hs. exists (failure "inference failed").
    vm_compute in Hs. destruct Hs as [<- | []]. vm_compute. reflexivity.
Defined.

(** C4 as stated fails on the deep-learning checker: inference raises while
    [check_text] runs, and the result is the empty list, not an [error]
    record. *)
Lemma deep_learning_failure_unreported :
  @masked_word_probability failing_external tt [py "abc"] 0 (py "abc")
  = Raises (failure "inference failed")
  /\ DeepLearningChecker.check_text loaded_deep_learning (py "abc")
     = Returns []
  /\ ~ (exists msg,
          DeepLearningChecker.check_text loaded_deep_learning (py "abc")
          = Returns [(py "error", msg, py "abc")]).
Proof.
  split; [reflexivity|].
  split; [vm_compute; reflexivity|].
  intros [msg Hmsg]. vm_compute in Hmsg. discriminate.
Qed.

(** C9.  On "நான் பள்ளிக்கு செல்கிறது" the pattern [நான்.*கிறது] matches the
    one sentence, [check_grammar] reports exactly the record
    [('grammar', 'First person with neuter verb', sentence)], and
    [check_text] returns it (the tokenizer of indicnlp having returned). *)
Theorem neuter_verb_grammar_record {E : External}
    (self : RuleBasedChecker.t) (words : list pystr) :
  let text := py "நான் பள்ளிக்கு செல்கிறது" in
  let finding := (py "grammar", py "First person with neuter verb", text) in
  trivial_tokenize text = Returns words ->
  Re.search (py "நான்.*கிறது") text = true
  /\ RuleBasedChecker.check_grammar self text = [finding]
  /\ exists l, RuleBasedChecker.check_text self text = Returns l
               /\ In finding l /\ category finding = py "grammar".
Proof.
  intros text finding Htok.
  assert (Hgrammar : RuleBasedChecker.check_grammar self text = [finding])
    by (vm_compute; reflexivity).
  split; [vm_compute; reflexivity|].
  split; [exact Hgrammar|].
  unfold RuleBasedChecker.check_text, RuleBasedChecker.check_spelling.
  rewrite Htok. cbn [exc_bind try_except]. rewrite Hgrammar.
  exists (flat_map (RuleBasedChecker.check_word self) words ++ [finding]).
  split.
  - destruct (flat_map (RuleBasedChecker.check_word self) words);
      reflexivity.
  - split; [apply in_or_app; right; now left | reflexivity].
Qed.

Lemma neuter_verb_grammar_record_witness :
  exists l,
    @RuleBasedChecker.check_text sample_external sample_rule_based
      (py "நான் பள்ளிக்கு செல்கிறது") = Returns l
    /\ In (py "grammar", py "First person with neuter verb",
           py "நான் பள்ளிக்கு செல்கிறது") l.
Proof.
  destruct (@neuter_verb_grammar_record sample_external sample_rule_based
              [py "நான்"; py "பள்ளிக்கு"; py "செல்கிறது"] eq_refl)
    as (_ & _ & l & Hl & Hin & _).
  exists l. split; [exact Hl | exact Hin].
Defined.

(** ** Construction of the analyzer *)

Lemma init_models {E : External} (a : TamilTextAnalyzer.t) :
  TamilTextAnalyzer.__init__ = Returns a ->
  exists rb dl st,
    RuleBasedChecker.__init__ = Returns rb
    /\ DeepLearningChecker.__init__ = Returns dl
    /\ StatisticalChecker.__init__ = Returns st
    /\ TamilTextAnalyzer.models a = [
         (py "Rule-based", RuleBasedChecker.as_checker rb);
         (py "Deep Learning", DeepLearningChecker.as_checker dl);
         (py "Statistical", StatisticalChecker.as_checker st)
       ].
Proof.
  unfold TamilTextAnalyzer.__init__.
  destruct RuleBasedChecker.__init__ as [rb|]; simpl; [|discriminate].
  destruct DeepLearningChecker.__init__ as [dl|]; simpl; [|discriminate].
  destruct StatisticalChecker.__init__ as [st|]; simpl; [|discriminate].
  intros Ha. inversion Ha; subst. exists rb, dl, st. repeat split.
Qed.

Lemma registered_names_nodup :
  NoDup [py "Rule-based"; py "Deep Learning"; py "Statistical"].
Proof.
  repeat constructor; simpl; intros H;
    repeat match goal with
           | H : _ \/ _ |- _ => destruct H as [H | H]
           end;
    try contradiction; vm_compute in H; discriminate.
Qed.

(** C6, as the code has it.  [TamilTextAnalyzer.__init__] builds the three
    checkers without any handler, so an exception raised by a checker's
    constructor leaves the analyzer's constructor and no analyzer exists.
    The rule-based constructor raises exactly when reading the dictionary
    file raises something other than [FileNotFoundError] (a missing file
    leaves the built-in dictionary); the statistical one exactly when
    fitting raises; the deep-learning one never raises (a model that fails
    to load is replaced by [None]).  When the rule-based
    and statistical constructors return, the analyzer is built with the
    three checkers in order. *)
Theorem analyzer_construction {E : External} :
  (forall e,
     RuleBasedChecker.__init__ = Raises e
     <-> read_dictionary_file = Raises e /\ exn_cls e <> FileNotFoundError)
  /\ (forall e,
        StatisticalChecker.__init__ = Raises e
        <-> fit_models StatisticalChecker.train_texts
              StatisticalChecker.spelling_labels
              StatisticalChecker.grammar_labels = Raises e)
  /\ (exists dl, DeepLearningChecker.__init__ = Returns dl)
  /\ (forall e,
        read_dictionary_file = Raises e ->
        exn_cls e = FileNotFoundError ->
        RuleBasedChecker.__init__
        = Returns {| RuleBasedChecker.tamil_words :=
                       RuleBasedChecker.basic_dictionary |})
  /\ (forall e,
        from_pretrained = Raises e ->
        DeepLearningChecker.__init__
        = Returns {| DeepLearningChecker.model := None |})
  /\ (forall e,
        RuleBasedChecker.__init__ = Raises e ->
        TamilTextAnalyzer.__init__ = Raises e)
  /\ (forall rb e,
        RuleBasedChecker.__init__ = Returns rb ->
        StatisticalChecker.__init__ = Raises e ->
        TamilTextAnalyzer.__init__ = Raises e)
  /\ (forall rb st,
        RuleBasedChecker.__init__ = Returns rb ->
        StatisticalChecker.__init__ = Returns st ->
        exists dl,
          DeepLearningChecker.__init__ = Returns dl
          /\ TamilTextAnalyzer.__init__
             = Returns {| TamilTextAnalyzer.models := [
                 (py "Rule-based", RuleBasedChecker.as_checker rb);
                 (py "Deep Learning", DeepLearningChecker.as_checker dl);
                 (py "Statistical", StatisticalChecker.as_checker st)
               ] |}).
Proof.
  assert (Hdl : exists dl, DeepLearningChecker.__init__ = Returns dl).
  { unfold DeepLearningChecker.__init__, DeepLearningChecker._initialize_model.
    destruct from_pretrained; simpl; eauto. }
  split.
  { intros e. unfold RuleBasedChecker.__init__,
      RuleBasedChecker._load_tamil_dictionary.
    destruct read_dictionary_file as [lines|e']; simpl.
    - split; [discriminate | intros [H _]; discriminate].
    - destruct (exn_cls e') eqn:Hcls; simpl; split;
        try discriminate;
        try (intros [H Hne]; inversion H; subst; congruence);
        intros H; inversion H; subst; split; congruence. }
  split.
  { intros e. unfold StatisticalChecker.__init__,
      StatisticalChecker._train_models.
    destruct fit_models; simpl; split; congruence. }
  split; [exact Hdl|].
  split.
  { intros e He Hcls. unfold RuleBasedChecker.__init__,
      RuleBasedChecker._load_tamil_dictionary. now rewrite He, Hcls. }
  split.
  { intros e He. unfold DeepLearningChecker.__init__,
      DeepLearningChecker._initialize_model. now rewrite He. }
  split.
  { intros e He. unfold TamilTextAnalyzer.__init__. now rewrite He. }
  split.
  { intros rb e Hrb Hst. unfold TamilTextAnalyzer.__init__.
    destruct Hdl as [dl Hdl]. now rewrite Hrb, Hdl, Hst. }
  intros rb st Hrb Hst. destruct Hdl as [dl Hdl]. exists dl.
  split; [exact Hdl|].
  unfold TamilTextAnalyzer.__init__. now rewrite Hrb, Hdl, Hst.
Qed.

Lemma analyzer_construction_witness :
  @TamilTextAnalyzer.__init__ sample_external = Returns sample_analyzer.
Proof.
  destruct (@analyzer_construction sample_external)
    as (_ & _ & _ & _ & _ & _ & _ & Hok).
  destruct (Hok sample_rule_based sample_statistical eq_refl eq_refl)
    as [dl [Hdl Hinit]].
  inversion Hdl; subst dl. exact Hinit.
Defined.

(** C6 as stated fails: fitting the classifiers raises, and so does the
    construction of the analyzer. *)
Lemma construction_crashes :
  @StatisticalChecker.__init__ untrainable_external
  = Raises (failure "fit failed")
  /\ @TamilTextAnalyzer.__init__ untrainable_external
     = Raises (failure "fit failed")
  /\ ~ (exists a, @TamilTextAnalyzer.__init__ untrainable_external = Returns a).
Proof.
  split; [reflexivity|]. split; [reflexivity|].
  intros [a Ha]. discriminate Ha.
Qed.

(** ** The tally behind the chart *)

Lemma tally_app (r1 r2 : list row) (name cat : pystr) :
  tally (r1 ++ r2) name cat = tally r1 name cat + tally r2 name cat.
Proof. unfold tally. now rewrite filter_app, length_app. Qed.

Lemma tally_rows_of (model_name name cat : pystr) (errors : list ErrorRecord) :
  tally
    (map (fun error_type =>
            {| Model := model_name; Error_Type := error_type; Count := 1 |})
       (map category
          (filter (fun error => negb (str_eqb (category error) (py "error")))
             errors))) name cat
  = if str_eqb cat (py "error") then 0
    else if str_eqb model_name name
         then List.length
                (filter (fun r => str_eqb (category r) cat) errors)
         else 0.
Proof.
  unfold tally.
  induction errors as [|r errors IH]; simpl.
  - now destruct (str_eqb cat (py "error")), (str_eqb model_name name).
  - destruct (str_eqb (category r) (py "error")) eqn:Herr; simpl.
    + rewrite IH. destruct (str_eqb cat (py "error")) eqn:Hcat;
        [reflexivity|].
      destruct (str_eqb (category r) cat) eqn:Hrc; [|reflexivity].
      apply str_eqb_eq in Hrc. rewrite Hrc in Herr. congruence.
    + destruct (str_eqb model_name name) eqn:Hname; simpl.
      * destruct (str_eqb (category r) cat) eqn:Hrc; simpl; rewrite IH.
        -- apply str_eqb_eq in Hrc. rewrite <- Hrc, Herr. reflexivity.
        -- destruct (str_eqb cat (py "error")); reflexivity.
      * rewrite IH. destruct (str_eqb cat (py "error")); reflexivity.
Qed.

Lemma occurrences_cons (item : pystr * list ErrorRecord)
    (results : pydict (list ErrorRecord)) (name cat : pystr) :
  occurrences (item :: results) name cat
  = (if str_eqb (fst item) name
     then List.length (filter (fun r => str_eqb (category r) cat) (snd item))
     else 0)
    + occurrences results name cat.
Proof. reflexivity. Qed.

(** C8.  The rows collected by [create_error_visualization] are a function
    of [results] alone.  Every row counts 1; for a category other than
    [error] the rows of a (checker, category) pair are as many as that
    checker's records of that category, and no row has category [error].
    Equal [results] give equal rows, hence equal tallies. *)
Theorem error_tally (results : pydict (list ErrorRecord)) :
  Forall (fun r => Count r = 1) (error_data results)
  /\ (forall name cat,
        tally (error_data results) name cat
        = if str_eqb cat (py "error") then 0
          else occurrences results name cat)
  /\ (forall name, tally (error_data results) name (py "error") = 0)
  /\ (forall results',
        results' = results ->
        error_data results' = error_data results
        /\ create_error_visualization results'
           = create_error_visualization results
        /\ forall name cat,
             tally (error_data results') name cat
             = tally (error_data results) name cat).
Proof.
  assert (Htally : forall name cat,
            tally (error_data results) name cat
            = if str_eqb cat (py "error") then 0
              else occurrences results name cat).
  { intros name cat. unfold error_data.
    induction results as [|[model_name errors] rest IH]; simpl flat_map.
    - now destruct (str_eqb cat (py "error")).
    - rewrite tally_app, tally_rows_of, IH, occurrences_cons. simpl fst.
      simpl snd. destruct (str_eqb cat (py "error")); reflexivity. }
  split.
  { unfold error_data. apply Forall_flat_map, Forall_forall.
    intros [model_name errors] _. apply Forall_map, Forall_map, Forall_forall.
    reflexivity. }
  split; [exact Htally|].
  split.
  { intros name. rewrite Htally. now rewrite str_eqb_refl. }
  intros results' ->. repeat split.
Qed.

Lemma error_tally_witness :
  tally (error_data [(py "Rule-based", sample_errors)])
    (py "Rule-based") (py "grammar") = 1.
Proof.
  destruct (error_tally [(py "Rule-based", sample_errors)])
    as (_ & Htally & _).
  rewrite Htally. reflexivity.
Defined.

(** ** Claims about [analyze_text] *)

Lemma keeps_spec (check_spelling check_grammar : bool) (r : ErrorRecord) :
  TamilTextAnalyzer.keeps check_spelling check_grammar r = true
  <-> (category r = py "spelling" /\ check_spelling = true)
      \/ ((category r = py "grammar" \/ category r = py "statistical")
          /\ check_grammar = true).
Proof.
  unfold TamilTextAnalyzer.keeps.
  rewrite orb_true_iff, !andb_true_iff, str_eqb_eq, str_in_In. simpl.
  intuition congruence.
Qed.

Lemma result_entry_quiet (text : pystr) (check_spelling check_grammar : bool)
    (model : Checker) (errors : list ErrorRecord) :
  check_text model text = Returns errors ->
  raised_in_try model text = None ->
  result_entry text check_spelling check_grammar model
  = filter (TamilTextAnalyzer.keeps check_spelling check_grammar) errors.
Proof.
  intros Herrors Hquiet. unfold result_entry. now rewrite Hquiet, Herrors.
Qed.

Lemma result_entry_raised (text : pystr) (check_spelling check_grammar : bool)
    (model : Checker) (e : exn) :
  raised_in_try model text = Some e ->
  result_entry text check_spelling check_grammar model
  = [processing_error e text].
Proof. intros Hraised. unfold result_entry. now rewrite Hraised. Qed.

Lemma registry_functional (l : pydict Checker) (k : pystr) (v w : Checker) :
  NoDup (dict_keys l) -> In (k, v) l -> In (k, w) l -> v = w.
Proof.
  intros Hnd Hv Hw.
  pose proof (@dict_get_In _ l k v Hnd Hv) as Gv.
  pose proof (@dict_get_In _ l k w Hnd Hw) as Gw.
  congruence.
Qed.

Lemma corrections_keys (text : pystr) (l : pydict Checker) (k : pystr) :
  In k (dict_keys (flat_map (correction_entry text) l)) ->
  exists model, In (k, model) l /\ correction_entry text (k, model) <> [].
Proof.
  induction l as [|[name model] l IH]; simpl; [contradiction|].
  unfold dict_keys in *. rewrite map_app. intros Hin.
  apply in_app_or in Hin as [Hin | Hin].
  - pose proof (@correction_entry_keys text (name, model) k Hin) as Hk.
    simpl in Hk. subst k. exists model. split; [now left|].
    intros Hnil. rewrite Hnil in Hin. contradiction.
  - destruct (IH Hin) as [model' [Hin' Hne]]. exists model'.
    split; [now right | exact Hne].
Qed.

(** C1, as the code has it.  For a checker whose pass does not end in the
    handler, a record emitted by [check_text] is in the checker's entry of
    [results] exactly when it is a [spelling] record and [check_spelling]
    is set, or a [grammar] or [statistical] record and [check_grammar] is
    set.  There is no third case: a record of any other category is not
    kept. *)
Theorem filtering_law (self : TamilTextAnalyzer.t) (text : pystr)
    (check_spelling check_grammar : bool)
    (name : pystr) (model : Checker) (errors : list ErrorRecord) :
  NoDup (dict_keys (TamilTextAnalyzer.models self)) ->
  In (name, model) (TamilTextAnalyzer.models self) ->
  check_text model text = Returns errors ->
  raised_in_try model text = None ->
  exists res corr entry,
    TamilTextAnalyzer.analyze_text self text check_spelling check_grammar
    = Returns (res, corr)
    /\ dict_get res name = Some entry
    /\ forall r,
         In r errors ->
         (In r entry
          <-> (category r = py "spelling" /\ check_spelling = true)
              \/ ((category r = py "grammar" \/ category r = py "statistical")
                  /\ check_grammar = true)).
Proof.
  intros Hnd Hin Herrors Hquiet.
  destruct (@analyze_text_entry text check_spelling check_grammar self
              name model Hnd Hin) as (res & corr & Hrun & _ & Hget).
  exists res, corr. eexists. split; [exact Hrun|]. split; [exact Hget|].
  intros r Hr. rewrite (@result_entry_quiet text check_spelling check_grammar model errors
             Herrors Hquiet).
  rewrite filter_In, keeps_spec. tauto.
Qed.

Lemma filtering_law_witness :
  exists res corr entry,
    TamilTextAnalyzer.analyze_text sample_analyzer
      (py "நான் பள்ளிக்கு செல்கிறது") false true = Returns (res, corr)
    /\ dict_get res (py "Rule-based") = Some entry
    /\ In (py "grammar", py "First person with neuter verb",
           py "நான் பள்ளிக்கு செல்கிறது") entry.
Proof.
  pose (text := py "நான் பள்ளிக்கு செல்கிறது").
  pose (finding := (py "grammar", py "First person with neuter verb", text)).
  pose (model := @RuleBasedChecker.as_checker sample_external
                   sample_rule_based).
  assert (Herrors : check_text model text = Returns [finding])
    by (vm_compute; reflexivity).
  assert (Hquiet : raised_in_try model text = None)
    by (vm_compute; reflexivity).
  destruct (@filtering_law sample_analyzer text false true (py "Rule-based")
              model [finding] registered_names_nodup (or_introl eq_refl)
              Herrors Hquiet)
    as (res & corr & entry & Hrun & Hget & Hlaw).
  exists res, corr, entry. split; [exact Hrun|]. split; [exact Hget|].
  apply Hlaw; [now left|]. right. split; [now left | reflexivity].
Defined.

(** C1 as stated fails: the deep-learning checker emits a [format] record
    (a missing space before the dative suffix), and the analyzer drops it
    whatever the flags. *)
Lemma format_record_dropped :
  let text := py "aக்குb" in
  let r := (py "format", py "Add space before க்கு", text) in
  DeepLearningChecker.check_text sample_deep_learning text = Returns [r]
  /\ forall check_spelling check_grammar,
       exists res corr,
         TamilTextAnalyzer.analyze_text sample_analyzer text
           check_spelling check_grammar = Returns (res, corr)
         /\ dict_get res (py "Deep Learning") = Some []
         /\ ~ (In r []
               <-> (category r = py "spelling" /\ check_spelling = true)
                   \/ ((category r = py "grammar"
                        \/ category r = py "statistical")
                       /\ check_grammar = true)
                   \/ ~ In (category r)
                          [py "spelling"; py "grammar"; py "statistical"]).
Proof.
  intros text r. split; [vm_compute; reflexivity|].
  intros check_spelling check_grammar.
  assert (Hno : ~ In (category r)
                    [py "spelling"; py "grammar"; py "statistical"]).
  { simpl. intros [H | [H | [H | []]]]; vm_compute in H; discriminate. }
  destruct check_spelling, check_grammar;
    (eexists; eexists; split; [vm_compute; reflexivity|];
     split; [vm_compute; reflexivity|];
     intros [_ Hback]; apply Hback; right; right; exact Hno).
Qed.

Lemma quiet_returns (model : Checker) (text : pystr) :
  raised_in_try model text = None ->
  exists errors, check_text model text = Returns errors.
Proof.
  unfold raised_in_try.
  destruct (check_text model text) as [errors|e]; [eauto | discriminate].
Qed.


Lemma isolation_registry_nodup :
  NoDup (dict_keys (TamilTextAnalyzer.models isolation_registry)).
Proof.
  repeat constructor; simpl; intros H;
    repeat match goal with
           | H : _ \/ _ |- _ => destruct H as [H | H]
           end;
    try contradiction; vm_compute in H; discriminate.
Qed.


(** C5, as the code has it.  [correct_spelling] is called inside the same
    [try] block as [check_text].  When it raises [e], the batch goes on
    (the analysis returns, with an entry for every checker, the other
    entries untouched), but nothing is stored under the checker's key in
    [corrections], and its entry in [results], already set to the filtered
    records, is overwritten by the single record
    [('error', 'Error processing text: ' + str(e), text)]. *)
Theorem correction_failure (self : TamilTextAnalyzer.t) (text : pystr)
    (check_spelling check_grammar : bool)
    (name : pystr) (model : Checker) (errors : list ErrorRecord) (e : exn) :
  NoDup (dict_keys (TamilTextAnalyzer.models self)) ->
  In (name, model) (TamilTextAnalyzer.models self) ->
  check_text model text = Returns errors ->
  hasattr model "correct_spelling" = true ->
  correct_spelling model text = Raises e ->
  exists res corr,
    TamilTextAnalyzer.analyze_text self text check_spelling check_grammar
    = Returns (res, corr)
    /\ dict_keys res = dict_keys (TamilTextAnalyzer.models self)
    /\ dict_get res name
       = Some [(py "error", py "Error processing text: " ++ exn_str e, text)]
    /\ dict_get corr name = None
    /\ forall name' model',
         In (name', model') (TamilTextAnalyzer.models self) ->
         name' <> name ->
         dict_get res name'
         = Some (result_entry text check_spelling check_grammar model').
Proof.
  intros Hnd Hin Herrors Hattr Hraise.
  rewrite (@analyze_text_spec text check_spelling check_grammar self Hnd).
  eexists; eexists. split; [reflexivity|].
  set (entry := fun item : pystr * Checker =>
                  (fst item,
                   result_entry text check_spelling check_grammar (snd item))).
  assert (Hkeys : dict_keys (map entry (TamilTextAnalyzer.models self))
                  = dict_keys (TamilTextAnalyzer.models self))
    by (unfold dict_keys; now rewrite map_map).
  assert (Hget : forall name model,
            In (name, model) (TamilTextAnalyzer.models self) ->
            dict_get (map entry (TamilTextAnalyzer.models self)) name
            = Some (result_entry text check_spelling check_grammar model)).
  { intros name0 model0 Hin0. apply dict_get_In; [now rewrite Hkeys|].
    exact (in_map entry _ _ Hin0). }
  split; [exact Hkeys|].
  split.
  { rewrite (Hget name model Hin). f_equal. apply result_entry_raised.
    unfold raised_in_try. now rewrite Herrors, Hattr, Hraise. }
  split.
  { apply dict_get_absent. intros Hk.
    apply corrections_keys in Hk as [model' [Hin' Hne]].
    assert (model' = model)
      by exact (@registry_functional _ name model' model Hnd Hin' Hin).
    subst model'. apply Hne. unfold correction_entry. simpl.
    now rewrite Herrors, Hattr, Hraise. }
  intros name' model' Hin' _. exact (Hget name' model' Hin').
Qed.

Lemma corrector_registry_nodup :
  NoDup (dict_keys (TamilTextAnalyzer.models corrector_registry)).
Proof. repeat constructor. simpl. tauto. Qed.

Lemma correction_failure_witness :
  exists res corr,
    TamilTextAnalyzer.analyze_text corrector_registry (py "நான்") true true
    = Returns (res, corr)
    /\ dict_get res (py "Corrector")
       = Some [(py "error",
                py "Error processing text: " ++ py "corrector failed",
                py "நான்")]
    /\ dict_get corr (py "Corrector") = None.
Proof.
  destruct (@correction_failure corrector_registry (py "நான்") true true
              (py "Corrector") (failing_corrector sample_errors)
              sample_errors (failure "corrector failed")
              corrector_registry_nodup (or_introl eq_refl)
              eq_refl eq_refl eq_refl)
    as (res & corr & Hrun & _ & Hres & Hcorr & _).
  exists res, corr. split; [exact Hrun|]. split; [exact Hres | exact Hcorr].
Defined.

(** C5 as stated fails: the corrector's [check_text] has returned two
    records, both kept by the flags; [correct_spelling] then raises; no
    string is stored in [corrections] and the two records are gone from
    [results]. *)
Lemma correction_failure_overwrites :
  let text := py "நான்" in
  check_text (failing_corrector sample_errors) text = Returns sample_errors
  /\ filter (TamilTextAnalyzer.keeps true true) sample_errors = sample_errors
  /\ exists res corr,
       TamilTextAnalyzer.analyze_text corrector_registry text true true
       = Returns (res, corr)
       /\ dict_get corr (py "Corrector") = None
       /\ dict_get res (py "Corrector") <> Some sample_errors.
Proof.
  intros text. split; [reflexivity|]. split; [vm_compute; reflexivity|].
  eexists; eexists. split; [vm_compute; reflexivity|].
  split; [vm_compute; reflexivity|].
  vm_compute. discriminate.
Qed.

(** C7.  The keys of [results] are the registry's names in the registry's
    order, whatever the flags.  The entry of a checker is made from that
    checker's own records only: the records the filter keeps, in the order
    and number in which [check_text] returned them, or the single [error]
    record when its pass raised. *)
Theorem registry_order (self : TamilTextAnalyzer.t) (text : pystr)
    (check_spelling check_grammar : bool) :
  NoDup (dict_keys (TamilTextAnalyzer.models self)) ->
  exists res corr,
    TamilTextAnalyzer.analyze_text self text check_spelling check_grammar
    = Returns (res, corr)
    /\ dict_keys res = dict_keys (TamilTextAnalyzer.models self)
    /\ forall name model,
         In (name, model) (TamilTextAnalyzer.models self) ->
         (forall errors,
            check_text model text = Returns errors ->
            raised_in_try model text = None ->
            dict_get res name
            = Some (filter
                      (TamilTextAnalyzer.keeps check_spelling check_grammar)
                      errors))
         /\ (forall e,
               raised_in_try model text = Some e ->
               dict_get res name
               = Some [(py "error", py "Error processing text: " ++ exn_str e,
                        text)]).
Proof.
  intros Hnd.
  rewrite (@analyze_text_spec text check_spelling check_grammar self Hnd).
  eexists; eexists. split; [reflexivity|].
  set (entry := fun item : pystr * Checker =>
                  (fst item,
                   result_entry text check_spelling check_grammar (snd item))).
  assert (Hkeys : dict_keys (map entry (TamilTextAnalyzer.models self))
                  = dict_keys (TamilTextAnalyzer.models self))
    by (unfold dict_keys; now rewrite map_map).
  split; [exact Hkeys|].
  intros name model Hin.
  assert (Hget : dict_get (map entry (TamilTextAnalyzer.models self)) name
                 = Some (result_entry text check_spelling check_grammar model)).
  { apply dict_get_In; [now rewrite Hkeys|]. exact (in_map entry _ _ Hin). }
  rewrite Hget. split.
  - intros errors Herrors Hquiet. f_equal. now apply result_entry_quiet.
  - intros e Hraised. f_equal. now apply result_entry_raised.
Qed.

Lemma registry_order_witness :
  exists res corr,
    TamilTextAnalyzer.analyze_text sample_analyzer (py "நான்") false false
    = Returns (res, corr)
    /\ dict_keys res = [py "Rule-based"; py "Deep Learning"; py "Statistical"].
Proof.
  destruct (@registry_order sample_analyzer (py "நான்") false false
              registered_names_nodup)
    as (res & corr & Hrun & Hkeys & _).
  exists res, corr. split; [exact Hrun | exact Hkeys].
Defined.

Section Registered.
Context {E : External}.

Lemma registered_quiet (a : TamilTextAnalyzer.t) (text : pystr) :
  TamilTextAnalyzer.__init__ = Returns a ->
  dict_keys (TamilTextAnalyzer.models a)
  = [py "Rule-based"; py "Deep Learning"; py "Statistical"]
  /\ forall name model,
       In (name, model) (TamilTextAnalyzer.models a) ->
       hasattr model "correct_spelling" = false
       /\ raised_in_try model text = None
       /\ correction_entry text (name, model) = [].
Proof.
  intros Ha. destruct (init_models Ha) as (rb & dl & st & _ & _ & _ & Hm).
  rewrite Hm. split; [reflexivity|].
  intros name model [H | [H | [H | []]]]; inversion H; subst;
    (split; [reflexivity|]); unfold correction_entry; simpl.
  - split; [apply rule_based_quiet|].
    now destruct (RuleBasedChecker.check_text rb text).
  - split; [apply deep_learning_quiet|].
    now destruct (DeepLearningChecker.check_text dl text).
  - split; [apply statistical_quiet|].
    now destruct (StatisticalChecker.check_text st text).
Qed.

Lemma registered_nodup (a : TamilTextAnalyzer.t) :
  TamilTextAnalyzer.__init__ = Returns a ->
  NoDup (dict_keys (TamilTextAnalyzer.models a)).
Proof.
  intros Ha. destruct (registered_quiet [] Ha) as [-> _].
  exact registered_names_nodup.
Qed.

Lemma registered_corrections (a : TamilTextAnalyzer.t) (text : pystr) :
  TamilTextAnalyzer.__init__ = Returns a ->
  flat_map (correction_entry text) (TamilTextAnalyzer.models a) = [].
Proof.
  intros Ha. destruct (registered_quiet text Ha) as [_ Hall].
  induction (TamilTextAnalyzer.models a) as [|[name model] l IH];
    [reflexivity|].
  simpl. destruct (Hall name model (or_introl eq_refl)) as (_ & _ & ->).
  apply IH. intros name' model' Hin. apply Hall. now right.
Qed.

End Registered.

(** C10.  For the analyzer [TamilTextAnalyzer()] builds, [corrections] is
    empty for every text and every flags: [hasattr(model,
    'correct_spelling')] is false for each of the three registered
    objects.  The deep-learning checker does have
    [get_correction_suggestions], a different name. *)
Theorem corrections_empty {E : External} (a : TamilTextAnalyzer.t)
    (text : pystr) (check_spelling check_grammar : bool) :
  TamilTextAnalyzer.__init__ = Returns a ->
  (exists res,
     TamilTextAnalyzer.analyze_text a text check_spelling check_grammar
     = Returns (res, []))
  /\ (forall name model,
        In (name, model) (TamilTextAnalyzer.models a) ->
        hasattr model "correct_spelling" = false)
  /\ (forall dl : DeepLearningChecker.t,
        hasattr (DeepLearningChecker.as_checker dl)
          "get_correction_suggestions" = true).
Proof.
  intros Ha. split.
  - rewrite (@analyze_text_spec text check_spelling check_grammar a
               (registered_nodup Ha)).
    rewrite (registered_corrections text Ha). eauto.
  - split; [|reflexivity].
    intros name model Hin.
    destruct (registered_quiet text Ha) as [_ Hall].
    now destruct (Hall name model Hin).
Qed.

Lemma corrections_empty_witness :
  exists res,
    TamilTextAnalyzer.analyze_text sample_analyzer
      (py "நான் பள்ளிக்கு சல்கிறேன்") true true = Returns (res, []).
Proof.
  assert (Hinit : @TamilTextAnalyzer.__init__ sample_external
                  = Returns sample_analyzer) by reflexivity.
  destruct (@corrections_empty sample_external sample_analyzer
              (py "நான் பள்ளிக்கு சல்கிறேன்") true true Hinit)
    as [Hrun _].
  exact Hrun.
Defined.

(** * Further properties of the code *)

(** ** The matcher on the shapes of pattern the checkers use *)

Section Matcher.
Context {E : External}.

Lemma startswith_app (s prefix : pystr) :
  startswith s prefix = true <-> exists rest, s = prefix ++ rest.
Proof.
  revert s. induction prefix as [|p prefix IH]; intros s; simpl.
  - split; [intros _; now exists s | reflexivity].
  - destruct s as [|c s]; [split; [discriminate | intros [rest H]; discriminate]|].
    rewrite andb_true_iff, N.eqb_eq, IH. split.
    + intros [-> [rest ->]]. now exists rest.
    + intros [rest H]. inversion H; subst. split; [reflexivity | now exists rest].
Qed.

(** A literal pattern matches at the head of [s] exactly when [s] starts
    with it; the rest of the pattern goes on after it. *)
Lemma match_here_literal (l : pystr) (p : Re.pattern) (s : pystr) :
  Re.match_here (literal l ++ p) s
  = if startswith s l
    then option_map (Nat.add (List.length l))
           (Re.match_here p (skipn (List.length l) s))
    else None.
Proof.
  revert s. induction l as [|c l IH]; intros s.
  - simpl. now destruct (Re.match_here p s).
  - destruct s as [|d s]; [reflexivity|].
    simpl. rewrite N.eqb_sym.
    destruct (c =? d)%N eqn:Hcd; [|reflexivity]. simpl.
    rewrite IH. destruct (startswith s l); [|reflexivity].
    now destruct (Re.match_here p (skipn (List.length l) s)).
Qed.

Lemma repeat_greedy_some (a : Re.atom) (k : pystr -> option nat) (s : pystr) :
  Re.is_some (Re.repeat_greedy a k s) = true
  <-> exists taken rest,
        s = taken ++ rest
        /\ Forall (fun c => Re.atom_matches a c = true) taken
        /\ Re.is_some (k rest) = true.
Proof.
  induction s as [|c s IH].
  - simpl. split.
    + intros Hk. exists [], []. repeat split; [constructor | exact Hk].
    + intros (taken & rest & Hs & _ & Hk).
      symmetry in Hs. apply app_eq_nil in Hs as [_ ->]. exact Hk.
  - simpl. destruct (Re.atom_matches a c) eqn:Hac.
    + destruct (Re.repeat_greedy a k s) as [n|] eqn:Hrec.
      * split; [|reflexivity]. intros _.
        destruct (proj1 IH eq_refl) as (taken & rest & -> & Hall & Hk).
        exists (c :: taken), rest. repeat split; [now constructor | exact Hk].
      * split.
        -- intros Hk. exists [], (c :: s).
           repeat split; [constructor | exact Hk].
        -- intros (taken & rest & Hs & Hall & Hk).
           destruct taken as [|d taken]; simpl in Hs.
           ++ now subst rest.
           ++ inversion Hs; subst. inversion Hall; subst.
              assert (Hsome : Re.is_some (@None nat) = true).
              { apply IH. exists taken, rest. now repeat split. }
              discriminate Hsome.
    + split.
      * intros Hk. exists [], (c :: s). repeat split; [constructor | exact Hk].
      * intros (taken & rest & Hs & Hall & Hk).
        destruct taken as [|d taken]; simpl in Hs; [now subst rest|].
        inversion Hs; subst. inversion Hall; subst. congruence.
Qed.

Lemma search_from_some (p : Re.pattern) (s : pystr) :
  Re.is_some (Re.search_from p s) = true
  <-> exists pre rest,
        s = pre ++ rest /\ Re.is_some (Re.match_here p rest) = true.
Proof.
  induction s as [|c s IH]; simpl.
  - destruct (Re.match_here p []) eqn:Hm; simpl.
    + split; [|reflexivity]. intros _. exists [], []. now rewrite Hm.
    + split; [discriminate|]. intros (pre & rest & Hs & Hr).
      symmetry in Hs. apply app_eq_nil in Hs as [_ ->].
      rewrite Hm in Hr. discriminate.
  - destruct (Re.match_here p (c :: s)) eqn:Hm; simpl.
    + split; [|reflexivity]. intros _. exists [], (c :: s). now rewrite Hm.
    + destruct (Re.search_from p s) as [[i n]|] eqn:Hrec; simpl.
      * split; [|reflexivity]. intros _.
        destruct (proj1 IH eq_refl) as (pre & rest & -> & Hr).
        now exists (c :: pre), rest.
      * split; [discriminate|]. intros (pre & rest & Hs & Hr).
        destruct pre as [|d pre]; simpl in Hs.
        -- subst rest. rewrite Hm in Hr. discriminate.
        -- inversion Hs; subst.
           assert (Hsome : Re.is_some (@None (nat * nat)) = true).
           { apply IH. now exists pre, rest. }
           discriminate Hsome.
Qed.

Lemma is_some_option_map {A B} (f : A -> B) (o : option A) :
  Re.is_some (option_map f o) = Re.is_some o.
Proof. now destruct o. Qed.

Lemma skipn_app_exact {A} (l rest : list A) :
  skipn (List.length l) (l ++ rest) = rest.
Proof. induction l; simpl; auto. Qed.

(** The shape [x.*y]: somewhere [x], later on the same line [y]. *)
Lemma search_subject_suffix (x y s : pystr) :
  Re.is_some
    (Re.search_from (literal x ++ (Re.Dot, Re.Star) :: literal y) s) = true
  <-> followed_by x y s.
Proof.
  rewrite search_from_some. unfold followed_by. split.
  - intros (pre & rest & -> & Hm).
    rewrite match_here_literal in Hm.
    destruct (startswith rest x) eqn:Hx; [|discriminate].
    apply startswith_app in Hx as [rest' ->].
    rewrite is_some_option_map, skipn_app_exact in Hm.
    simpl Re.match_here in Hm.
    apply repeat_greedy_some in Hm as (mid & tail & -> & Hmid & Hy).
    rewrite <- (app_nil_r (literal y)) in Hy.
    rewrite match_here_literal in Hy.
    destruct (startswith tail y) eqn:Hty; [|discriminate].
    apply startswith_app in Hty as [post ->].
    exists pre, mid, post. split; [reflexivity|].
    eapply Forall_impl; [|exact Hmid]. simpl. intros c Hc ->. discriminate.
  - intros (pre & mid & post & -> & Hmid).
    exists pre, (x ++ mid ++ y ++ post). split; [reflexivity|].
    rewrite match_here_literal.
    assert (Hx : startswith (x ++ mid ++ y ++ post) x = true)
      by (apply startswith_app; eauto).
    rewrite Hx, is_some_option_map, skipn_app_exact.
    simpl Re.match_here. apply repeat_greedy_some.
    exists mid, (y ++ post). split; [reflexivity|]. split.
    + eapply Forall_impl; [|exact Hmid]. simpl. intros c Hc.
      destruct (c =? 10)%N eqn:Hn; [|reflexivity].
      apply N.eqb_eq in Hn. contradiction.
    + rewrite <- (app_nil_r (literal y)). rewrite match_here_literal.
      assert (Hy : startswith (y ++ post) y = true)
        by (apply startswith_app; eauto).
      now rewrite Hy.
Qed.

End Matcher.

(** ** Sentences *)

Section Sentences.
Context {E : External}.






Lemma lstrip_Forall (P : codepoint -> Prop) (s : pystr) :
  Forall P s -> Forall P (lstrip s).
Proof.
  induction 1 as [|c s Hc Hs IH]; simpl; [constructor|].
  destruct (isspace c); [exact IH | now constructor].
Qed.

Lemma strip_Forall (P : codepoint -> Prop) (s : pystr) :
  Forall P s -> Forall P (strip s).
Proof.
  intros Hs. unfold strip, rstrip.
  apply Forall_rev, lstrip_Forall, Forall_rev, lstrip_Forall, Hs.
Qed.

Lemma sentence_pattern_compiled :
  Re.compile (py "[.!?।]")
  = Some [(Re.OneOf [(46, 46); (33, 33); (63, 63); (2404, 2404)]%N, Re.One)].
Proof. reflexivity. Qed.

Lemma in_point_range (c a : codepoint) : Re.in_range c (a, a) = (c =? a)%N.
Proof.
  unfold Re.in_range. simpl.
  destruct (N.eqb_spec c a) as [->|Hne].
  - now rewrite N.leb_refl.
  - destruct (N.leb_spec a c), (N.leb_spec c a); simpl; try reflexivity.
    exfalso. apply Hne. now apply N.le_antisymm.
Qed.

Lemma pieces_step (c : codepoint) (s acc : pystr) :
  Re.pieces
    [(Re.OneOf [(46, 46); (33, 33); (63, 63); (2404, 2404)]%N, Re.One)]
    (c :: s) 0 acc
  = if sentence_delimiter c
    then rev acc
         :: Re.pieces
              [(Re.OneOf [(46, 46); (33, 33); (63, 63); (2404, 2404)]%N,
                Re.One)] s 0 []
    else Re.pieces
           [(Re.OneOf [(46, 46); (33, 33); (63, 63); (2404, 2404)]%N,
             Re.One)] s 0 (c :: acc).
Proof.
  cbn [Re.pieces Re.match_here Re.atom_matches existsb].
  rewrite !in_point_range, orb_false_r. unfold sentence_delimiter.
  rewrite <- !orb_assoc.
  now destruct ((c =? 46) || ((c =? 33) || ((c =? 63) || (c =? 2404))))%N.
Qed.


Lemma pieces_without_delimiter (s acc : pystr) :
  Forall (fun c => sentence_delimiter c = false) s ->
  Re.pieces
    [(Re.OneOf [(46, 46); (33, 33); (63, 63); (2404, 2404)]%N, Re.One)]
    s 0 acc
  = [rev acc ++ s].
Proof.
  revert acc. induction s as [|c s IH]; intros acc Hs.
  - simpl. now rewrite app_nil_r.
  - inversion Hs as [|? ? Hc Hs']; subst. rewrite pieces_step, Hc.
    rewrite IH by assumption. simpl. now rewrite <- app_assoc.
Qed.

Lemma pieces_count (s acc : pystr) :
  List.length
    (Re.pieces
       [(Re.OneOf [(46, 46); (33, 33); (63, 63); (2404, 2404)]%N, Re.One)]
       s 0 acc)
  = S (List.length (filter sentence_delimiter s)).
Proof.
  revert acc. induction s as [|c s IH]; intros acc; [reflexivity|].
  rewrite pieces_step. simpl filter.
  destruct (sentence_delimiter c); simpl; now rewrite IH.
Qed.

Lemma split_sentences_unfold (text : pystr) :
  RuleBasedChecker.split_sentences text
  = map strip
      (filter (fun s => truthy (strip s))
         (Re.pieces
            [(Re.OneOf [(46, 46); (33, 33); (63, 63); (2404, 2404)]%N,
              Re.One)] text 0 [])).
Proof.
  unfold RuleBasedChecker.split_sentences, Re.split.
  now rewrite sentence_pattern_compiled.
Qed.

End Sentences.



(** X2.  A text without any delimiter is one sentence, the stripped text,
    or no sentence at all when it is blank. *)
Theorem single_sentence {E : External} (text : pystr) :
  Forall (fun c => sentence_delimiter c = false) text ->
  RuleBasedChecker.split_sentences text
  = if truthy (strip text) then [strip text] else [].
Proof.
  intros Hfree. rewrite split_sentences_unfold.
  rewrite (pieces_without_delimiter [] Hfree). simpl.
  now destruct (truthy (strip text)).
Qed.

Lemma single_sentence_witness :
  @RuleBasedChecker.split_sentences sample_external (py "  நான்  ")
  = [py "நான்"].
Proof.
  rewrite (@single_sentence sample_external (py "  நான்  ")).
  - vm_compute. reflexivity.
  - vm_compute. repeat constructor.
Defined.

(** X3.  There is at most one more sentence than there are delimiters in
    the text. *)
Theorem sentence_count {E : External} (text : pystr) :
  List.length (RuleBasedChecker.split_sentences text)
  <= S (List.length (filter sentence_delimiter text)).
Proof.
  rewrite split_sentences_unfold, length_map.
  rewrite <- (pieces_count text []). apply filter_length_le.
Qed.

(** ** The rule-based checker *)

Section RuleBased.
Context {E : External}.

Lemma matching_rules_In (rules : list (pystr * pystr)) (test : pystr -> bool)
    (kind ctx : pystr) (r : ErrorRecord) :
  In r (RuleBasedChecker.matching_rules rules test kind ctx)
  <-> exists rule,
        In rule rules /\ test (fst rule) = true /\ r = (kind, snd rule, ctx).
Proof.
  unfold RuleBasedChecker.matching_rules. rewrite in_flat_map. split.
  - intros [rule [Hrule Hr]]. exists rule.
    destruct (test (fst rule)); [|contradiction].
    destruct Hr as [<- | []]. now repeat split.
  - intros [rule (Hrule & Htest & ->)]. exists rule.
    rewrite Htest. split; [assumption | now left].
Qed.

Lemma subject_verb_table :
  RuleBasedChecker.subject_verb_agreement
  = map (fun rule : pystr * pystr * pystr =>
           (fst (fst rule) ++ py ".*" ++ snd (fst rule), snd rule))
      subject_verb_rules.
Proof. vm_compute. reflexivity. Qed.

Lemma subject_verb_compiled :
  Forall (fun rule : pystr * pystr * pystr =>
            Re.compile (fst (fst rule) ++ py ".*" ++ snd (fst rule))
            = Some (literal (fst (fst rule))
                    ++ (Re.Dot, Re.Star) :: literal (snd (fst rule))))
    subject_verb_rules.
Proof. repeat constructor. Qed.

(** The rules that fire on one sentence. *)
Lemma sentence_rules (sentence : pystr) (r : ErrorRecord) :
  In r (RuleBasedChecker.matching_rules RuleBasedChecker.subject_verb_agreement
          (fun pattern => Re.search pattern sentence) (py "grammar") sentence)
  <-> exists subject suffix msg,
        In (subject, suffix, msg) subject_verb_rules
        /\ followed_by subject suffix sentence
        /\ r = (py "grammar", msg, sentence).
Proof.
  rewrite matching_rules_In, subject_verb_table.
  pose proof subject_verb_compiled as Hcompiled.
  rewrite Forall_forall in Hcompiled.
  split.
  - intros [rule (Hrule & Hsearch & ->)].
    apply in_map_iff in Hrule as [[[subject suffix] msg] [<- Hin]].
    exists subject, suffix, msg. split; [exact Hin|]. split; [|reflexivity].
    pose proof (Hcompiled _ Hin) as Hc. cbn [fst snd] in Hc, Hsearch.
    unfold Re.search in Hsearch. rewrite Hc in Hsearch.
    now apply search_subject_suffix.
  - intros (subject & suffix & msg & Hin & Hfollows & ->).
    exists (subject ++ py ".*" ++ suffix, msg).
    split; [|split; [|reflexivity]].
    + apply in_map_iff. now exists (subject, suffix, msg).
    + pose proof (Hcompiled _ Hin) as Hc. cbn [fst snd] in Hc |- *.
      unfold Re.search. rewrite Hc. now apply search_subject_suffix.
Qed.

Lemma check_grammar_In (self : RuleBasedChecker.t) (text : pystr)
    (r : ErrorRecord) :
  In r (RuleBasedChecker.check_grammar self text)
  <-> exists sentence subject suffix msg,
        In sentence (RuleBasedChecker.split_sentences text)
        /\ In (subject, suffix, msg) subject_verb_rules
        /\ followed_by subject suffix sentence
        /\ r = (py "grammar", msg, sentence).
Proof.
  unfold RuleBasedChecker.check_grammar. rewrite in_flat_map. split.
  - intros [sentence [Hs Hr]]. apply sentence_rules in Hr.
    destruct Hr as (subject & suffix & msg & H). now exists sentence, subject, suffix, msg.
  - intros (sentence & subject & suffix & msg & Hs & H).
    exists sentence. split; [exact Hs|]. apply sentence_rules. eauto.
Qed.

Lemma followed_by_weaken (x x' y y' s : pystr) (xs ys : pystr) :
  x = x' ++ xs -> y = y' ++ ys -> Forall (fun c => c <> 10%N) xs ->
  followed_by x y s -> followed_by x' y' s.
Proof.
  intros -> -> Hxs (pre & mid & post & -> & Hmid).
  exists pre, (xs ++ mid), (ys ++ post). split.
  - now rewrite <- !app_assoc.
  - apply Forall_app. now split.
Qed.

End RuleBased.

(** X4.  [check_grammar] reports a record exactly for a sentence of the
    text and a rule whose subject occurs in the sentence and whose verb
    suffix occurs later on the same line; the record carries the rule's
    message and the sentence. *)
Theorem check_grammar_characterised {E : External}
    (self : RuleBasedChecker.t) (text : pystr) (r : ErrorRecord) :
  In r (RuleBasedChecker.check_grammar self text)
  <-> exists sentence subject suffix msg,
        In sentence (RuleBasedChecker.split_sentences text)
        /\ In (subject, suffix, msg) subject_verb_rules
        /\ followed_by subject suffix sentence
        /\ r = (py "grammar", msg, sentence).
Proof.
  unfold RuleBasedChecker.check_grammar. rewrite in_flat_map. split.
  - intros [sentence [Hs Hr]]. apply sentence_rules in Hr.
    destruct Hr as (subject & suffix & msg & Hrule & Hfollows & Hrecord).
    exists sentence, subject, suffix, msg. now repeat split.
  - intros (sentence & subject & suffix & msg & Hs & Hrule & Hfollows & Hr).
    exists sentence. split; [exact Hs|].
    apply sentence_rules. now exists subject, suffix, msg.
Qed.

Ltac which_rule H :=
  repeat (destruct H as [H | H];
          [inversion H; subst; clear H;
           try match goal with
               | Hm : _ = _ |- _ => vm_compute in Hm; discriminate Hm
               end|]);
  try contradiction.

(** X5.  The suffix of the second rule is a prefix of the suffix of the
    first: a sentence reported as "First person singular with plural verb"
    is always reported as "First person singular with formal verb" too. *)
Theorem plural_verb_reported_twice {E : External}
    (self : RuleBasedChecker.t) (text sentence : pystr) :
  In (py "grammar", py "First person singular with plural verb", sentence)
    (RuleBasedChecker.check_grammar self text) ->
  In (py "grammar", py "First person singular with formal verb", sentence)
    (RuleBasedChecker.check_grammar self text).
Proof.
  intros Hin. apply check_grammar_In in Hin.
  destruct Hin as (sentence' & subject & suffix & msg & Hs & Hrule & Hf & Hr).
  inversion Hr as [[Hmsg Hsentence]]. subst sentence'.
  apply check_grammar_In.
  exists sentence, (py "நான்"), (py "கிறார்"),
    (py "First person singular with formal verb").
  split; [exact Hs|]. split; [right; now left|]. split; [|reflexivity].
  simpl in Hrule. which_rule Hrule.
  apply (@followed_by_weaken (py "நான்") (py "நான்") (py "கிறார்கள்")
           (py "கிறார்") sentence [] (py "கள்"));
    [reflexivity | reflexivity | constructor | assumption].
Qed.

Lemma plural_verb_reported_twice_witness :
  In (py "grammar", py "First person singular with formal verb",
      py "நான் வருகிறார்கள்")
    (@RuleBasedChecker.check_grammar sample_external sample_rule_based
       (py "நான் வருகிறார்கள்")).
Proof.
  apply plural_verb_reported_twice. vm_compute. left. reflexivity.
Defined.

(** X6.  The subject of the rule for the singular "you" is a prefix of the
    plural "you": a sentence with the plural subject followed by the plural
    suffix is reported as "Second person singular with plural verb". *)
Theorem plural_you_reported_as_singular {E : External}
    (self : RuleBasedChecker.t) (text sentence : pystr) :
  In sentence (RuleBasedChecker.split_sentences text) ->
  followed_by (py "நீங்கள்") (py "கிறார்கள்") sentence ->
  In (py "grammar", py "Second person singular with plural verb", sentence)
    (RuleBasedChecker.check_grammar self text).
Proof.
  intros Hs Hf. apply check_grammar_In.
  exists sentence, (py "நீ"), (py "கிறார்கள்"),
    (py "Second person singular with plural verb").
  split; [exact Hs|]. split; [do 5 right; now left|]. split; [|reflexivity].
  apply (@followed_by_weaken (py "நீங்கள்") (py "நீ") (py "கிறார்கள்")
           (py "கிறார்கள்") sentence (py "ங்கள்") []);
    [reflexivity | reflexivity | | assumption].
  vm_compute. repeat constructor; discriminate.
Qed.

Lemma plural_you_reported_as_singular_witness :
  In (py "grammar", py "Second person singular with plural verb",
      py "நீங்கள் வருகிறார்கள்")
    (@RuleBasedChecker.check_grammar sample_external sample_rule_based
       (py "நீங்கள் வருகிறார்கள்")).
Proof.
  apply plural_you_reported_as_singular.
  - vm_compute. left. reflexivity.
  - exists [], (py " வரு"), []. split; [reflexivity|].
    vm_compute. repeat constructor; discriminate.
Defined.

Section Dictionary.
Context {E : External}.

Lemma match_literal (l word : pystr) :
  Re.compile l = Some (literal l) ->
  Re.match_ l word = startswith word l.
Proof.
  intros Hc. unfold Re.match_. rewrite Hc.
  rewrite <- (app_nil_r (literal l)), match_here_literal.
  now destruct (startswith word l).
Qed.

Lemma matching_literal_rules (rules : list (pystr * pystr))
    (kind word : pystr) :
  Forall (fun rule : pystr * pystr =>
            Re.compile (fst rule) = Some (literal (fst rule))) rules ->
  RuleBasedChecker.matching_rules rules
    (fun pattern => Re.match_ pattern word) kind word
  = map (fun rule : pystr * pystr => (kind, snd rule, word))
      (filter (fun rule : pystr * pystr => startswith word (fst rule)) rules).
Proof.
  unfold RuleBasedChecker.matching_rules.
  induction 1 as [|rule rules Hrule _ IH]; [reflexivity|].
  cbn [flat_map filter]. rewrite match_literal by exact Hrule. rewrite IH.
  now destruct (startswith word (fst rule)).
Qed.

Lemma dict_mem_set {V} (d : pydict V) (k w : pystr) (v : V) :
  dict_mem (dict_set d k v) w = dict_mem d w || str_eqb w k.
Proof.
  unfold dict_mem, dict_keys.
  induction d as [|[k' v'] d IH]; simpl.
  - now rewrite orb_false_r.
  - destruct (str_eqb k k') eqn:Hk; simpl.
    + apply str_eqb_eq in Hk. subst k'.
      destruct (str_eqb w k); simpl; [reflexivity | now rewrite orb_false_r].
    + rewrite IH. now rewrite orb_assoc.
Qed.

Lemma dict_get_set_same {V} (d : pydict V) (k : pystr) (v : V) :
  dict_get (dict_set d k v) k = Some v.
Proof.
  induction d as [|[k' v'] d IH]; simpl.
  - now rewrite str_eqb_refl.
  - destruct (str_eqb k k') eqn:Hk; simpl; now rewrite Hk.
Qed.

Lemma add_line_keeps (d : pydict pystr) (line w : pystr) :
  dict_mem d w = true -> dict_mem (RuleBasedChecker.add_line d line) w = true.
Proof.
  intros Hw. unfold RuleBasedChecker.add_line.
  destruct (truthy (strip line)); [|exact Hw].
  destruct (split_on (Re.chr ",") (strip line) []) as [|p0 [|p1 rest]];
    try exact Hw.
  now rewrite dict_mem_set, Hw.
Qed.

Lemma add_lines_keep (lines : list pystr) (d : pydict pystr) (w : pystr) :
  dict_mem d w = true ->
  dict_mem (fold_left RuleBasedChecker.add_line lines d) w = true.
Proof.
  revert d. induction lines as [|line lines IH]; intros d Hw; simpl;
    [exact Hw|].
  apply IH. now apply add_line_keeps.
Qed.

Lemma lstrip_spaces (ws s : pystr) :
  Forall (fun c => isspace c = true) ws -> lstrip (ws ++ s) = lstrip s.
Proof. induction 1 as [|c ws Hc _ IH]; simpl; [reflexivity | now rewrite Hc]. Qed.

Lemma lstrip_solid (s : pystr) :
  Forall (fun c => isspace c = false) s -> lstrip s = s.
Proof. intros Hs. destruct Hs as [|c s Hc _]; simpl; [reflexivity | now rewrite Hc]. Qed.

Lemma lstrip_solid_app (s rest : pystr) :
  s <> [] -> Forall (fun c => isspace c = false) s ->
  lstrip (s ++ rest) = s ++ rest.
Proof.
  intros Hne Hs. destruct Hs as [|c s Hc _]; [contradiction|].
  simpl. now rewrite Hc.
Qed.

Lemma strip_padded (before core after : pystr) :
  Forall (fun c => isspace c = true) before ->
  Forall (fun c => isspace c = true) after ->
  core <> [] ->
  Forall (fun c => isspace c = false) core ->
  strip (before ++ core ++ after) = core.
Proof.
  intros Hbefore Hafter Hne Hcore. unfold strip.
  rewrite lstrip_spaces by exact Hbefore.
  rewrite lstrip_solid_app by assumption.
  unfold rstrip. rewrite rev_app_distr.
  rewrite lstrip_spaces by (apply Forall_rev; exact Hafter).
  rewrite lstrip_solid by (apply Forall_rev; exact Hcore).
  apply rev_involutive.
Qed.

Lemma split_on_piece (sep : codepoint) (s acc : pystr) :
  Forall (fun c => c <> sep) s ->
  forall rest,
    split_on sep (s ++ sep :: rest) acc = (rev acc ++ s) :: split_on sep rest [].
Proof.
  intros Hs. revert acc. induction Hs as [|c s Hc _ IH]; intros acc rest; simpl.
  - now rewrite N.eqb_refl, app_nil_r.
  - apply N.eqb_neq in Hc. rewrite Hc, IH. simpl. now rewrite <- app_assoc.
Qed.

Lemma split_on_last (sep : codepoint) (s acc : pystr) :
  Forall (fun c => c <> sep) s -> split_on sep s acc = [rev acc ++ s].
Proof.
  intros Hs. revert acc. induction Hs as [|c s Hc _ IH]; intros acc; simpl.
  - now rewrite app_nil_r.
  - apply N.eqb_neq in Hc. rewrite Hc, IH. simpl. now rewrite <- app_assoc.
Qed.

End Dictionary.

(** X7.  The spelling rules are tried with [re.match]: a rule fires on a
    word exactly when the word begins with the misspelling, so the records
    are those of the rules whose pattern is a prefix of the word, in the
    order of the table. *)
Theorem spelling_rules_anchored {E : External} (word : pystr) :
  RuleBasedChecker.matching_rules RuleBasedChecker.spelling_patterns
    (fun pattern => Re.match_ pattern word) (py "spelling") word
  = map (fun rule : pystr * pystr => (py "spelling", snd rule, word))
      (filter (fun rule : pystr * pystr => startswith word (fst rule))
         RuleBasedChecker.spelling_patterns).
Proof.
  apply matching_literal_rules. repeat constructor.
Qed.

(** X8.  Whatever the dictionary file contains, every word of the built-in
    dictionary is still known after loading. *)
Theorem builtin_words_kept {E : External} (words : pydict pystr)
    (word : pystr) :
  RuleBasedChecker._load_tamil_dictionary = Returns words ->
  dict_mem RuleBasedChecker.basic_dictionary word = true ->
  dict_mem words word = true.
Proof.
  unfold RuleBasedChecker._load_tamil_dictionary.
  destruct read_dictionary_file as [lines|e].
  - intros Hw Hmem. inversion Hw; subst. now apply add_lines_keep.
  - destruct (exn_cls e); try discriminate.
    intros Hw Hmem. now inversion Hw; subst.
Qed.

Lemma builtin_words_kept_witness :
  exists words,
    @RuleBasedChecker._load_tamil_dictionary dictionary_external
    = Returns words
    /\ dict_get words (py "வீடு") = Some (py "noun")
    /\ dict_get words (py "பள்ளிக்கு") = Some (py "place")
    /\ dict_mem words (py "பள்ளிக்கு") = true
    /\ dict_mem words (py "நான்") = true.
Proof.
  eexists. split; [reflexivity|].
  split; [vm_compute; reflexivity|].
  split; [vm_compute; reflexivity|].
  split.
  - apply (@builtin_words_kept dictionary_external _ (py "பள்ளிக்கு"));
      reflexivity.
  - apply (@builtin_words_kept dictionary_external _ (py "நான்"));
      reflexivity.
Defined.

(** X9.  A line [word,tag] of the dictionary file, with any white space
    around it (the line break included), makes [word] a key with value
    [tag], provided neither contains a comma or white space. *)
Theorem dictionary_line_adds (d : pydict pystr)
    (before word tag after : pystr) :
  Forall (fun c => isspace c = true) before ->
  Forall (fun c => isspace c = true) after ->
  Forall (fun c => isspace c = false /\ c <> Re.chr ",") word ->
  Forall (fun c => isspace c = false /\ c <> Re.chr ",") tag ->
  dict_get
    (RuleBasedChecker.add_line d (before ++ word ++ py "," ++ tag ++ after))
    word
  = Some tag.
Proof.
  intros Hbefore Hafter Hword Htag.
  assert (Hsolid : Forall (fun c => isspace c = false)
                     (word ++ Re.chr "," :: tag)).
  { apply Forall_app. split.
    - eapply Forall_impl; [|exact Hword]. now intros c [Hc _].
    - constructor; [reflexivity|].
      eapply Forall_impl; [|exact Htag]. now intros c [Hc _]. }
  assert (Hne : word ++ Re.chr "," :: tag <> [])
    by (destruct word; discriminate).
  assert (Hstrip : strip (before ++ word ++ py "," ++ tag ++ after)
                   = word ++ Re.chr "," :: tag).
  { replace (before ++ word ++ py "," ++ tag ++ after)
      with (before ++ (word ++ Re.chr "," :: tag) ++ after)
      by (now rewrite <- !app_assoc).
    now apply strip_padded. }
  unfold RuleBasedChecker.add_line. rewrite Hstrip.
  assert (Htruthy : truthy (word ++ Re.chr "," :: tag) = true)
    by (destruct word; reflexivity).
  rewrite Htruthy.
  rewrite split_on_piece
    by (eapply Forall_impl; [|exact Hword]; now intros x [_ Hx]).
  rewrite split_on_last
    by (eapply Forall_impl; [|exact Htag]; now intros x [_ Hx]).
  simpl. apply dict_get_set_same.
Qed.

Lemma dictionary_line_adds_witness :
  dict_get
    (RuleBasedChecker.add_line RuleBasedChecker.basic_dictionary
       (py "வீடு,noun" ++ [10%N]))
    (py "வீடு")
  = Some (py "noun").
Proof.
  apply (@dictionary_line_adds RuleBasedChecker.basic_dictionary []
           (py "வீடு") (py "noun") [10%N]);
    vm_compute; repeat constructor; discriminate.
Defined.

(** X10.  A line without a comma, a blank line included, leaves the
    dictionary as it is. *)
Theorem dictionary_line_ignored (d : pydict pystr) (line : pystr) :
  Forall (fun c => c <> Re.chr ",") line ->
  RuleBasedChecker.add_line d line = d.
Proof.
  intros Hline. unfold RuleBasedChecker.add_line.
  destruct (truthy (strip line)); [|reflexivity].
  rewrite split_on_last; [reflexivity|].
  now apply strip_Forall.
Qed.

Lemma dictionary_line_ignored_witness :
  RuleBasedChecker.add_line RuleBasedChecker.basic_dictionary (py "வீடு noun")
  = RuleBasedChecker.basic_dictionary.
Proof.
  apply dictionary_line_ignored. vm_compute. repeat constructor; discriminate.
Defined.

(** X11.  [check_text] of the rule-based checker is all or nothing: when the
    tokenizer returns, the result is the spelling records of the tokens
    followed by the grammar records of the sentences; when the tokenizer
    raises, the result is the single [error] record and the grammar
    findings are lost with the spelling ones. *)
Theorem rule_based_all_or_nothing {E : External}
    (self : RuleBasedChecker.t) (text : pystr) :
  (forall words,
     trivial_tokenize text = Returns words ->
     exists spelling,
       RuleBasedChecker.check_text self text
       = Returns (spelling ++ RuleBasedChecker.check_grammar self text)
       /\ Forall (fun r => category r = py "spelling" /\ In (context r) words)
            spelling
       /\ Forall (fun r => category r = py "grammar"
                           /\ In (context r)
                                (RuleBasedChecker.split_sentences text))
            (RuleBasedChecker.check_grammar self text))
  /\ (forall e,
        trivial_tokenize text = Raises e ->
        exists msg,
          RuleBasedChecker.check_text self text
          = Returns [(py "error", msg, text)]).
Proof.
  split.
  - intros words Hwords.
    exists (flat_map (RuleBasedChecker.check_word self) words).
    split; [|split].
    + unfold RuleBasedChecker.check_text, RuleBasedChecker.check_spelling.
      rewrite Hwords. cbn [exc_bind try_except].
      now destruct (flat_map (RuleBasedChecker.check_word self) words
                    ++ RuleBasedChecker.check_grammar self text).
    + apply Forall_flat_map, Forall_forall. intros word Hword.
      unfold RuleBasedChecker.check_word.
      assert (Hrules : forall rules test,
                Forall (fun r : ErrorRecord =>
                          category r = py "spelling" /\ In (context r) words)
                  (RuleBasedChecker.matching_rules rules test
                     (py "spelling") word)).
      { intros rules test. apply Forall_forall. intros r Hr.
        apply matching_rules_In in Hr as [rule (_ & _ & ->)]. now split. }
      apply Forall_app; split; [apply Hrules|].
      apply Forall_app; split; [|apply Hrules].
      destruct (negb (dict_mem (RuleBasedChecker.tamil_words self) word)
                && negb (existsb unicode_isdigit word));
        repeat constructor. exact Hword.
    + apply Forall_forall. intros r Hr. apply check_grammar_In in Hr.
      destruct Hr as (sentence & subject & suffix & msg & Hs & _ & _ & ->).
      now split.
  - intros e He. eexists.
    unfold RuleBasedChecker.check_text, RuleBasedChecker.check_spelling.
    rewrite He. reflexivity.
Qed.

Lemma rule_based_all_or_nothing_witness :
  exists msg,
    @RuleBasedChecker.check_text failing_external sample_rule_based
      (py "நான் வருகிறது") = Returns [(py "error", msg, py "நான் வருகிறது")].
Proof.
  exact (proj2 (@rule_based_all_or_nothing failing_external sample_rule_based
                  (py "நான் வருகிறது"))
           (failure "tokenizer failed") eq_refl).
Defined.

(** ** The deep-learning checker *)

Section DeepLearning.
Context {E : External}.

Lemma Returns_inj {A} (a b : A) : Returns a = Returns b -> a = b.
Proof. now intros [= ->]. Qed.

Lemma app_both_nil {A} (l m : list A) : l = [] -> m = [] -> l ++ m = [].
Proof. now intros -> ->. Qed.

Lemma consuming_not_empty (p : Re.pattern) (s : pystr) :
  consuming p = true -> Re.match_here p s <> Some 0.
Proof.
  destruct p as [|[a q] p]; [discriminate|].
  destruct q; [| discriminate |]; intros _; simpl;
    (destruct s as [|c s]; [discriminate|]);
    (destruct (Re.atom_matches a c); [|discriminate]).
  - now destruct (Re.match_here p s).
  - now destruct (Re.repeat_greedy a (Re.match_here p) s).
Qed.

(** [finditer] finds something exactly when [search] does. *)
Lemma scan_nil (p : Re.pattern) (s : pystr) :
  consuming p = true ->
  Re.scan p s 0 = [] <-> Re.search_from p s = None.
Proof.
  intros Hp. induction s as [|c s IH]; simpl.
  - pose proof (@consuming_not_empty p [] Hp) as H0.
    destruct p as [|[a q] p]; [discriminate|].
    destruct q; simpl; try discriminate; now split.
  - pose proof (@consuming_not_empty p (c :: s) Hp) as H0.
    destruct (Re.match_here p (c :: s)) as [[|n]|].
    + now contradiction H0.
    + split; discriminate.
    + rewrite IH. destruct (Re.search_from p s) as [[i n]|];
        split; congruence.
Qed.

Lemma finditer_search (pattern s : pystr) :
  findable pattern = true ->
  Re.finditer pattern s = [] <-> Re.search pattern s = false.
Proof.
  unfold findable, Re.finditer, Re.search.
  destruct (Re.compile pattern) as [p|]; [|discriminate].
  intros Hp. rewrite (@scan_nil p s Hp).
  destruct (Re.search_from p s); simpl; split; congruence.
Qed.

Lemma tamil_patterns_findable :
  Forall (fun item : pystr * list (pystr * pystr) =>
            Forall (fun rule : pystr * pystr => findable (fst rule) = true)
              (snd item))
    DeepLearningChecker.tamil_patterns.
Proof. vm_compute. repeat constructor. Qed.

Lemma flat_map_nil {A B} (f : A -> list B) (l : list A) :
  flat_map f l = [] <-> Forall (fun x => f x = []) l.
Proof.
  induction l as [|x l IH]; simpl; [split; constructor|].
  split.
  - intros H. apply app_eq_nil in H as [Hx Hl]. constructor; tauto.
  - intros H. inversion H; subst. apply IH in H3. now rewrite H2, H3.
Qed.

Lemma flat_map_nil_equiv {A B C} (f : A -> list B) (g : A -> list C)
    (l : list A) :
  Forall (fun x => f x = [] <-> g x = []) l ->
  flat_map f l = [] <-> flat_map g l = [].
Proof.
  intros H. rewrite !flat_map_nil.
  induction H as [|x l Hx _ IH]; split; intros HF;
    try constructor; inversion HF; subst; tauto.
Qed.

Lemma sentence_findings_nil (self : DeepLearningChecker.t)
    (sentence : pystr) (scores : list (pystr * prob)) :
  DeepLearningChecker._check_patterns self sentence
  ++ DeepLearningChecker.unusual_words sentence scores = []
  <-> sentence_suggestions sentence scores = [].
Proof.
  unfold sentence_suggestions, DeepLearningChecker._check_patterns,
    DeepLearningChecker.unusual_words.
  pose proof tamil_patterns_findable as Hok.
  assert (Hpat :
    flat_map (fun item : pystr * list (pystr * pystr) =>
      let (error_type, patterns) := item in
      flat_map (fun rule : pystr * pystr =>
        let (pattern, correction) := rule in
        map (DeepLearningChecker.pattern_error error_type correction sentence)
          (Re.finditer pattern sentence)) patterns)
      DeepLearningChecker.tamil_patterns = []
    <-> flat_map (fun item : pystr * list (pystr * pystr) =>
      let (error_type, patterns) := item in
      flat_map (fun rule : pystr * pystr =>
        let (pattern, correction) := rule in
        if Re.search pattern sentence
        then [DeepLearningChecker.pattern_suggestion error_type pattern
                correction]
        else []) patterns) DeepLearningChecker.tamil_patterns = []).
  { apply flat_map_nil_equiv.
    eapply Forall_impl; [|exact Hok]. intros [error_type patterns] Hitem.
    apply flat_map_nil_equiv.
    eapply Forall_impl; [|exact Hitem]. intros [pattern correction] Hrule.
    simpl in Hrule. split.
    - intros Hnil. apply map_eq_nil in Hnil.
      apply (@finditer_search pattern sentence Hrule) in Hnil.
      now rewrite Hnil.
    - destruct (Re.search pattern sentence) eqn:Hs; [discriminate|].
      intros _. apply (@finditer_search pattern sentence Hrule) in Hs.
      now rewrite Hs. }
  assert (Hwords :
    flat_map (fun wp : pystr * prob =>
      let (word, p) := wp in
      if prob_lt_0_1 p then
        [(py "spelling",
          py "Unusual word detected: " ++ dquote ++ word ++ dquote
            ++ py " (confidence: " ++ format_percent p ++ py ")", sentence)]
      else []) scores = []
    <-> flat_map (fun wp : pystr * prob =>
      if prob_lt_0_1 (snd wp) then
        [py "Unusual word detected: '" ++ fst wp ++ py "' might need review"]
      else []) scores = []).
  { apply flat_map_nil_equiv, Forall_forall. intros [word p] _. simpl.
    destruct (prob_lt_0_1 p); split; congruence. }
  split; intros H; apply app_eq_nil in H as [H1 H2];
    [apply Hpat in H1; apply Hwords in H2 | apply Hpat in H1; apply Hwords in H2];
    now rewrite H1, H2.
Qed.

Lemma suggest_sentences_returns (self : DeepLearningChecker.t)
    (sentences : list pystr) :
  exists l, DeepLearningChecker.suggest_sentences self sentences = Returns l.
Proof.
  induction sentences as [|sentence rest [l IH]]; simpl; [eauto|].
  destruct (assess_returns self sentence) as [scores ->]. simpl.
  rewrite IH. simpl. eauto.
Qed.

Lemma findings_and_suggestions (self : DeepLearningChecker.t)
    (sentences : list pystr) (l : list ErrorRecord) (l' : list pystr) :
  DeepLearningChecker.check_sentences self sentences = Returns l ->
  DeepLearningChecker.suggest_sentences self sentences = Returns l' ->
  l = [] <-> l' = [].
Proof.
  revert l l'. induction sentences as [|sentence rest IH]; intros l l';
    cbn [DeepLearningChecker.check_sentences
           DeepLearningChecker.suggest_sentences].
  - intros Hl Hl'. inversion Hl; inversion Hl'. tauto.
  - destruct (assess_returns self sentence) as [scores ->].
    destruct (check_sentences_returns self rest) as [errors Herrors].
    destruct (suggest_sentences_returns self rest) as [suggestions Hsugg].
    specialize (IH errors suggestions Herrors Hsugg).
    rewrite Herrors, Hsugg. cbn [exc_bind]. intros Hl Hl'.
    apply Returns_inj in Hl. apply Returns_inj in Hl'. subst l l'.
    pose proof (sentence_findings_nil self sentence scores) as Hone.
    unfold sentence_suggestions in Hone.
    rewrite !app_assoc. split; intros H; apply app_eq_nil in H as [H1 H2].
    + apply Hone in H1. apply IH in H2.
      apply app_both_nil; [exact H1 | exact H2].
    + apply Hone in H1. apply IH in H2.
      apply app_both_nil; [exact H1 | exact H2].
Qed.

Lemma suggestions_not_placeholder (self : DeepLearningChecker.t)
    (sentences : list pystr) (l' : list pystr) :
  DeepLearningChecker.suggest_sentences self sentences = Returns l' ->
  Forall (fun s => hd_error s <> Some (Re.chr "N")) l'.
Proof.
  revert l'. induction sentences as [|sentence rest IH]; intros l';
    cbn [DeepLearningChecker.suggest_sentences].
  - intros H. inversion H. constructor.
  - destruct (assess_returns self sentence) as [scores ->].
    destruct (suggest_sentences_returns self rest) as [suggestions Hsugg].
    specialize (IH suggestions Hsugg).
    rewrite Hsugg. cbn [exc_bind]. intros H. apply Returns_inj in H. subst l'.
    apply Forall_app; split; [|apply Forall_app; split; [|exact IH]].
    + apply Forall_flat_map, Forall_forall. intros [error_type patterns] _.
      apply Forall_flat_map, Forall_forall. intros [pattern correction] _.
      destruct (Re.search pattern sentence); [|constructor].
      constructor; [|constructor].
      unfold DeepLearningChecker.pattern_suggestion.
      destruct (str_eqb error_type (py "spelling"));
        [|destruct (str_eqb error_type (py "grammar"))];
        simpl; discriminate.
    + apply Forall_flat_map, Forall_forall. intros [word p] _.
      destruct (prob_lt_0_1 (snd (word, p))); [|constructor].
      constructor; [|constructor]. simpl. discriminate.
Qed.

End DeepLearning.

(** X12.  [get_correction_suggestions] never raises and never returns an
    empty list: without any suggestion it returns the one string "No
    specific corrections needed." *)
Theorem suggestions_never_empty {E : External}
    (self : DeepLearningChecker.t) (text : pystr) :
  exists l,
    DeepLearningChecker.get_correction_suggestions self text = Returns l
    /\ l <> [].
Proof.
  unfold DeepLearningChecker.get_correction_suggestions.
  destruct (suggest_sentences_returns self
              (DeepLearningChecker._split_sentences text)) as [l' ->].
  simpl. destruct l'; eexists; (split; [reflexivity | discriminate]).
Qed.

(** X13.  [check_text] and [get_correction_suggestions] agree: the first
    finds nothing exactly when the second answers "No specific corrections
    needed." *)
Theorem no_findings_no_suggestions {E : External}
    (self : DeepLearningChecker.t) (text : pystr) :
  DeepLearningChecker.check_text self text = Returns []
  <-> DeepLearningChecker.get_correction_suggestions self text
      = Returns [py "No specific corrections needed."].
Proof.
  destruct (deep_learning_returns self text) as [l [Hl Hbody]].
  destruct (suggest_sentences_returns self
              (DeepLearningChecker._split_sentences text)) as [l' Hl'].
  pose proof (findings_and_suggestions self _ Hbody Hl') as Hiff.
  pose proof (suggestions_not_placeholder self _ Hl') as Hheads.
  unfold DeepLearningChecker.get_correction_suggestions.
  rewrite Hl, Hl'. simpl. split.
  - intros H. inversion H; subst.
    now rewrite (proj1 Hiff eq_refl).
  - destruct l' as [|s l'].
    + intros _. now rewrite (proj2 Hiff eq_refl).
    + intros H. inversion H; subst. inversion Hheads; subst.
      exfalso. match goal with Hh : hd_error _ <> _ |- _ => apply Hh end.
      reflexivity.
Qed.

(** X14.  Every record of the deep-learning checker is a [spelling],
    [grammar] or [format] record, and its context is one of the sentences of
    the text, never the text as a whole unless that is one sentence. *)
Theorem deep_learning_records {E : External}
    (self : DeepLearningChecker.t) (text : pystr) :
  exists l,
    DeepLearningChecker.check_text self text = Returns l
    /\ Forall (fun r =>
                 In (category r) [py "spelling"; py "grammar"; py "format"]
                 /\ In (context r) (DeepLearningChecker._split_sentences text))
         l.
Proof.
  destruct (deep_learning_returns self text) as [l [Hl Hbody]].
  exists l. split; [exact Hl|]. clear Hl.
  assert (Hgen : forall sentences l,
            DeepLearningChecker.check_sentences self sentences = Returns l ->
            Forall (fun r =>
                      In (category r)
                        [py "spelling"; py "grammar"; py "format"]
                      /\ In (context r) sentences) l).
  { clear. induction sentences as [|sentence rest IH]; intros l; simpl.
    - intros H. inversion H. constructor.
    - destruct (assess_returns self sentence) as [scores ->]. simpl.
      destruct (DeepLearningChecker.check_sentences self rest) as [errors|];
        simpl; [|discriminate].
      intros H. inversion H; subst. clear H.
      apply Forall_app; split; [|apply Forall_app; split].
      + unfold DeepLearningChecker._check_patterns.
        apply Forall_flat_map, Forall_forall. intros [error_type patterns] _.
        apply Forall_flat_map, Forall_forall. intros [pattern correction] _.
        apply Forall_map, Forall_forall. intros group _.
        unfold DeepLearningChecker.pattern_error.
        destruct (str_eqb error_type (py "spelling"));
          [|destruct (str_eqb error_type (py "grammar"))];
          (split; [simpl; tauto | now left]).
      + unfold DeepLearningChecker.unusual_words.
        apply Forall_flat_map, Forall_forall. intros [word p] _.
        destruct (prob_lt_0_1 p); [|constructor].
        constructor; [|constructor]. split; [simpl; tauto | now left].
      + eapply Forall_impl; [|exact (IH errors eq_refl)].
        intros r [Hc Hx]. split; [exact Hc | now right]. }
  exact (Hgen _ _ Hbody).
Qed.

(** ** The statistical checker *)

Section Statistical.
Context {E : External}.

Lemma filter_nil_iff {A} (f : A -> bool) (l : list A) :
  filter f l = [] <-> forall x, In x l -> f x = false.
Proof.
  induction l as [|x l IH]; simpl; [split; [intros _ y [] | reflexivity]|].
  destruct (f x) eqn:Hx; split.
  - discriminate.
  - intros H. specialize (H x (or_introl eq_refl)). congruence.
  - intros H y [<- | Hy]; [exact Hx | now apply IH].
  - intros H. apply IH. intros y Hy. apply H. now right.
Qed.

Lemma flat_map_short {A B} (f : A -> list B) (l : list A) :
  Forall (fun x => List.length (f x) <= 1) l ->
  List.length (flat_map f l) <= List.length l.
Proof.
  induction 1 as [|x l Hx _ IH]; simpl; [lia|].
  rewrite length_app. lia.
Qed.

Lemma low_confidence_record (pred : list prob) (what text : pystr)
    (l : list ErrorRecord) :
  StatisticalChecker.low_confidence pred what text = Returns l ->
  Forall (fun r => category r = py "statistical" /\ context r = text) l
  /\ List.length l <= 1.
Proof.
  unfold StatisticalChecker.low_confidence.
  destruct (index pred 0) as [p0|]; cbn [exc_bind]; [|discriminate].
  destruct (prob_lt_0_8 p0).
  - destruct (index pred 1) as [p1|]; cbn [exc_bind]; [|discriminate].
    intros H. apply Returns_inj in H. subst l.
    split; [repeat constructor | simpl; lia].
  - intros H. apply Returns_inj in H. subst l. split; [constructor | simpl; lia].
Qed.

Lemma analyze_patterns_records (self : StatisticalChecker.t) (text : pystr) :
  Forall (fun r => category r = py "statistical" /\ context r = text)
    (StatisticalChecker._analyze_patterns self text)
  /\ List.length (StatisticalChecker._analyze_patterns self text) <= 5.
Proof.
  unfold StatisticalChecker._analyze_patterns. split.
  - apply Forall_app; split; apply Forall_flat_map, Forall_forall;
      intros [pattern msg] _; destruct (Re.search pattern text);
      repeat constructor.
  - rewrite length_app.
    assert (H1 : List.length StatisticalChecker.common_errors = 3)
      by reflexivity.
    assert (H2 : List.length StatisticalChecker.context_rules = 2)
      by reflexivity.
    match goal with
    | |- List.length (flat_map ?f _) + List.length (flat_map ?g _) <= _ =>
      pose proof (@flat_map_short _ _ f StatisticalChecker.common_errors) as B1;
      pose proof (@flat_map_short _ _ g StatisticalChecker.context_rules) as B2
    end.
    assert (L1 := B1 ltac:(apply Forall_forall; intros [pattern msg] _;
                           destruct (Re.search pattern text); simpl; lia)).
    assert (L2 := B2 ltac:(apply Forall_forall; intros [pattern msg] _;
                           destruct (Re.search pattern text); simpl; lia)).
    lia.
Qed.

Lemma statistical_analysis_records (self : StatisticalChecker.t)
    (text : pystr) (l : list ErrorRecord) :
  StatisticalChecker.analysis self text = Returns l ->
  Forall (fun r => category r = py "statistical" /\ context r = text) l
  /\ List.length l <= 7.
Proof.
  unfold StatisticalChecker.analysis.
  destruct (StatisticalChecker._extract_features self text) as [feats|];
    cbn [exc_bind]; [|discriminate].
  destruct (spelling_predict_proba _ feats) as [sp|];
    cbn [exc_bind]; [|discriminate].
  destruct (index sp 0) as [spelling_pred|]; cbn [exc_bind]; [|discriminate].
  destruct (grammar_predict_proba _ feats) as [gp|];
    cbn [exc_bind]; [|discriminate].
  destruct (index gp 0) as [grammar_pred|]; cbn [exc_bind]; [|discriminate].
  destruct (StatisticalChecker.low_confidence spelling_pred _ text)
    as [e1|] eqn:H1; cbn [exc_bind]; [|discriminate].
  destruct (StatisticalChecker.low_confidence grammar_pred _ text)
    as [e2|] eqn:H2; cbn [exc_bind]; [|discriminate].
  intros H. apply Returns_inj in H. subst l.
  pose proof (@low_confidence_record _ _ _ _ H1) as [F1 L1].
  pose proof (@low_confidence_record _ _ _ _ H2) as [F2 L2].
  destruct (analyze_patterns_records self text) as [F3 L3].
  split.
  - apply Forall_app; split; [exact F1|]. apply Forall_app; split; assumption.
  - rewrite !length_app. lia.
Qed.

Lemma statistical_never_kept_without_grammar (self : StatisticalChecker.t)
    (text : pystr) (check_spelling : bool) (l : list ErrorRecord) :
  StatisticalChecker.check_text self text = Returns l ->
  filter (TamilTextAnalyzer.keeps check_spelling false) l = [].
Proof.
  unfold StatisticalChecker.check_text.
  destruct (StatisticalChecker.analysis self text) as [l'|e] eqn:Hbody;
    cbn [try_except]; intros H; apply Returns_inj in H; subst l.
  - pose proof (@statistical_analysis_records self text l' Hbody) as [Hall _].
    apply filter_nil_iff. intros r Hr. rewrite Forall_forall in Hall.
    destruct (Hall r Hr) as [Hcat _].
    unfold TamilTextAnalyzer.keeps. rewrite Hcat, andb_false_r, orb_false_r.
    reflexivity.
  - reflexivity.
Qed.

End Statistical.

(** X15.  The statistical checker returns either at most seven records, all
    of category [statistical] and all about the whole text, or the single
    [error] record of its handler. *)
Theorem statistical_records {E : External}
    (self : StatisticalChecker.t) (text : pystr) :
  exists l,
    StatisticalChecker.check_text self text = Returns l
    /\ ((Forall (fun r => category r = py "statistical" /\ context r = text) l
         /\ List.length l <= 7)
        \/ exists msg, l = [(py "error", msg, text)]).
Proof.
  unfold StatisticalChecker.check_text.
  destruct (StatisticalChecker.analysis self text) as [l|e] eqn:Hbody;
    cbn [try_except]; eexists; (split; [reflexivity|]).
  - left. exact (@statistical_analysis_records E self text l Hbody).
  - right. eauto.
Qed.

(** ** The analyzer over the three registered checkers *)

Section Built.
Context {E : External}.

Lemma dict_get_map {V W} (f : V -> W) (l : pydict V) (k : pystr) (w : W) :
  dict_get (map (fun item => (fst item, f (snd item))) l) k = Some w ->
  exists v, In (k, v) l /\ w = f v.
Proof.
  induction l as [|[k' v'] l IH]; simpl; [discriminate|].
  destruct (str_eqb k k') eqn:Hk.
  - intros H. injection H as <-. apply str_eqb_eq in Hk. subst k'.
    exists v'. split; [now left | reflexivity].
  - intros H. destruct (IH H) as [v [Hin ->]]. exists v.
    split; [now right | reflexivity].
Qed.

Lemma keeps_nothing (r : ErrorRecord) :
  TamilTextAnalyzer.keeps false false r = false.
Proof. unfold TamilTextAnalyzer.keeps. now rewrite !andb_false_r. Qed.

Lemma filter_nothing (l : list ErrorRecord) :
  filter (TamilTextAnalyzer.keeps false false) l = [].
Proof.
  induction l as [|r l IH]; simpl; [reflexivity|]. now rewrite keeps_nothing.
Qed.

Lemma keeps_cases (r : ErrorRecord) :
  let both := TamilTextAnalyzer.keeps true true r in
  let spelling := TamilTextAnalyzer.keeps true false r in
  let grammar := TamilTextAnalyzer.keeps false true r in
  (both = false /\ spelling = false /\ grammar = false)
  \/ (both = true /\ spelling = true /\ grammar = false)
  \/ (both = true /\ spelling = false /\ grammar = true).
Proof.
  unfold TamilTextAnalyzer.keeps.
  rewrite !andb_true_r, !andb_false_r, orb_false_r. cbn [orb].
  destruct (str_eqb (category r) (py "spelling")) eqn:Hs.
  - apply str_eqb_eq in Hs. rewrite Hs. right. left. now repeat split.
  - destruct (str_in (category r) [py "grammar"; py "statistical"]); tauto.
Qed.

Lemma filter_split (l : list ErrorRecord) :
  List.length (filter (TamilTextAnalyzer.keeps true true) l)
  = List.length (filter (TamilTextAnalyzer.keeps true false) l)
    + List.length (filter (TamilTextAnalyzer.keeps false true) l).
Proof.
  induction l as [|r l IH]; [reflexivity|]. cbn [filter].
  destruct (keeps_cases r) as [(-> & -> & ->) | [(-> & -> & ->) | (-> & -> & ->)]];
    cbn [List.length]; lia.
Qed.

End Built.

(** X16.  For the analyzer [TamilTextAnalyzer()] builds, every record of
    every entry of [results] is a [spelling] record (with [check_spelling]
    set) or a [grammar] or [statistical] record (with [check_grammar] set):
    neither the [error] records of the checkers' handlers, nor the
    analyzer's own, nor the [format] records ever show up. *)
Theorem only_flagged_records {E : External} (a : TamilTextAnalyzer.t)
    (text : pystr) (check_spelling check_grammar : bool) :
  TamilTextAnalyzer.__init__ = Returns a ->
  exists res corr,
    TamilTextAnalyzer.analyze_text a text check_spelling check_grammar
    = Returns (res, corr)
    /\ forall name entry r,
         dict_get res name = Some entry -> In r entry ->
         (category r = py "spelling" /\ check_spelling = true)
         \/ ((category r = py "grammar" \/ category r = py "statistical")
             /\ check_grammar = true).
Proof.
  intros Ha.
  rewrite (@analyze_text_spec text check_spelling check_grammar a
             (registered_nodup Ha)).
  eexists; eexists. split; [reflexivity|].
  intros name entry r Hget Hr.
  apply (@dict_get_map _ _ (result_entry text check_spelling check_grammar))
    in Hget as [model [Hin ->]].
  destruct (registered_quiet text Ha) as [_ Hall].
  destruct (Hall name model Hin) as (_ & Hquiet & _).
  destruct (quiet_returns _ _ Hquiet) as [errors Herrors].
  rewrite (@result_entry_quiet text check_spelling check_grammar model errors
             Herrors Hquiet) in Hr.
  apply filter_In in Hr as [_ Hkeeps]. now apply keeps_spec.
Qed.

Lemma only_flagged_records_witness :
  exists res corr,
    TamilTextAnalyzer.analyze_text sample_analyzer (py "aக்குb") true true
    = Returns (res, corr).
Proof.
  assert (Hinit : @TamilTextAnalyzer.__init__ sample_external
                  = Returns sample_analyzer) by reflexivity.
  destruct (@only_flagged_records sample_external sample_analyzer
              (py "aக்குb") true true Hinit) as (res & corr & Hrun & _).
  now exists res, corr.
Defined.

(** X17.  With both flags off the analyzer reports nothing: the entry of
    each of the three checkers is the empty list, whatever the text, and no
    chart is drawn. *)
Theorem nothing_without_flags {E : External} (a : TamilTextAnalyzer.t)
    (text : pystr) :
  TamilTextAnalyzer.__init__ = Returns a ->
  TamilTextAnalyzer.analyze_text a text false false
  = Returns ([(py "Rule-based", []); (py "Deep Learning", []);
              (py "Statistical", [])], [])
  /\ create_error_visualization
       [(py "Rule-based", []); (py "Deep Learning", []);
        (py "Statistical", [])] = None.
Proof.
  intros Ha. split; [|reflexivity].
  rewrite (@analyze_text_spec text false false a (registered_nodup Ha)).
  rewrite (registered_corrections text Ha).
  destruct (registered_quiet text Ha) as [_ Hall].
  destruct (init_models Ha) as (rb & dl & st & _ & _ & _ & Hm).
  rewrite Hm in Hall |- *. cbn [map fst snd].
  assert (Hentry : forall name model,
            In (name, model)
              [(py "Rule-based", RuleBasedChecker.as_checker rb);
               (py "Deep Learning", DeepLearningChecker.as_checker dl);
               (py "Statistical", StatisticalChecker.as_checker st)] ->
            result_entry text false false model = []).
  { intros name model Hin. destruct (Hall name model Hin) as (_ & Hquiet & _).
    destruct (quiet_returns _ _ Hquiet) as [errors Herrors].
    rewrite (@result_entry_quiet text false false model errors Herrors Hquiet).
    apply filter_nothing. }
  rewrite (Hentry _ _ (or_introl eq_refl)).
  rewrite (Hentry _ _ (or_intror (or_introl eq_refl))).
  rewrite (Hentry _ _ (or_intror (or_intror (or_introl eq_refl)))).
  reflexivity.
Qed.

Lemma nothing_without_flags_witness :
  TamilTextAnalyzer.analyze_text sample_analyzer
    (py "நாங்கள் பள்ளிக்கு செல்கிறான் சல்கிறேன்") false false
  = Returns ([(py "Rule-based", []); (py "Deep Learning", []);
              (py "Statistical", [])], []).
Proof.
  assert (Hinit : @TamilTextAnalyzer.__init__ sample_external
                  = Returns sample_analyzer) by reflexivity.
  exact (proj1 (@nothing_without_flags sample_external sample_analyzer
                  (py "நாங்கள் பள்ளிக்கு செல்கிறான் சல்கிறேன்") Hinit)).
Defined.

(** X18.  The findings of the statistical checker answer to [check_grammar]
    alone.  With [check_grammar] off its entry is empty, also for its
    "Possible spelling errors" record and with [check_spelling] on; with
    [check_grammar] on its entry is every [statistical] record the checker
    returned, whatever [check_spelling] is. *)
Theorem statistical_needs_grammar_flag {E : External}
    (a : TamilTextAnalyzer.t) (text : pystr) :
  TamilTextAnalyzer.__init__ = Returns a ->
  exists st l,
    In (py "Statistical", StatisticalChecker.as_checker st)
      (TamilTextAnalyzer.models a)
    /\ StatisticalChecker.check_text st text = Returns l
    /\ forall check_spelling,
       exists res_off corr_off res_on corr_on,
         TamilTextAnalyzer.analyze_text a text check_spelling false
         = Returns (res_off, corr_off)
         /\ dict_get res_off (py "Statistical") = Some []
         /\ TamilTextAnalyzer.analyze_text a text check_spelling true
            = Returns (res_on, corr_on)
         /\ dict_get res_on (py "Statistical")
            = Some (filter
                      (fun r => str_eqb (category r) (py "statistical")) l).
Proof.
  intros Ha.
  destruct (init_models Ha) as (rb & dl & st & _ & _ & _ & Hm).
  assert (Hin : In (py "Statistical", StatisticalChecker.as_checker st)
                  (TamilTextAnalyzer.models a))
    by (rewrite Hm; right; right; now left).
  destruct (statistical_returns st text) as [l Hl].
  exists st, l. split; [exact Hin|]. split; [exact Hl|].
  intros check_spelling.
  destruct (@analyze_text_entry text check_spelling false a _ _
              (registered_nodup Ha) Hin)
    as (res_off & corr_off & Hrun_off & _ & Hget_off).
  destruct (@analyze_text_entry text check_spelling true a _ _
              (registered_nodup Ha) Hin)
    as (res_on & corr_on & Hrun_on & _ & Hget_on).
  exists res_off, corr_off, res_on, corr_on.
  split; [exact Hrun_off|]. split; [|split; [exact Hrun_on|]].
  - rewrite Hget_off. f_equal.
    rewrite (@result_entry_quiet text check_spelling false
               (StatisticalChecker.as_checker st) l Hl
               (statistical_quiet st text)).
    now apply (statistical_never_kept_without_grammar st text).
  - rewrite Hget_on. f_equal.
    rewrite (@result_entry_quiet text check_spelling true
               (StatisticalChecker.as_checker st) l Hl
               (statistical_quiet st text)).
    apply filter_ext_in. intros r Hr.
    assert (Hcat : category r = py "statistical" \/ category r = py "error").
    { unfold StatisticalChecker.check_text in Hl.
      destruct (StatisticalChecker.analysis st text) as [l'|e] eqn:Hbody;
        cbn [try_except] in Hl; injection Hl as <-.
      - destruct (@statistical_analysis_records E st text l' Hbody)
          as [Hall _].
        rewrite Forall_forall in Hall. left. now apply Hall.
      - destruct Hr as [<- | []]. now right. }
    unfold TamilTextAnalyzer.keeps.
    destruct Hcat as [-> | ->]; rewrite andb_true_r;
      [now destruct check_spelling | now destruct check_spelling].
Qed.

Lemma statistical_needs_grammar_flag_witness :
  exists res_off corr_off res_on corr_on,
    TamilTextAnalyzer.analyze_text sample_analyzer
      (py "நான் வருகிறார்கள்") true false = Returns (res_off, corr_off)
    /\ dict_get res_off (py "Statistical") = Some []
    /\ TamilTextAnalyzer.analyze_text sample_analyzer
         (py "நான் வருகிறார்கள்") false true = Returns (res_on, corr_on)
    /\ dict_get res_on (py "Statistical")
       = Some [(py "statistical", py "Context error: subject_verb_mismatch",
                py "நான் வருகிறார்கள்")].
Proof.
  assert (Hinit : @TamilTextAnalyzer.__init__ sample_external
                  = Returns sample_analyzer) by reflexivity.
  destruct (@statistical_needs_grammar_flag sample_external sample_analyzer
              (py "நான் வருகிறார்கள்") Hinit)
    as (st & l & Hin & Hl & Hflags).
  destruct (Hflags true) as (res_off & corr_off & _ & _ & Hoff & Hget_off & _).
  destruct (Hflags false) as (_ & _ & res_on & corr_on & _ & _ & Hon & Hget_on).
  exists res_off, corr_off, res_on, corr_on.
  split; [exact Hoff|]. split; [exact Hget_off|]. split; [exact Hon|].
  vm_compute in Hon. injection Hon as <- _. vm_compute. reflexivity.
Defined.

(** X19.  For a checker whose pass does not raise, the two flags split its
    entry: what is kept with both flags on is as many records as what is
    kept with [check_spelling] alone (all [spelling]) plus what is kept with
    [check_grammar] alone (all [grammar] or [statistical]). *)
Theorem flags_split_entry (self : TamilTextAnalyzer.t) (text : pystr)
    (name : pystr) (model : Checker) :
  NoDup (dict_keys (TamilTextAnalyzer.models self)) ->
  In (name, model) (TamilTextAnalyzer.models self) ->
  raised_in_try model text = None ->
  exists both spelling_only grammar_only res1 corr1 res2 corr2 res3 corr3,
    TamilTextAnalyzer.analyze_text self text true true = Returns (res1, corr1)
    /\ TamilTextAnalyzer.analyze_text self text true false
       = Returns (res2, corr2)
    /\ TamilTextAnalyzer.analyze_text self text false true
       = Returns (res3, corr3)
    /\ dict_get res1 name = Some both
    /\ dict_get res2 name = Some spelling_only
    /\ dict_get res3 name = Some grammar_only
    /\ List.length both
       = List.length spelling_only + List.length grammar_only
    /\ Forall (fun r => category r = py "spelling") spelling_only
    /\ Forall (fun r => category r = py "grammar"
                        \/ category r = py "statistical") grammar_only.
Proof.
  intros Hnd Hin Hquiet.
  destruct (quiet_returns _ _ Hquiet) as [errors Herrors].
  destruct (@analyze_text_entry text true true self _ _ Hnd Hin)
    as (res1 & corr1 & Hrun1 & _ & Hget1).
  destruct (@analyze_text_entry text true false self _ _ Hnd Hin)
    as (res2 & corr2 & Hrun2 & _ & Hget2).
  destruct (@analyze_text_entry text false true self _ _ Hnd Hin)
    as (res3 & corr3 & Hrun3 & _ & Hget3).
  rewrite (@result_entry_quiet text true true model errors Herrors Hquiet)
    in Hget1.
  rewrite (@result_entry_quiet text true false model errors Herrors Hquiet)
    in Hget2.
  rewrite (@result_entry_quiet text false true model errors Herrors Hquiet)
    in Hget3.
  do 3 eexists. exists res1, corr1, res2, corr2, res3, corr3.
  repeat (split; [eassumption|]).
  split; [apply filter_split|].
  split; apply Forall_forall; intros r Hr; apply filter_In in Hr as [_ Hk];
    apply keeps_spec in Hk; destruct Hk as [[Hc Hf] | [Hc Hf]];
    try discriminate; assumption.
Qed.

Lemma flags_split_entry_witness :
  exists res corr,
    TamilTextAnalyzer.analyze_text isolation_registry (py "நான்") true true
    = Returns (res, corr).
Proof.
  destruct (@flags_split_entry isolation_registry (py "நான்") (py "Local")
              (reporting_checker sample_errors) isolation_registry_nodup
              (or_intror (or_introl eq_refl)) eq_refl)
    as (both & s & g & res1 & corr1 & _ & _ & _ & _ & Hrun & _).
  now exists res1, corr1.
Defined.

(** X20.  [create_error_visualization] draws no chart exactly when every
    record of [results] is an [error] record (in particular when there is
    no record at all). *)
Theorem no_chart_iff_only_errors (results : pydict (list ErrorRecord)) :
  create_error_visualization results = None
  <-> forall name errors r,
        In (name, errors) results -> In r errors -> category r = py "error".
Proof.
  assert (Hnil : error_data results = []
                 <-> forall name errors r,
                       In (name, errors) results -> In r errors ->
                       category r = py "error").
  { unfold error_data. rewrite flat_map_nil, Forall_forall. split.
    - intros H name errors r Hin Hr. specialize (H (name, errors) Hin).
      cbv beta iota in H. apply map_eq_nil, map_eq_nil in H.
      pose proof (proj1 (filter_nil_iff _ _) H r Hr) as Hf.
      apply negb_false_iff in Hf. now apply str_eqb_eq.
    - intros H [name errors] Hin. cbv beta iota.
      assert (Hf : filter (fun error =>
                     negb (str_eqb (category error) (py "error"))) errors
                   = []).
      { apply filter_nil_iff. intros r Hr.
        rewrite (H name errors r Hin Hr). now rewrite str_eqb_refl. }
      now rewrite Hf. }
  unfold create_error_visualization.
  destruct (error_data results) as [|row rows].
  - split; [intros _; now apply Hnil | reflexivity].
  - split; [discriminate|]. intros H. apply Hnil in H. discriminate.
Qed.

(** ** The Gemma checker *)

Section Gemma.
Context {G : GroqService}.

Lemma suggestion_failure_prefix (e : exn) (code : option pystr) :
  startswith (GemmaChecker.suggestion_failure e code) (py "Error") = true.
Proof.
  unfold GemmaChecker.suggestion_failure.
  destruct code as [c|]; [destruct (str_eqb c (py "model_decommissioned"))|];
    reflexivity.
Qed.

Lemma get_suggestions_cases (self : GemmaChecker.t) (text : pystr) :
  (exists s rest,
     completions_create (GemmaChecker.client self) (py "gemma2-9b-it")
       (GemmaChecker.messages text) 2048 = Completed (Some s :: rest)
     /\ GemmaChecker.get_suggestions self text = Returns (Some s))
  \/ (exists rest,
        completions_create (GemmaChecker.client self) (py "gemma2-9b-it")
          (GemmaChecker.messages text) 2048 = Completed (None :: rest)
        /\ GemmaChecker.get_suggestions self text = Returns None)
  \/ (exists s,
        GemmaChecker.get_suggestions self text = Returns (Some s)
        /\ startswith s (py "Error") = true).
Proof.
  unfold GemmaChecker.get_suggestions.
  destruct (completions_create _ _ _ _) as [[|[s|] rest]|e code].
  - right. right. eexists. split; [reflexivity|].
    apply suggestion_failure_prefix.
  - left. now exists s, rest.
  - right. left. now exists rest.
  - right. right. eexists. split; [reflexivity|].
    apply suggestion_failure_prefix.
Qed.

End Gemma.

Lemma gemma_one_record {G : GroqService}
    (self : GemmaChecker.t) (text : pystr) :
  exists cat msg,
    GemmaChecker.check_text self text = Returns [(cat, msg, text)]
    /\ (cat = py "info" \/ cat = py "error").
Proof.
  unfold GemmaChecker.check_text.
  destruct (get_suggestions_cases self text)
    as [(s & rest & _ & ->) | [(rest & _ & ->) | (s & -> & Hs)]];
    cbn [exc_bind try_except].
  - destruct (startswith s (py "Error")); do 2 eexists;
      (split; [reflexivity | tauto]).
  - do 2 eexists. split; [reflexivity | tauto].
  - rewrite Hs. do 2 eexists. split; [reflexivity | tauto].
Qed.

(** X21.  [GemmaChecker.check_text] never raises and always returns exactly
    one record about the whole text.  The record is an [info] record only
    when the service completed and the content of its first choice does not
    start with "Error" (the message is then that content); in every other
    case it is an [error] record whose message starts with "Error". *)
Theorem gemma_single_record {G : GroqService}
    (self : GemmaChecker.t) (text : pystr) :
  exists cat msg,
    GemmaChecker.check_text self text = Returns [(cat, msg, text)]
    /\ ((cat = py "info"
         /\ startswith msg (py "Error") = false
         /\ exists rest,
              completions_create (GemmaChecker.client self)
                (py "gemma2-9b-it") (GemmaChecker.messages text) 2048
              = Completed (Some msg :: rest))
        \/ (cat = py "error" /\ startswith msg (py "Error") = true)).
Proof.
  unfold GemmaChecker.check_text.
  destruct (get_suggestions_cases self text)
    as [(s & rest & Hc & ->) | [(rest & Hc & ->) | (s & -> & Hs)]];
    cbn [exc_bind try_except].
  - destruct (startswith s (py "Error")) eqn:Hs; do 2 eexists;
      (split; [reflexivity|]).
    + right. now split.
    + left. split; [reflexivity|]. split; [exact Hs | now exists rest].
  - do 2 eexists. split; [reflexivity|]. right. split; reflexivity.
  - rewrite Hs. do 2 eexists. split; [reflexivity|]. right. now split.
Qed.

(** X22.  [GemmaChecker()] is constructed exactly when GROQ_API_KEY is set
    to a non-empty string and the client can be created; without the key
    the constructor raises before any client is made. *)
Theorem gemma_needs_key {G : GroqService} :
  (forall self,
     GemmaChecker.__init__ = Returns self
     <-> exists key,
           getenv_GROQ_API_KEY = Some key /\ key <> []
           /\ Groq key = Returns (GemmaChecker.client self)
           /\ GemmaChecker.api_key self = key)
  /\ (getenv_GROQ_API_KEY = None \/ getenv_GROQ_API_KEY = Some [] ->
      GemmaChecker.__init__
      = Raises (mk_exn OtherException
                  (py "GROQ_API_KEY not found in environment variables"))).
Proof.
  unfold GemmaChecker.__init__. split.
  - intros self. destruct getenv_GROQ_API_KEY as [[|c key]|]; cbv beta iota.
    + split; [discriminate|].
      intros (key & H & Hne & _). injection H as <-. exfalso. now apply Hne.
    + destruct (Groq (c :: key)) as [client|e] eqn:HG; cbn [exc_bind]; split.
      * intros H. apply Returns_inj in H. subst self.
        exists (c :: key). repeat split; [discriminate | exact HG].
      * intros (key' & H & _ & Hc & Hk). injection H as <-.
        destruct self as [k cl]. cbn [GemmaChecker.client GemmaChecker.api_key] in *.
        congruence.
      * discriminate.
      * intros (key' & H & _ & Hc & _). injection H as <-. congruence.
    + split; [discriminate | intros (key & H & _); discriminate].
  - intros [-> | ->]; reflexivity.
Qed.

Lemma gemma_needs_key_witness :
  @GemmaChecker.__init__ (sample_groq None (Completed []))
  = Raises (mk_exn OtherException
              (py "GROQ_API_KEY not found in environment variables")).
Proof.
  apply (proj2 (@gemma_needs_key (sample_groq None (Completed [])))).
  now left.
Defined.

(** X23.  Registered with the analyzer, a [GemmaChecker] never shows
    anything: its one record is an [info] or an [error] record, which the
    filter drops, so its entry in [results] is empty for every text and
    every flags, and it has no entry in [corrections]. *)
Theorem gemma_never_shown {G : GroqService} (self : TamilTextAnalyzer.t)
    (name : pystr) (gemma : GemmaChecker.t) (text : pystr)
    (check_spelling check_grammar : bool) :
  NoDup (dict_keys (TamilTextAnalyzer.models self)) ->
  In (name, GemmaChecker.as_checker gemma) (TamilTextAnalyzer.models self) ->
  exists res corr,
    TamilTextAnalyzer.analyze_text self text check_spelling check_grammar
    = Returns (res, corr)
    /\ dict_get res name = Some []
    /\ dict_get corr name = None.
Proof.
  intros Hnd Hin.
  rewrite (@analyze_text_spec text check_spelling check_grammar self Hnd).
  eexists; eexists. split; [reflexivity|].
  destruct (gemma_one_record gemma text) as (cat & msg & Hrun & Hcat).
  assert (Hquiet : raised_in_try (GemmaChecker.as_checker gemma) text = None).
  { unfold raised_in_try. cbn [check_text GemmaChecker.as_checker].
    now rewrite Hrun. }
  split.
  - assert (Hkeys :
      dict_keys
        (map (fun item : pystr * Checker =>
                (fst item,
                 result_entry text check_spelling check_grammar (snd item)))
           (TamilTextAnalyzer.models self))
      = dict_keys (TamilTextAnalyzer.models self))
      by (unfold dict_keys; now rewrite map_map).
    rewrite (@dict_get_In _ _ name
               (result_entry text check_spelling check_grammar
                  (GemmaChecker.as_checker gemma))).
    + f_equal.
      rewrite (@result_entry_quiet text check_spelling check_grammar
                 (GemmaChecker.as_checker gemma) [(cat, msg, text)]
                 Hrun Hquiet).
      cbn [filter]. unfold TamilTextAnalyzer.keeps. cbn [category fst].
      destruct Hcat as [-> | ->]; reflexivity.
    + now rewrite Hkeys.
    + exact (in_map (fun item : pystr * Checker =>
                       (fst item,
                        result_entry text check_spelling check_grammar
                          (snd item))) _ _ Hin).
  - apply dict_get_absent. intros Hk.
    apply corrections_keys in Hk as [model [Hin' Hne]].
    assert (model = GemmaChecker.as_checker gemma)
      by exact (@registry_functional _ name model _ Hnd Hin' Hin).
    subst model. apply Hne. unfold correction_entry.
    cbn [snd check_text GemmaChecker.as_checker]. rewrite Hrun. reflexivity.
Qed.

Lemma gemma_never_shown_witness :
  exists res corr,
    TamilTextAnalyzer.analyze_text gemma_registry (py "நான்") true true
    = Returns (res, corr)
    /\ dict_get res (py "Gemma") = Some [].
Proof.
  assert (Hnd : NoDup (dict_keys (TamilTextAnalyzer.models gemma_registry)))
    by (repeat constructor; simpl; tauto).
  destruct (@gemma_never_shown answering_groq gemma_registry (py "Gemma")
              sample_gemma (py "நான்") true true Hnd (or_introl eq_refl))
    as (res & corr & Hrun & Hres & _).
  now exists res, corr.
Defined.

(** ** Preprocessing *)

Lemma repeat_greedy_total {E : External} (a : Re.atom)
    (k : pystr -> option nat) (s : pystr) :
  (forall t, exists n, k t = Some n) ->
  exists n, Re.repeat_greedy a k s = Some n.
Proof.
  intros Hk. induction s as [|c s [n IH]]; cbn [Re.repeat_greedy];
    [apply Hk|].
  rewrite IH. destruct (Re.atom_matches a c); [eauto | apply Hk].
Qed.

(** X24.  [is_tamil_word] finds a match exactly in the words that contain a
    character of the Tamil block, so the filter of [preprocess_file] keeps
    those words, in their order, and drops the others. *)
Theorem tamil_words_kept {E : External} (words : list pystr) :
  (forall word,
     Re.is_some (Preprocessing.is_tamil_word word) = existsb tamil_char word)
  /\ Preprocessing.tamil_words_of words = filter (existsb tamil_char) words.
Proof.
  assert (Hword : forall word,
            Re.is_some (Preprocessing.is_tamil_word word)
            = existsb tamil_char word).
  { unfold Preprocessing.is_tamil_word, Preprocessing.tamil_regex.
    induction word as [|c word IH]; [reflexivity|].
    cbn [Re.search_from Re.match_here Re.atom_matches existsb].
    rewrite orb_false_r.
    change (Re.in_range c (2944%N, 3071%N)) with (tamil_char c).
    destruct (tamil_char c); cbn [orb].
    - match goal with
      | |- context [Re.repeat_greedy ?a ?k word] =>
        destruct (@repeat_greedy_total E a k word
                    ltac:(intros s; eexists; reflexivity)) as [n ->]
      end.
      reflexivity.
    - rewrite <- IH. now destruct (Re.search_from _ word) as [[i n]|]. }
  split; [exact Hword|].
  unfold Preprocessing.tamil_words_of.
  apply filter_ext. intros word. apply Hword.
Qed.

(** ** Corrections *)

Lemma corrections_get (text : pystr) (l : pydict Checker) (name s : pystr) :
  dict_get (flat_map (correction_entry text) l) name = Some s ->
  exists model errors,
    In (name, model) l
    /\ check_text model text = Returns errors
    /\ hasattr model "correct_spelling" = true
    /\ correct_spelling model text = Returns s.
Proof.
  induction l as [|[k head] l IH]; cbn [flat_map]; [discriminate|].
  assert (Hrest : dict_get (flat_map (correction_entry text) l) name = Some s ->
                  exists model errors,
                    In (name, model) ((k, head) :: l)
                    /\ check_text model text = Returns errors
                    /\ hasattr model "correct_spelling" = true
                    /\ correct_spelling model text = Returns s)
    by (intros H; destruct (IH H) as (m & errors & Hin & H');
        exists m, errors; split; [now right | exact H']).
  unfold correction_entry at 1. cbn [fst snd].
  destruct (check_text head text) as [errors|] eqn:Hc; [|exact Hrest].
  destruct (hasattr head "correct_spelling") eqn:Ha; [|exact Hrest].
  destruct (correct_spelling head text) as [corrected|] eqn:Hs;
    [|exact Hrest].
  cbn [app dict_get]. destruct (str_eqb name k) eqn:Hk; [|exact Hrest].
  intros H. injection H as <-. apply str_eqb_eq in Hk. subst k.
  exists head, errors. split; [now left | now repeat split].
Qed.

(** X25.  Whatever the registry, an entry of [corrections] exists only for
    a checker that has [correct_spelling] and whose [check_text] and
    [correct_spelling] both returned: the entry is the returned string, and
    the checker's entry in [results] is its filtered records. *)
Theorem corrections_only_from_correctors (self : TamilTextAnalyzer.t)
    (text : pystr) (check_spelling check_grammar : bool) :
  NoDup (dict_keys (TamilTextAnalyzer.models self)) ->
  exists res corr,
    TamilTextAnalyzer.analyze_text self text check_spelling check_grammar
    = Returns (res, corr)
    /\ forall name corrected,
         dict_get corr name = Some corrected ->
         exists model errors,
           In (name, model) (TamilTextAnalyzer.models self)
           /\ hasattr model "correct_spelling" = true
           /\ check_text model text = Returns errors
           /\ correct_spelling model text = Returns corrected
           /\ dict_get res name
              = Some (filter
                        (TamilTextAnalyzer.keeps check_spelling check_grammar)
                        errors).
Proof.
  intros Hnd.
  rewrite (@analyze_text_spec text check_spelling check_grammar self Hnd).
  eexists; eexists. split; [reflexivity|].
  intros name corrected Hget.
  apply corrections_get in Hget as (model & errors & Hin & Hc & Ha & Hs).
  exists model, errors. repeat (split; [assumption|]).
  assert (Hquiet : raised_in_try model text = None)
    by (unfold raised_in_try; now rewrite Hc, Ha, Hs).
  rewrite <- (@result_entry_quiet text check_spelling check_grammar model
                errors Hc Hquiet).
  apply dict_get_In.
  - unfold dict_keys. now rewrite map_map.
  - exact (in_map (fun item : pystr * Checker =>
                     (fst item,
                      result_entry text check_spelling check_grammar
                        (snd item))) _ _ Hin).
Qed.

Lemma corrections_only_from_correctors_witness :
  exists res corr,
    TamilTextAnalyzer.analyze_text correcting_registry (py "நான்") true true
    = Returns (res, corr).
Proof.
  assert (Hnd : NoDup (dict_keys
                         (TamilTextAnalyzer.models correcting_registry))).
  { repeat constructor; simpl; intros H;
      repeat match goal with
             | H : _ \/ _ |- _ => destruct H as [H | H]
             end;
      try contradiction; vm_compute in H; discriminate. }
  destruct (@corrections_only_from_correctors correcting_registry (py "நான்")
              true true Hnd) as (res & corr & Hrun & _).
  now exists res, corr.
Defined.

(** ** Empty input *)

Section EmptyInput.
Context {E : External}.

Lemma deep_learning_empty (self : DeepLearningChecker.t) :
  DeepLearningChecker.check_text self [] = Returns [].
Proof.
  unfold DeepLearningChecker.check_text.
  assert (Hsplit : DeepLearningChecker._split_sentences [] = [])
    by (vm_compute; reflexivity).
  now rewrite Hsplit.
Qed.

(** No pattern matches the empty word; what is left is the dictionary
    test. *)
Lemma check_word_empty (self : RuleBasedChecker.t) :
  RuleBasedChecker.check_word self []
  = if dict_mem (RuleBasedChecker.tamil_words self) []
    then []
    else [(py "spelling", py "Unknown word: ", [])].
Proof.
  unfold RuleBasedChecker.check_word.
  assert (Hspelling :
    RuleBasedChecker.matching_rules RuleBasedChecker.spelling_patterns
      (fun pattern => Re.match_ pattern []) (py "spelling") [] = [])
    by (vm_compute; reflexivity).
  assert (Hspacing :
    RuleBasedChecker.matching_rules RuleBasedChecker.word_spacing
      (fun pattern => Re.match_ pattern []) (py "spelling") [] = [])
    by (vm_compute; reflexivity).
  rewrite Hspelling, Hspacing, app_nil_r. cbn [existsb negb app].
  rewrite andb_true_r.
  now destruct (dict_mem (RuleBasedChecker.tamil_words self) []).
Qed.

Lemma rule_based_empty_tokens (self : RuleBasedChecker.t)
    (words : list pystr) :
  trivial_tokenize [] = Returns words ->
  RuleBasedChecker.check_text self []
  = Returns (flat_map (RuleBasedChecker.check_word self) words).
Proof.
  intros Hwords.
  assert (Hgrammar : RuleBasedChecker.check_grammar self [] = [])
    by (vm_compute; reflexivity).
  unfold RuleBasedChecker.check_text, RuleBasedChecker.check_spelling.
  rewrite Hwords. cbn [exc_bind try_except]. rewrite Hgrammar, app_nil_r.
  now destruct (flat_map (RuleBasedChecker.check_word self) words).
Qed.

Lemma low_confidence_finding (pred : list prob) (what text : pystr)
    (l : list ErrorRecord) :
  StatisticalChecker.low_confidence pred what text = Returns l ->
  List.length l <= 1
  /\ Forall (fun r => category r = py "statistical" /\ context r = text
                      /\ startswith (message r) (py "Possible ") = true) l.
Proof.
  unfold StatisticalChecker.low_confidence.
  destruct (index pred 0) as [p0|]; cbn [exc_bind]; [|discriminate].
  destruct (prob_lt_0_8 p0).
  - destruct (index pred 1) as [p1|]; cbn [exc_bind]; [|discriminate].
    intros H. injection H as <-. split; [simpl; lia|].
    repeat constructor.
  - intros H. injection H as <-. split; [simpl; lia | constructor].
Qed.

Lemma statistical_empty (self : StatisticalChecker.t) :
  StatisticalChecker._analyze_patterns self [] = []
  /\ exists l,
       StatisticalChecker.check_text self [] = Returns l
       /\ ((List.length l <= 2
            /\ Forall (fun r => category r = py "statistical"
                                /\ context r = []
                                /\ startswith (message r) (py "Possible ")
                                   = true) l)
           \/ exists msg, l = [(py "error", msg, [])]).
Proof.
  assert (Hpatterns : StatisticalChecker._analyze_patterns self [] = [])
    by (vm_compute; reflexivity).
  split; [exact Hpatterns|].
  unfold StatisticalChecker.check_text.
  destruct (StatisticalChecker.analysis self []) as [l|e] eqn:Hbody;
    cbn [try_except]; eexists; (split; [reflexivity|]); [left | right; eauto].
  unfold StatisticalChecker.analysis in Hbody.
  destruct (StatisticalChecker._extract_features self []) as [feats|];
    cbn [exc_bind] in Hbody; [|discriminate].
  destruct (spelling_predict_proba _ feats) as [sp|];
    cbn [exc_bind] in Hbody; [|discriminate].
  destruct (index sp 0) as [spelling_pred|];
    cbn [exc_bind] in Hbody; [|discriminate].
  destruct (grammar_predict_proba _ feats) as [gp|];
    cbn [exc_bind] in Hbody; [|discriminate].
  destruct (index gp 0) as [grammar_pred|];
    cbn [exc_bind] in Hbody; [|discriminate].
  destruct (StatisticalChecker.low_confidence spelling_pred _ [])
    as [e1|] eqn:H1; cbn [exc_bind] in Hbody; [|discriminate].
  destruct (StatisticalChecker.low_confidence grammar_pred _ [])
    as [e2|] eqn:H2; cbn [exc_bind] in Hbody; [|discriminate].
  rewrite Hpatterns, app_nil_r in Hbody. injection Hbody as <-.
  destruct (@low_confidence_finding _ _ _ _ H1) as [L1 F1].
  destruct (@low_confidence_finding _ _ _ _ H2) as [L2 F2].
  split; [rewrite length_app; lia | apply Forall_app; now split].
Qed.

End EmptyInput.

(** C2, as the code has it.  For the analyzer [TamilTextAnalyzer()] builds,
    [analyze_text] returns for every text and every flags, and [results] has
    the three registered names as its keys.  On the empty text no checker
    raises, and none describes the empty input as such.  The deep-learning
    checker returns the empty list.  The rule-based checker returns no
    grammar record and the spelling records of the tokens the tokenizer
    gives for the empty text: for the empty token, unless the dictionary
    has it, the finding [('spelling', 'Unknown word: ', '')]; if the
    tokenizer raises, its single [error] record.  The statistical checker
    finds no pattern and returns at most its two "Possible ... errors"
    records about the empty text, or its single [error] record. *)
Theorem analysis_never_raises {E : External} (a : TamilTextAnalyzer.t) :
  TamilTextAnalyzer.__init__ = Returns a ->
  (forall text check_spelling check_grammar,
     exists res corr,
       TamilTextAnalyzer.analyze_text a text check_spelling check_grammar
       = Returns (res, corr)
       /\ dict_keys res = dict_keys (TamilTextAnalyzer.models a))
  /\ dict_keys (TamilTextAnalyzer.models a)
     = [py "Rule-based"; py "Deep Learning"; py "Statistical"]
  /\ exists rb dl st,
       TamilTextAnalyzer.models a = [
         (py "Rule-based", RuleBasedChecker.as_checker rb);
         (py "Deep Learning", DeepLearningChecker.as_checker dl);
         (py "Statistical", StatisticalChecker.as_checker st)
       ]
       /\ DeepLearningChecker.check_text dl (py "") = Returns []
       /\ (forall words,
             trivial_tokenize (py "") = Returns words ->
             RuleBasedChecker.check_text rb (py "")
             = Returns (flat_map (RuleBasedChecker.check_word rb) words))
       /\ RuleBasedChecker.check_word rb (py "")
          = (if dict_mem (RuleBasedChecker.tamil_words rb) (py "")
             then []
             else [(py "spelling", py "Unknown word: ", py "")])
       /\ (forall e,
             trivial_tokenize (py "") = Raises e ->
             RuleBasedChecker.check_text rb (py "")
             = Returns [(py "error",
                         py "Error in text analysis: " ++ exn_str e, py "")])
       /\ StatisticalChecker._analyze_patterns st (py "") = []
       /\ exists l,
            StatisticalChecker.check_text st (py "") = Returns l
            /\ ((List.length l <= 2
                 /\ Forall (fun r => category r = py "statistical"
                                     /\ context r = py ""
                                     /\ startswith (message r)
                                          (py "Possible ") = true) l)
                \/ exists msg, l = [(py "error", msg, py "")]).
Proof.
  intros Ha. split.
  { intros text check_spelling check_grammar.
    rewrite (@analyze_text_spec text check_spelling check_grammar a
               (registered_nodup Ha)).
    eexists; eexists. split; [reflexivity|].
    unfold dict_keys. now rewrite map_map. }
  split; [now destruct (registered_quiet [] Ha)|].
  destruct (init_models Ha) as (rb & dl & st & _ & _ & _ & Hm).
  exists rb, dl, st. change (py "") with (@nil codepoint).
  split; [exact Hm|].
  split; [apply deep_learning_empty|].
  split; [intros words; apply rule_based_empty_tokens|].
  split; [apply check_word_empty|].
  split.
  { intros e He.
    unfold RuleBasedChecker.check_text, RuleBasedChecker.check_spelling.
    now rewrite He. }
  apply statistical_empty.
Qed.

Lemma analysis_never_raises_witness :
  exists res corr,
    TamilTextAnalyzer.analyze_text sample_analyzer (py "") true true
    = Returns (res, corr)
    /\ dict_keys res = [py "Rule-based"; py "Deep Learning"; py "Statistical"].
Proof.
  assert (Hinit : @TamilTextAnalyzer.__init__ sample_external
                  = Returns sample_analyzer) by reflexivity.
  destruct (@analysis_never_raises sample_external sample_analyzer Hinit)
    as (Hrun & _ & _).
  destruct (Hrun (py "") true true) as (res & corr & Hres & Hkeys).
  exists res, corr. split; [exact Hres | exact Hkeys].
Defined.

(** C2 as stated fails on the rule-based checker: the tokenizer turns the
    empty text into one empty token, and [check_text] returns neither an
    empty list nor a record describing the empty input, but the spelling
    finding "Unknown word: " about that token, which the analyzer shows as
    a spelling error. *)
Lemma empty_text_reported_as_unknown_word :
  @trivial_tokenize sample_external (py "") = Returns [py ""]
  /\ @RuleBasedChecker.check_text sample_external sample_rule_based (py "")
     = Returns [(py "spelling", py "Unknown word: ", py "")]
  /\ [(py "spelling", py "Unknown word: ", py "")] <> @nil ErrorRecord
  /\ ~ In (category (py "spelling", py "Unknown word: ", py ""))
         [py "error"; py "info"]
  /\ TamilTextAnalyzer.analyze_text sample_analyzer (py "") true true
     = Returns ([(py "Rule-based",
                  [(py "spelling", py "Unknown word: ", py "")]);
                 (py "Deep Learning", []); (py "Statistical", [])], []).
Proof.
  split; [reflexivity|].
  split; [vm_compute; reflexivity|].
  split; [discriminate|].
  split.
  - simpl. intros [H | [H | []]]; vm_compute in H; discriminate.
  - vm_compute. reflexivity.
Qed.
